(** * go-app: the HTTP handler of package [app]

    A shallow embedding of [pkg/app/http.go]: the [Handler] type, its
    one-time initialisation, the request dispatch of [ServeHTTP], the
    proxy-resource fetch-and-cache path and the parser of HTTP resource
    descriptors, together with the properties the design document states
    about them.

    Go strings are byte sequences and are modelled by [string] (a list of
    8-bit characters); [[]byte] payloads are modelled the same way.  Go maps
    are [gmap]s and the set built by [makeAppWorkerJS] is a [gset]. *)

From Stdlib Require Import Ascii String List ZArith Lia.
From stdpp Require Import base gmap strings list sorting pretty.

Local Open Scope Z_scope.
Local Open Scope stdpp_scope.

(** ** Go's [strings] package

    The functions of the standard library that the handler calls, on the
    byte representation.  [TrimSpace] and [ToLower] are Go's functions on
    strings of 7-bit bytes, for which Go itself works byte by byte; on a
    string with a byte above 0x7f Go decodes UTF-8 (Unicode white space and
    letters), which is not modelled: such bytes are left untouched here, and
    the theorem on the parser is about strings of 7-bit bytes ([isASCII]). *)
Module strings.

Definition HasPrefix (s prefix : string) : bool := String.prefix prefix s.

Fixpoint drop (n : nat) (s : string) : string :=
  match n, s with
  | O, _ => s
  | S n', String _ s' => drop n' s'
  | S _, EmptyString => EmptyString
  end.

Definition HasSuffix (s suffix : string) : bool :=
  if decide (drop (String.length s - String.length suffix) s = suffix)
  then true else false.

Definition TrimPrefix (s prefix : string) : string :=
  if HasPrefix s prefix then drop (String.length prefix) s else s.

(** [strings.Split s sep] for a separator of one byte. *)
Fixpoint Split (s : string) (sep : ascii) : list string :=
  match s with
  | EmptyString => [EmptyString]
  | String c s' =>
      if Ascii.eqb c sep then EmptyString :: Split s' sep
      else match Split s' sep with
           | tok :: toks => String c tok :: toks
           | [] => [String c EmptyString]
           end
  end.

(** ASCII white space as [unicode.IsSpace] has it: tab, line feed,
    vertical tab, form feed, carriage return and space. *)
Definition isSpace (c : ascii) : bool :=
  match c with
  | "009" | "010" | "011" | "012" | "013" | " " => true
  | _ => false
  end%char.

Fixpoint trimLeft (s : string) : string :=
  match s with
  | String c s' => if isSpace c then trimLeft s' else s
  | EmptyString => EmptyString
  end.

Fixpoint trimRight (s : string) : string :=
  match s with
  | EmptyString => EmptyString
  | String c s' =>
      match trimRight s' with
      | EmptyString => if isSpace c then EmptyString else String c EmptyString
      | t => String c t
      end
  end.

Definition TrimSpace (s : string) : string := trimRight (trimLeft s).

Definition toLowerByte (c : ascii) : ascii :=
  let n := N_of_ascii c in
  if ((65 <=? n) && (n <=? 90))%N then ascii_of_N (n + 32) else c.

Fixpoint ToLower (s : string) : string :=
  match s with
  | EmptyString => EmptyString
  | String c s' => String (toLowerByte c) (ToLower s')
  end.

(** [strings.Compare]: -1, 0 or +1 by byte-wise lexicographic order. *)
Definition Compare (a b : string) : Z :=
  match String.compare a b with
  | Lt => -1
  | Eq => 0
  | Gt => 1
  end.

End strings.

(** The strings of 7-bit bytes: every byte is below [utf8.RuneSelf]. *)
Definition isASCII (s : string) : bool :=
  forallb (fun c => (N_of_ascii c <? 128)%N) (list_ascii_of_string s).

(** ** HTTP resource descriptors *)

Record httpResource := mkHTTPResource {
  URL : string;
  LoadingMode : string;
  CrossOrigin : string;
}.

(** The body of the loop of [parseHTTPResource], for one element of the
    split, [res] being the descriptor built so far. *)
Definition parseHTTPResource_elem (res : httpResource) (elem : string) : httpResource :=
  let elem := strings.TrimSpace elem in
  if decide (elem = "") then res
  else
    let elem := strings.ToLower elem in
    if decide (elem = "crossorigin") then
      mkHTTPResource (URL res) (LoadingMode res) "true"
    else if strings.HasPrefix elem "crossorigin=" then
      mkHTTPResource (URL res) (LoadingMode res) (strings.TrimPrefix elem "crossorigin=")
    else if decide (elem = "defer") then
      mkHTTPResource (URL res) "defer" (CrossOrigin res)
    else if decide (elem = "async") then
      mkHTTPResource (URL res) "async" (CrossOrigin res)
    else
      mkHTTPResource elem (LoadingMode res) (CrossOrigin res).

Definition parseHTTPResource (v : string) : httpResource :=
  fold_left parseHTTPResource_elem (strings.Split v " "%char) (mkHTTPResource "" "" "").

(** ** Outcomes

    A Go call either returns or panics.  [template.Must], a failed template
    execution and a nil dereference panic. *)

Inductive outcome (A : Type) : Type :=
  | Ok (a : A)
  | Panic (msg : string).
Arguments Ok {A} a.
Arguments Panic {A} msg.

Global Instance outcome_ret : MRet outcome := @Ok.
Global Instance outcome_bind : MBind outcome := fun A B f m =>
  match m with
  | Ok a => f a
  | Panic msg => Panic msg
  end.

(** What a call does to the world outside the handler, in order. *)
Inductive event : Type :=
  | Setenv (key value : string)   (* os.Setenv *)
  | HTTPGet (url : string)        (* http.Get *)
  | Logged (msg : string).        (* app.Log *)

(** ** net/http *)

Definition StatusOK : Z := 200.
Definition StatusNotModified : Z := 304.
Definition StatusNotFound : Z := 404.
Definition StatusInternalServerError : Z := 500.

Module Header.
(** [http.Header.Get]: the value of the key, or the empty string. *)
Definition Get (key : string) (hd : gmap string string) : string :=
  default "" (hd !! key).
Definition Set_ (key value : string) (hd : gmap string string) : gmap string string :=
  <[key := value]> hd.
End Header.

Module Request.
Record t := mk {
  Path : string;                 (* r.URL.Path *)
  Host : string;
  TLS : bool;                    (* r.TLS != nil *)
  Header : gmap string string;
}.
End Request.

(** An [http.ResponseWriter]: the header map, the status code once the
    header is written, and the bytes of the body written so far. *)
Module ResponseWriter.
Record t := mk {
  Header : gmap string string;
  Status : option Z;
  Written : string;
}.

Definition new : t := mk ∅ None "".

Definition SetHeader (key value : string) (w : t) : t :=
  mk (Header.Set_ key value (Header w)) (Status w) (Written w).

(** Only the first [WriteHeader] counts. *)
Definition WriteHeader (code : Z) (w : t) : t :=
  match Status w with
  | Some _ => w
  | None => mk (Header w) (Some code) (Written w)
  end.

(** [Write] sends the header with [StatusOK] if none was sent. *)
Definition Write (b : string) (w : t) : t :=
  let w := WriteHeader StatusOK w in
  mk (Header w) (Status w) (Written w +:+ b).
End ResponseWriter.

(** [http.NotFound]. *)
Definition http_NotFound (w : ResponseWriter.t) : ResponseWriter.t :=
  let w := ResponseWriter.SetHeader "Content-Type" "text/plain; charset=utf-8" w in
  let w := ResponseWriter.SetHeader "X-Content-Type-Options" "nosniff" w in
  let w := ResponseWriter.WriteHeader StatusNotFound w in
  ResponseWriter.Write ("404 page not found" +:+ String "010"%char "") w.

(** What [http.Get] hands back: a transport error, or a response whose body
    can be read or fails while being read. *)
Module Response.
Record t := mk {
  StatusCode : Z;
  Header : gmap string string;
  Body : option string;          (* io.ReadAll: [None] is a read error *)
}.
End Response.

(** ** Collaborators of the handler *)

(** A [ResourceResolver]; [asHandler] is the result of the type assertion
    [h.Resources.(http.Handler)]. *)
Record ResourceResolver := mkResolver {
  Resolve : string -> string;
  asHandler : option (Request.t -> ResponseWriter.t -> ResponseWriter.t);
}.

(** A [Library], by what [Styles()] returns: the path and the styles. *)
Definition Library : Type := string * string.

(** The functions a handler can hold in [HTML] and [Body]. *)
Inductive pageFunc : Type :=
  | app_Html
  | app_Body
  | userFunc (name : string).

Module Icon.
Record t := mk {
  Default : string;
  Large : string;
  SVG : string;
  Maskable : string;
}.
End Icon.

Module ProxyResource.
Record t := mk {
  Path : string;
  ResourcePath : string;
}.
End ProxyResource.

Module cacheItem.
Record t := mk {
  Path : string;
  ContentType : string;
  ContentEncoding : string;
  Body : string;
}.
Definition Len (i : t) : Z := Z.of_nat (String.length (Body i)).
End cacheItem.

(** Modelled from the spec: [memoryCache] (its file is not part of the
    sources at hand) is a mapping from path to cache item with get and set;
    the capacity is only an allocation hint and no entry is ever evicted. *)
Abbreviation memoryCache := (gmap string cacheItem.t).

Definition newMemoryCache (size : Z) : memoryCache := ∅.

Module Cache.
Definition Get (path : string) (c : memoryCache) : option cacheItem.t := c !! path.
Definition Set_ (i : cacheItem.t) (c : memoryCache) : memoryCache :=
  <[cacheItem.Path i := i]> c.
End Cache.

(** ** The handler *)

Record Handler := mkHandler {
  Name : string;
  ShortName : string;
  Icon : Icon.t;
  BackgroundColor : string;
  ThemeColor : string;
  LoadingLabel : string;
  Lang : string;
  Libraries : list Library;
  Title : string;
  Description : string;
  Domain : string;
  Author : string;
  Keywords : list string;
  Image : string;
  Styles : list string;
  Fonts : list string;
  Scripts : list string;
  CacheableResources : list string;
  RawHeaders : list string;
  HTML : option pageFunc;
  Body : option pageFunc;
  Env : option (gmap string string);
  InternalURLs : list string;
  Preconnect : list string;
  ProxyResources : list ProxyResource.t;
  Resources : option ResourceResolver;
  Version : string;
  WasmContentLength : string;
  WasmContentLengthHeader : string;
  ServiceWorkerTemplate : string;
  once : bool;
  etag : string;
  libraries : gmap string string;
  proxyResources : gmap string ProxyResource.t;
  cachedProxyResources : option memoryCache;
  cachedPWAResources : option memoryCache;
}.

Definition set_Name (x : string) (h : Handler) : Handler :=
  mkHandler x (ShortName h) (Icon h) (BackgroundColor h) (ThemeColor h)
    (LoadingLabel h) (Lang h) (Libraries h) (Title h) (Description h)
    (Domain h) (Author h) (Keywords h) (Image h) (Styles h) (Fonts h)
    (Scripts h) (CacheableResources h) (RawHeaders h) (HTML h) (Body h)
    (Env h) (InternalURLs h) (Preconnect h) (ProxyResources h) (Resources h)
    (Version h) (WasmContentLength h) (WasmContentLengthHeader h)
    (ServiceWorkerTemplate h) (once h) (etag h) (libraries h)
    (proxyResources h) (cachedProxyResources h) (cachedPWAResources h).

Definition set_ShortName (x : string) (h : Handler) : Handler :=
  mkHandler (Name h) x (Icon h) (BackgroundColor h) (ThemeColor h)
    (LoadingLabel h) (Lang h) (Libraries h) (Title h) (Description h)
    (Domain h) (Author h) (Keywords h) (Image h) (Styles h) (Fonts h)
    (Scripts h) (CacheableResources h) (RawHeaders h) (HTML h) (Body h)
    (Env h) (InternalURLs h) (Preconnect h) (ProxyResources h) (Resources h)
    (Version h) (WasmContentLength h) (WasmContentLengthHeader h)
    (ServiceWorkerTemplate h) (once h) (etag h) (libraries h)
    (proxyResources h) (cachedProxyResources h) (cachedPWAResources h).

Definition set_Icon (x : Icon.t) (h : Handler) : Handler :=
  mkHandler (Name h) (ShortName h) x (BackgroundColor h) (ThemeColor h)
    (LoadingLabel h) (Lang h) (Libraries h) (Title h) (Description h)
    (Domain h) (Author h) (Keywords h) (Image h) (Styles h) (Fonts h)
    (Scripts h) (CacheableResources h) (RawHeaders h) (HTML h) (Body h)
    (Env h) (InternalURLs h) (Preconnect h) (ProxyResources h) (Resources h)
    (Version h) (WasmContentLength h) (WasmContentLengthHeader h)
    (ServiceWorkerTemplate h) (once h) (etag h) (libraries h)
    (proxyResources h) (cachedProxyResources h) (cachedPWAResources h).

Definition set_BackgroundColor (x : string) (h : Handler) : Handler :=
  mkHandler (Name h) (ShortName h) (Icon h) x (ThemeColor h) (LoadingLabel h)
    (Lang h) (Libraries h) (Title h) (Description h) (Domain h) (Author h)
    (Keywords h) (Image h) (Styles h) (Fonts h) (Scripts h)
    (CacheableResources h) (RawHeaders h) (HTML h) (Body h) (Env h)
    (InternalURLs h) (Preconnect h) (ProxyResources h) (Resources h)
    (Version h) (WasmContentLength h) (WasmContentLengthHeader h)
    (ServiceWorkerTemplate h) (once h) (etag h) (libraries h)
    (proxyResources h) (cachedProxyResources h) (cachedPWAResources h).

Definition set_ThemeColor (x : string) (h : Handler) : Handler :=
  mkHandler (Name h) (ShortName h) (Icon h) (BackgroundColor h) x
    (LoadingLabel h) (Lang h) (Libraries h) (Title h) (Description h)
    (Domain h) (Author h) (Keywords h) (Image h) (Styles h) (Fonts h)
    (Scripts h) (CacheableResources h) (RawHeaders h) (HTML h) (Body h)
    (Env h) (InternalURLs h) (Preconnect h) (ProxyResources h) (Resources h)
    (Version h) (WasmContentLength h) (WasmContentLengthHeader h)
    (ServiceWorkerTemplate h) (once h) (etag h) (libraries h)
    (proxyResources h) (cachedProxyResources h) (cachedPWAResources h).

Definition set_LoadingLabel (x : string) (h : Handler) : Handler :=
  mkHandler (Name h) (ShortName h) (Icon h) (BackgroundColor h) (ThemeColor h)
    x (Lang h) (Libraries h) (Title h) (Description h) (Domain h) (Author h)
    (Keywords h) (Image h) (Styles h) (Fonts h) (Scripts h)
    (CacheableResources h) (RawHeaders h) (HTML h) (Body h) (Env h)
    (InternalURLs h) (Preconnect h) (ProxyResources h) (Resources h)
    (Version h) (WasmContentLength h) (WasmContentLengthHeader h)
    (ServiceWorkerTemplate h) (once h) (etag h) (libraries h)
    (proxyResources h) (cachedProxyResources h) (cachedPWAResources h).

Definition set_Lang (x : string) (h : Handler) : Handler :=
  mkHandler (Name h) (ShortName h) (Icon h) (BackgroundColor h) (ThemeColor h)
    (LoadingLabel h) x (Libraries h) (Title h) (Description h) (Domain h)
    (Author h) (Keywords h) (Image h) (Styles h) (Fonts h) (Scripts h)
    (CacheableResources h) (RawHeaders h) (HTML h) (Body h) (Env h)
    (InternalURLs h) (Preconnect h) (ProxyResources h) (Resources h)
    (Version h) (WasmContentLength h) (WasmContentLengthHeader h)
    (ServiceWorkerTemplate h) (once h) (etag h) (libraries h)
    (proxyResources h) (cachedProxyResources h) (cachedPWAResources h).

Definition set_Styles (x : list string) (h : Handler) : Handler :=
  mkHandler (Name h) (ShortName h) (Icon h) (BackgroundColor h) (ThemeColor h)
    (LoadingLabel h) (Lang h) (Libraries h) (Title h) (Description h)
    (Domain h) (Author h) (Keywords h) (Image h) x (Fonts h) (Scripts h)
    (CacheableResources h) (RawHeaders h) (HTML h) (Body h) (Env h)
    (InternalURLs h) (Preconnect h) (ProxyResources h) (Resources h)
    (Version h) (WasmContentLength h) (WasmContentLengthHeader h)
    (ServiceWorkerTemplate h) (once h) (etag h) (libraries h)
    (proxyResources h) (cachedProxyResources h) (cachedPWAResources h).

Definition set_HTML (x : option pageFunc) (h : Handler) : Handler :=
  mkHandler (Name h) (ShortName h) (Icon h) (BackgroundColor h) (ThemeColor h)
    (LoadingLabel h) (Lang h) (Libraries h) (Title h) (Description h)
    (Domain h) (Author h) (Keywords h) (Image h) (Styles h) (Fonts h)
    (Scripts h) (CacheableResources h) (RawHeaders h) x (Body h) (Env h)
    (InternalURLs h) (Preconnect h) (ProxyResources h) (Resources h)
    (Version h) (WasmContentLength h) (WasmContentLengthHeader h)
    (ServiceWorkerTemplate h) (once h) (etag h) (libraries h)
    (proxyResources h) (cachedProxyResources h) (cachedPWAResources h).

Definition set_Body (x : option pageFunc) (h : Handler) : Handler :=
  mkHandler (Name h) (ShortName h) (Icon h) (BackgroundColor h) (ThemeColor h)
    (LoadingLabel h) (Lang h) (Libraries h) (Title h) (Description h)
    (Domain h) (Author h) (Keywords h) (Image h) (Styles h) (Fonts h)
    (Scripts h) (CacheableResources h) (RawHeaders h) (HTML h) x (Env h)
    (InternalURLs h) (Preconnect h) (ProxyResources h) (Resources h)
    (Version h) (WasmContentLength h) (WasmContentLengthHeader h)
    (ServiceWorkerTemplate h) (once h) (etag h) (libraries h)
    (proxyResources h) (cachedProxyResources h) (cachedPWAResources h).

Definition set_Env (x : option (gmap string string)) (h : Handler) : Handler :=
  mkHandler (Name h) (ShortName h) (Icon h) (BackgroundColor h) (ThemeColor h)
    (LoadingLabel h) (Lang h) (Libraries h) (Title h) (Description h)
    (Domain h) (Author h) (Keywords h) (Image h) (Styles h) (Fonts h)
    (Scripts h) (CacheableResources h) (RawHeaders h) (HTML h) (Body h) x
    (InternalURLs h) (Preconnect h) (ProxyResources h) (Resources h)
    (Version h) (WasmContentLength h) (WasmContentLengthHeader h)
    (ServiceWorkerTemplate h) (once h) (etag h) (libraries h)
    (proxyResources h) (cachedProxyResources h) (cachedPWAResources h).

Definition set_Resources (x : option ResourceResolver) (h : Handler) : Handler :=
  mkHandler (Name h) (ShortName h) (Icon h) (BackgroundColor h) (ThemeColor h)
    (LoadingLabel h) (Lang h) (Libraries h) (Title h) (Description h)
    (Domain h) (Author h) (Keywords h) (Image h) (Styles h) (Fonts h)
    (Scripts h) (CacheableResources h) (RawHeaders h) (HTML h) (Body h)
    (Env h) (InternalURLs h) (Preconnect h) (ProxyResources h) x (Version h)
    (WasmContentLength h) (WasmContentLengthHeader h)
    (ServiceWorkerTemplate h) (once h) (etag h) (libraries h)
    (proxyResources h) (cachedProxyResources h) (cachedPWAResources h).

Definition set_Version (x : string) (h : Handler) : Handler :=
  mkHandler (Name h) (ShortName h) (Icon h) (BackgroundColor h) (ThemeColor h)
    (LoadingLabel h) (Lang h) (Libraries h) (Title h) (Description h)
    (Domain h) (Author h) (Keywords h) (Image h) (Styles h) (Fonts h)
    (Scripts h) (CacheableResources h) (RawHeaders h) (HTML h) (Body h)
    (Env h) (InternalURLs h) (Preconnect h) (ProxyResources h) (Resources h) x
    (WasmContentLength h) (WasmContentLengthHeader h)
    (ServiceWorkerTemplate h) (once h) (etag h) (libraries h)
    (proxyResources h) (cachedProxyResources h) (cachedPWAResources h).

Definition set_ServiceWorkerTemplate (x : string) (h : Handler) : Handler :=
  mkHandler (Name h) (ShortName h) (Icon h) (BackgroundColor h) (ThemeColor h)
    (LoadingLabel h) (Lang h) (Libraries h) (Title h) (Description h)
    (Domain h) (Author h) (Keywords h) (Image h) (Styles h) (Fonts h)
    (Scripts h) (CacheableResources h) (RawHeaders h) (HTML h) (Body h)
    (Env h) (InternalURLs h) (Preconnect h) (ProxyResources h) (Resources h)
    (Version h) (WasmContentLength h) (WasmContentLengthHeader h) x (once h)
    (etag h) (libraries h) (proxyResources h) (cachedProxyResources h)
    (cachedPWAResources h).

Definition set_once (x : bool) (h : Handler) : Handler :=
  mkHandler (Name h) (ShortName h) (Icon h) (BackgroundColor h) (ThemeColor h)
    (LoadingLabel h) (Lang h) (Libraries h) (Title h) (Description h)
    (Domain h) (Author h) (Keywords h) (Image h) (Styles h) (Fonts h)
    (Scripts h) (CacheableResources h) (RawHeaders h) (HTML h) (Body h)
    (Env h) (InternalURLs h) (Preconnect h) (ProxyResources h) (Resources h)
    (Version h) (WasmContentLength h) (WasmContentLengthHeader h)
    (ServiceWorkerTemplate h) x (etag h) (libraries h) (proxyResources h)
    (cachedProxyResources h) (cachedPWAResources h).

Definition set_etag (x : string) (h : Handler) : Handler :=
  mkHandler (Name h) (ShortName h) (Icon h) (BackgroundColor h) (ThemeColor h)
    (LoadingLabel h) (Lang h) (Libraries h) (Title h) (Description h)
    (Domain h) (Author h) (Keywords h) (Image h) (Styles h) (Fonts h)
    (Scripts h) (CacheableResources h) (RawHeaders h) (HTML h) (Body h)
    (Env h) (InternalURLs h) (Preconnect h) (ProxyResources h) (Resources h)
    (Version h) (WasmContentLength h) (WasmContentLengthHeader h)
    (ServiceWorkerTemplate h) (once h) x (libraries h) (proxyResources h)
    (cachedProxyResources h) (cachedPWAResources h).

Definition set_libraries (x : gmap string string) (h : Handler) : Handler :=
  mkHandler (Name h) (ShortName h) (Icon h) (BackgroundColor h) (ThemeColor h)
    (LoadingLabel h) (Lang h) (Libraries h) (Title h) (Description h)
    (Domain h) (Author h) (Keywords h) (Image h) (Styles h) (Fonts h)
    (Scripts h) (CacheableResources h) (RawHeaders h) (HTML h) (Body h)
    (Env h) (InternalURLs h) (Preconnect h) (ProxyResources h) (Resources h)
    (Version h) (WasmContentLength h) (WasmContentLengthHeader h)
    (ServiceWorkerTemplate h) (once h) (etag h) x (proxyResources h)
    (cachedProxyResources h) (cachedPWAResources h).

Definition set_proxyResources (x : gmap string ProxyResource.t) (h : Handler) : Handler :=
  mkHandler (Name h) (ShortName h) (Icon h) (BackgroundColor h) (ThemeColor h)
    (LoadingLabel h) (Lang h) (Libraries h) (Title h) (Description h)
    (Domain h) (Author h) (Keywords h) (Image h) (Styles h) (Fonts h)
    (Scripts h) (CacheableResources h) (RawHeaders h) (HTML h) (Body h)
    (Env h) (InternalURLs h) (Preconnect h) (ProxyResources h) (Resources h)
    (Version h) (WasmContentLength h) (WasmContentLengthHeader h)
    (ServiceWorkerTemplate h) (once h) (etag h) (libraries h) x
    (cachedProxyResources h) (cachedPWAResources h).

Definition set_cachedProxyResources (x : option memoryCache) (h : Handler) : Handler :=
  mkHandler (Name h) (ShortName h) (Icon h) (BackgroundColor h) (ThemeColor h)
    (LoadingLabel h) (Lang h) (Libraries h) (Title h) (Description h)
    (Domain h) (Author h) (Keywords h) (Image h) (Styles h) (Fonts h)
    (Scripts h) (CacheableResources h) (RawHeaders h) (HTML h) (Body h)
    (Env h) (InternalURLs h) (Preconnect h) (ProxyResources h) (Resources h)
    (Version h) (WasmContentLength h) (WasmContentLengthHeader h)
    (ServiceWorkerTemplate h) (once h) (etag h) (libraries h)
    (proxyResources h) x (cachedPWAResources h).

Definition set_cachedPWAResources (x : option memoryCache) (h : Handler) : Handler :=
  mkHandler (Name h) (ShortName h) (Icon h) (BackgroundColor h) (ThemeColor h)
    (LoadingLabel h) (Lang h) (Libraries h) (Title h) (Description h)
    (Domain h) (Author h) (Keywords h) (Image h) (Styles h) (Fonts h)
    (Scripts h) (CacheableResources h) (RawHeaders h) (HTML h) (Body h)
    (Env h) (InternalURLs h) (Preconnect h) (ProxyResources h) (Resources h)
    (Version h) (WasmContentLength h) (WasmContentLengthHeader h)
    (ServiceWorkerTemplate h) (once h) (etag h) (libraries h)
    (proxyResources h) (cachedProxyResources h) x.

(** ** The world around the handler

    What the handler reads from or calls in its process, in the standard
    library and in the rest of the package: the clock, the bundled texts,
    the template engine, the JSON encoder, the order in which the runtime
    walks a map, the environment, the network and the page renderer. *)
Record World := mkWorld {
  (** [fmt.Sprintf("%x", sha1.Sum([]byte(time.Now().UTC().String())))] *)
  nowSHA1 : string;
  (** [LocalDir] *)
  LocalDir : string -> ResourceResolver;
  (** the constants [DefaultAppWorkerJS], [appJS], [manifestJSON], [appCSS]
      and the function [wasmExecJS] *)
  DefaultAppWorkerJS : string;
  appJS : string;
  manifestJSON : string;
  appCSS : string;
  wasmExecJS : string;
  (** [template.Must(template.New(name).Parse(text)).Execute(&b, data)]:
      the bytes written, or [None] where parsing or execution fails *)
  templateExecute : string -> string -> list (string * string) -> option string;
  (** [json.Marshal] of a [[]string], and [jsonString] of a [[]string] and
      of a [map[string]string] *)
  jsonMarshal : list string -> string;
  jsonString : list string -> string;
  jsonStringMap : gmap string string -> string;
  (** the order in which [range] walks a map holding the given keys *)
  rangeOrder : list string -> list string;
  (** [os.Setenv]: whether it returns an error *)
  setenvFails : string -> string -> bool;
  (** [http.Get]: [None] is a transport error *)
  httpGet : string -> option Response.t;
  (** [routes.routed] *)
  routed : string -> bool;
  (** the page built and encoded by [servePage] for a handler and a
      request: the document, or [None] where [engine.Encode] fails *)
  encodePage : Handler -> Request.t -> option string;
}.

(** ** One-time initialisation *)

(** The double-quote character, as a string. *)
Definition dquote : string := String "034"%char "".

Definition initVersion (W : World) (h : Handler) : Handler :=
  let h := if decide (Version h = "") then set_Version (nowSHA1 W) h else h in
  set_etag (dquote +:+ Version h +:+ dquote) h.

Definition initStaticResources (W : World) (h : Handler) : Handler :=
  match Resources h with
  | None => set_Resources (Some (LocalDir W "")) h
  | Some _ => h
  end.

Definition initLibraries (h : Handler) : Handler :=
  let libs :=
    fold_left
      (fun (libs : gmap string string) (l : Library) =>
         let '(path, styles) := l in
         if negb (strings.HasPrefix path "/") || (String.length styles =? 0)%nat
         then libs
         else <[path := styles]> libs)
      (Libraries h) ∅ in
  set_libraries libs h.

(** The keys of a map in the order [range] visits them. *)
Definition rangeKeys {V} (W : World) (m : gmap string V) : list string :=
  rangeOrder W (map_to_list m).*1.

Definition initLinks (W : World) (h : Handler) : Handler :=
  let styles := ["/app.css"] in
  let styles := fold_left (fun styles path => styles ++ [path]) (rangeKeys W (libraries h)) styles in
  set_Styles (styles ++ Styles h) h.

Definition initServiceWorker (W : World) (h : Handler) : Handler :=
  if decide (ServiceWorkerTemplate h = "")
  then set_ServiceWorkerTemplate (DefaultAppWorkerJS W) h
  else h.

Definition placeholderPNG : string :=
  "https://raw.githubusercontent.com/maxence-charriere/go-app/master/docs/web/icon.png".
Definition placeholderSVG : string :=
  "https://raw.githubusercontent.com/maxence-charriere/go-app/master/docs/web/icon.svg".

Definition initIcon (h : Handler) : Handler :=
  let i := Icon h in
  let i :=
    if decide (Icon.Default i = "")
    then Icon.mk placeholderPNG placeholderPNG (Icon.SVG i) (Icon.Maskable i)
    else i in
  let i :=
    if decide (Icon.Maskable i = "")
    then Icon.mk (Icon.Default i) (Icon.Large i) (Icon.SVG i) (Icon.Default i)
    else i in
  let i :=
    if decide (Icon.SVG i = "")
    then Icon.mk (Icon.Default i) (Icon.Large i) placeholderSVG (Icon.Maskable i)
    else i in
  set_Icon i h.

Definition defaultThemeColor : string := "#2d2c2c".

Definition initPWA (h : Handler) : Handler :=
  let h :=
    if decide (Name h = "" /\ ShortName h = "" /\ Title h = "")
    then set_Name "App PWA" h else h in
  let h := if decide (ShortName h = "") then set_ShortName (Name h) h else h in
  let h := if decide (Name h = "") then set_Name (ShortName h) h else h in
  let h :=
    if decide (BackgroundColor h = "")
    then set_BackgroundColor defaultThemeColor h else h in
  let h := if decide (ThemeColor h = "") then set_ThemeColor defaultThemeColor h else h in
  let h := if decide (Lang h = "") then set_Lang "en" h else h in
  if decide (LoadingLabel h = "") then set_LoadingLabel "{progress}%" h else h.

Definition initPageContent (h : Handler) : Handler :=
  let h := match HTML h with None => set_HTML (Some app_Html) h | Some _ => h end in
  match Body h with None => set_Body (Some app_Body) h | Some _ => h end.

(** [h.Resources.Resolve(path)]; [h.Resources] may be nil. *)
Definition Resources_Resolve (h : Handler) (path : string) : outcome string :=
  match Resources h with
  | Some res => Ok (Resolve res path)
  | None => Panic "nil pointer dereference"
  end.

(** The loop of [makeAppJS] over [h.Env]: one [os.Setenv] per entry, and a
    log record where it fails. *)
Definition setenvAll (W : World) (env : gmap string string) : list event :=
  flat_map
    (fun k =>
       let v := default "" (env !! k) in
       Setenv k v ::
       (if setenvFails W k v then [Logged "setting app env variable failed"] else []))
    (rangeKeys W env).

Definition makeAppJS (W : World) (h : Handler) : outcome (Handler * string * list event) :=
  let env := match Env h with None => ∅ | Some env => env end in
  let internalURLs := jsonMarshal W (InternalURLs h) in
  let env := <["GOAPP_INTERNAL_URLS" := internalURLs]> env in
  let env := <["GOAPP_VERSION" := Version h]> env in
  staticURL ← Resources_Resolve h "/web";
  let env := <["GOAPP_STATIC_RESOURCES_URL" := staticURL]> env in
  rootPrefix ← Resources_Resolve h "/";
  let env := <["GOAPP_ROOT_PREFIX" := rootPrefix]> env in
  let h := set_Env (Some env) h in
  let evs := setenvAll W env in
  wasm ← Resources_Resolve h "/web/app.wasm";
  workerJS ← Resources_Resolve h "/app-worker.js";
  match templateExecute W "app.js" (appJS W)
          [("Env", jsonStringMap W env);
           ("LoadingLabel", LoadingLabel h);
           ("Wasm", wasm);
           ("WasmContentLength", WasmContentLength h);
           ("WasmContentLengthHeader", WasmContentLengthHeader h);
           ("WorkerJS", workerJS)] with
  | Some b => Ok (h, b, evs)
  | None => Panic "initializing app.js failed"
  end.

(** The closure [setResources] of [makeAppWorkerJS]. *)
Definition setResources (resources : gset string) (res : list string) : gset string :=
  fold_left
    (fun (resources : gset string) r =>
       let resource := parseHTTPResource r in
       if decide (URL resource = "") then resources
       else {[URL resource]} ∪ resources)
    res resources.

(** The set [resources] of [makeAppWorkerJS] once every [setResources]
    call is done. *)
Definition workerResources (h : Handler) : gset string :=
  let resources : gset string := ∅ in
  let resources :=
    setResources resources
      ["/app.css"; "/app.js"; "/manifest.webmanifest"; "/wasm_exec.js"; "/";
       "/web/app.wasm"] in
  let resources :=
    setResources resources
      [Icon.Default (Icon h); Icon.Large (Icon h); Icon.Maskable (Icon h)] in
  let resources := setResources resources (Styles h) in
  let resources := setResources resources (Fonts h) in
  let resources := setResources resources (Scripts h) in
  setResources resources (CacheableResources h).

(** The comparison handed to [sort.Slice]. *)
Definition less (a b : string) : bool := strings.Compare a b <? 0.

(** A slice is in the order of [less] when no element is less than the one
    before it. *)
Definition notAfter (a b : string) : Prop := less b a = false.

Global Instance notAfter_dec : RelDecision notAfter.
Proof. intros a b. unfold notAfter. apply _. Defined.

(** [sort.Slice] with [less].  The order is total on strings and two
    strings that compare equal are the same string, so the sorted slice is
    determined by its elements ([sort_Slice_unique] below) and merge sort
    computes it. *)
Definition sort_Slice (l : list string) : list string := merge_sort notAfter l.

(** The loop [for k := range resources] of [makeAppWorkerJS]: every key
    goes through [h.Resources.Resolve], in the order of the visit. *)
Fixpoint resolveAll (h : Handler) (keys : list string) : outcome (list string) :=
  match keys with
  | [] => Ok []
  | k :: keys =>
      r ← Resources_Resolve h k;
      l ← resolveAll h keys;
      Ok (r :: l)
  end.

(** [makeAppWorkerJS] from the point where the set is built, [keys] being
    the order in which [range] visits it. *)
Definition makeAppWorkerJS_range (W : World) (h : Handler) (keys : list string)
  : outcome string :=
  resourcesTocache ← resolveAll h keys;
  let resourcesTocache := sort_Slice resourcesTocache in
  match templateExecute W "app-worker.js" (ServiceWorkerTemplate h)
          [("Version", Version h);
           ("ResourcesToCache", jsonString W resourcesTocache)] with
  | Some b => Ok b
  | None => Panic "initializing app-worker.js failed"
  end.

Definition makeAppWorkerJS (W : World) (h : Handler) : outcome string :=
  makeAppWorkerJS_range W h (rangeOrder W (elements (workerResources h))).

Definition makeManifestJSON (W : World) (h : Handler) : outcome string :=
  scope ← Resources_Resolve h "/";
  let scope :=
    if negb (bool_decide (scope = "/")) && negb (strings.HasSuffix scope "/")
    then scope +:+ "/" else scope in
  defaultIcon ← Resources_Resolve h (Icon.Default (Icon h));
  largeIcon ← Resources_Resolve h (Icon.Large (Icon h));
  svgIcon ← Resources_Resolve h (Icon.SVG (Icon h));
  maskableIcon ← Resources_Resolve h (Icon.Maskable (Icon h));
  startURL ← Resources_Resolve h "/";
  match templateExecute W "manifest.webmanifest" (manifestJSON W)
          [("ShortName", ShortName h);
           ("Name", Name h);
           ("Description", Description h);
           ("DefaultIcon", defaultIcon);
           ("LargeIcon", largeIcon);
           ("SVGIcon", svgIcon);
           ("MaskableIcon", maskableIcon);
           ("BackgroundColor", BackgroundColor h);
           ("ThemeColor", ThemeColor h);
           ("Scope", scope);
           ("StartURL", startURL)] with
  | Some b => Ok b
  | None => Panic "initializing manifest.webmanifest failed"
  end.

Definition initPWAResources (W : World) (h : Handler) : outcome (Handler * list event) :=
  let cache := newMemoryCache 5 in
  let cache :=
    Cache.Set_ (cacheItem.mk "/wasm_exec.js" "application/javascript" "" (wasmExecJS W)) cache in
  '(h, body, evs) ← makeAppJS W h;
  let cache := Cache.Set_ (cacheItem.mk "/app.js" "application/javascript" "" body) cache in
  body ← makeAppWorkerJS W h;
  let cache :=
    Cache.Set_ (cacheItem.mk "/app-worker.js" "application/javascript" "" body) cache in
  body ← makeManifestJSON W h;
  let cache :=
    Cache.Set_ (cacheItem.mk "/manifest.webmanifest" "application/manifest+json" "" body)
      cache in
  let cache := Cache.Set_ (cacheItem.mk "/app.css" "text/css" "" (appCSS W)) cache in
  Ok (set_cachedPWAResources (Some cache) h, evs).

(** The paths of the first case of the switch of [initProxyResources]. *)
Definition reservedPaths : list string :=
  ["/wasm_exec.js"; "/goapp.js"; "/app.js"; "/app-worker.js"; "/manifest.json";
   "/manifest.webmanifest"; "/app.css"; "/app.wasm"; "/goapp.wasm"; "/"].

(** The body of the loop of [initProxyResources]. *)
Definition addProxyResource (resources : gmap string ProxyResource.t) (r : ProxyResource.t)
  : gmap string ProxyResource.t :=
  if decide (ProxyResource.Path r ∈ reservedPaths) then resources
  else if strings.HasPrefix (ProxyResource.Path r) "/"
          && strings.HasPrefix (ProxyResource.ResourcePath r) "/web/"
       then <[ProxyResource.Path r := r]> resources
       else resources.

(** One of the three [if _, ok := resources[path]; !ok] blocks. *)
Definition addDefaultProxyResource (path resourcePath : string)
    (resources : gmap string ProxyResource.t) : gmap string ProxyResource.t :=
  match resources !! path with
  | Some _ => resources
  | None => <[path := ProxyResource.mk path resourcePath]> resources
  end.

(** The map [resources] of [initProxyResources] after its loop. *)
Definition configuredProxyResources (l : list ProxyResource.t) : gmap string ProxyResource.t :=
  fold_left addProxyResource l ∅.

Definition makeProxyResources (l : list ProxyResource.t) : gmap string ProxyResource.t :=
  let resources := configuredProxyResources l in
  let resources := addDefaultProxyResource "/robots.txt" "/web/robots.txt" resources in
  let resources := addDefaultProxyResource "/sitemap.xml" "/web/sitemap.xml" resources in
  addDefaultProxyResource "/ads.txt" "/web/ads.txt" resources.

Definition initProxyResources (h : Handler) : Handler :=
  let h :=
    set_cachedProxyResources
      (Some (newMemoryCache (Z.of_nat (length (ProxyResources h))))) h in
  set_proxyResources (makeProxyResources (ProxyResources h)) h.

Definition init (W : World) (h : Handler) : outcome (Handler * list event) :=
  let h := initVersion W h in
  let h := initStaticResources W h in
  let h := initLibraries h in
  let h := initLinks W h in
  let h := initServiceWorker W h in
  let h := initIcon h in
  let h := initPWA h in
  let h := initPageContent h in
  '(h, evs) ← initPWAResources W h;
  let h := initProxyResources h in
  Ok (h, evs).

(** ** Serving requests *)

(** [strconv.Itoa]. *)
Definition Itoa (n : Z) : string := pretty n.

Definition serveCachedItem (w : ResponseWriter.t) (i : cacheItem.t) : ResponseWriter.t :=
  let w := ResponseWriter.SetHeader "Content-Length" (Itoa (cacheItem.Len i)) w in
  let w := ResponseWriter.SetHeader "Content-Type" (cacheItem.ContentType i) w in
  let w :=
    if decide (cacheItem.ContentEncoding i = "") then w
    else ResponseWriter.SetHeader "Content-Encoding" (cacheItem.ContentEncoding i) w in
  let w := ResponseWriter.WriteHeader StatusOK w in
  ResponseWriter.Write (cacheItem.Body i) w.

(** [h.Resources.(http.Handler)]. *)
Definition fileHandler (h : Handler) : option (Request.t -> ResponseWriter.t -> ResponseWriter.t) :=
  res ← Resources h; asHandler res.

(** [h.cachedProxyResources] and [h.cachedPWAResources] are pointers, nil
    until [init] has run. *)
Definition deref {A} (p : option A) : outcome A :=
  match p with
  | Some a => Ok a
  | None => Panic "nil pointer dereference"
  end.

(** The URL [u] that [serveProxyResource] fetches. *)
Definition proxyURL (h : Handler) (resource : ProxyResource.t) (r : Request.t)
  : outcome string :=
  match fileHandler h with
  | Some _ =>
      let protocol := if Request.TLS r then "https://" else "http://" in
      Ok (protocol +:+ Request.Host r +:+ ProxyResource.ResourcePath resource)
  | None => Resources_Resolve h (ProxyResource.ResourcePath resource)
  end.

(** The cache item that [serveProxyResource] makes of a response. *)
Definition proxyItem (resource : ProxyResource.t) (res : Response.t) (body : string)
  : cacheItem.t :=
  cacheItem.mk (ProxyResource.Path resource)
    (Header.Get "Content-Type" (Response.Header res))
    (Header.Get "Content-Encoding" (Response.Header res))
    body.

Definition serveProxyResource (W : World) (h : Handler) (resource : ProxyResource.t)
    (w : ResponseWriter.t) (r : Request.t)
  : outcome (Handler * ResponseWriter.t * list event) :=
  u ← proxyURL h resource r;
  cache ← deref (cachedProxyResources h);
  match Cache.Get (ProxyResource.Path resource) cache with
  | Some i => Ok (h, serveCachedItem w i, [])
  | None =>
      match httpGet W u with
      | None =>
          Ok (h, ResponseWriter.WriteHeader StatusInternalServerError w,
              [HTTPGet u; Logged "getting proxy static resource failed"])
      | Some res =>
          if negb (Response.StatusCode res =? StatusOK)
          then Ok (h, ResponseWriter.WriteHeader StatusNotFound w, [HTTPGet u])
          else
            match Response.Body res with
            | None =>
                Ok (h, ResponseWriter.WriteHeader StatusInternalServerError w,
                    [HTTPGet u; Logged "reading proxy static resource failed"])
            | Some body =>
                let item := proxyItem resource res body in
                let h := set_cachedProxyResources (Some (Cache.Set_ item cache)) h in
                Ok (h, serveCachedItem w item, [HTTPGet u])
            end
      end
  end.

(** [servePage], the document itself being the work of the rendering
    engine ([encodePage]). *)
Definition servePage (W : World) (h : Handler) (w : ResponseWriter.t) (r : Request.t)
  : ResponseWriter.t * list event :=
  if negb (routed W (Request.Path r)) then (http_NotFound w, [])
  else
    match encodePage W h r with
    | None =>
        (ResponseWriter.WriteHeader StatusInternalServerError w,
         [Logged "encoding html document failed"])
    | Some b =>
        let w :=
          ResponseWriter.SetHeader "Content-Length" (Itoa (Z.of_nat (String.length b))) w in
        let w := ResponseWriter.SetHeader "Content-Type" "text/html" w in
        (ResponseWriter.Write b w, [])
    end.

Definition serveLibrary (w : ResponseWriter.t) (r : Request.t) (library : string)
  : ResponseWriter.t :=
  let w :=
    ResponseWriter.SetHeader "Content-Length" (Itoa (Z.of_nat (String.length library))) w in
  let w := ResponseWriter.SetHeader "Content-Type" "text/css" w in
  ResponseWriter.Write library w.

(** [h.once.Do(f)], one caller at a time. *)
Definition once_Do (f : Handler -> outcome (Handler * list event)) (h : Handler)
  : outcome (Handler * list event) :=
  if once h then Ok (h, [])
  else '(h, evs) ← f h; Ok (set_once true h, evs).

(** The local [path] of [ServeHTTP] after the version prefix is dealt
    with. *)
Definition trimVersion (h : Handler) (path : string) : string :=
  if strings.HasPrefix path ("/" +:+ Version h +:+ "/")
  then strings.TrimPrefix path ("/" +:+ Version h)
  else path.

(** The last part of [ServeHTTP]: the look-ups in the cache of PWA
    resources, in the proxy resources and in the libraries, then the
    page. *)
Definition serveByPath (W : World) (h : Handler) (w : ResponseWriter.t) (r : Request.t)
    (path : string) : outcome (Handler * ResponseWriter.t * list event) :=
  cache ← deref (cachedPWAResources h);
  match Cache.Get path cache with
  | Some res => Ok (h, serveCachedItem w res, [])
  | None =>
      match proxyResources h !! path with
      | Some proxyResource => serveProxyResource W h proxyResource w r
      | None =>
          match libraries h !! path with
          | Some library => Ok (h, serveLibrary w r library, [])
          | None => let '(w, evs) := servePage W h w r in Ok (h, w, evs)
          end
      end
  end.

(** [ServeHTTP] from the static-resources test on, [path] being the local
    variable of that name. *)
Definition dispatch (W : World) (h : Handler) (w : ResponseWriter.t) (r : Request.t)
    (path : string) : outcome (Handler * ResponseWriter.t * list event) :=
  match fileHandler h, strings.HasPrefix path "/web/" with
  | Some fh, true => Ok (h, fh r w, [])
  | fh, _ =>
      if decide (path = "/goapp.js") then serveByPath W h w r "/app.js"
      else if decide (path = "/manifest.json") then
        serveByPath W h w r "/manifest.webmanifest"
      else if decide (path = "/app.wasm" \/ path = "/goapp.wasm") then
        match fh with
        | Some fh =>
            wasm ← Resources_Resolve h "/web/app.wasm";
            let r2 := Request.mk wasm (Request.Host r) (Request.TLS r) (Request.Header r) in
            Ok (h, fh r2 w, [])
        | None => Ok (h, ResponseWriter.WriteHeader StatusNotFound w, [])
        end
      else serveByPath W h w r path
  end.

Definition ServeHTTP (W : World) (h : Handler) (w : ResponseWriter.t) (r : Request.t)
  : outcome (Handler * ResponseWriter.t * list event) :=
  '(h, evs0) ← once_Do (init W) h;
  let w := ResponseWriter.SetHeader "Cache-Control" "no-cache" w in
  let w := ResponseWriter.SetHeader "ETag" (etag h) w in
  let etag' := Header.Get "If-None-Match" (Request.Header r) in
  if decide (etag' = etag h) then
    Ok (h, ResponseWriter.WriteHeader StatusNotModified w, evs0)
  else
    let path := trimVersion h (Request.Path r) in
    '(h, w, evs) ← dispatch W h w r path;
    Ok (h, w, evs0 ++ evs).

(** ** A sample deployment

    A world and a few handlers to run the definitions on. *)

(** A resolver that maps every path to itself and serves no file. *)
Definition plainResolver : ResourceResolver := mkResolver (fun path => path) None.

(** A resolver that also serves files: it answers with the path it is
    asked for. *)
Definition fileResolver : ResourceResolver :=
  mkResolver (fun path => path)
    (Some (fun r w => ResponseWriter.Write ("file " +:+ Request.Path r) w)).

(** A world whose template engine writes the name of the template and the
    values it is given, and whose network is [get]. *)
Definition sampleWorld (get : string -> option Response.t) : World :=
  mkWorld "da39a3ee5e6b4b0d3255bfef95601890afd80709"
    (fun _ => fileResolver)
    "worker" "appjs" "manifest" "body{}" "wasm_exec"
    (fun name text data => Some (name +:+ ":" +:+ String.concat "," data.*2))
    (String.concat ",") (String.concat ",")
    (fun env => String.concat "," (map_to_list env).*1)
    (fun keys => keys)
    (fun _ _ => false)
    get
    (fun path => bool_decide (path = "/"))
    (fun _ _ => Some "<html></html>").

(** The zero value of [Handler]. *)
Definition zeroHandler : Handler :=
  mkHandler "" "" (Icon.mk "" "" "" "") "" "" "" "" [] "" "" "" "" [] "" [] [] [] [] []
    None None None [] [] [] None "" "" "" "" false "" ∅ ∅ None None.

(** [Handler{Version: "v2", Resources: plainResolver}]. *)
Definition sampleHandler : Handler :=
  set_Version "v2" (set_Resources (Some plainResolver) zeroHandler).

Definition noNetwork : string -> option Response.t := fun _ => None.

Definition getRequest (path : string) (ifNoneMatch : option string) : Request.t :=
  Request.mk path "example.test" false
    (match ifNoneMatch with
     | Some v => {[ "If-None-Match" := v ]}
     | None => ∅
     end).

(** ** The parser as the design document describes it

    The description reads the configuration string as a sequence of
    tokens and says what each kind of token contributes; the definitions
    below follow it, to be compared with [parseHTTPResource]. *)

(** White space: tab, line feed, vertical tab, form feed, carriage
    return and space. *)
Definition whiteSpace : list ascii := ["009"; "010"; "011"; "012"; "013"; " "]%char.

Fixpoint dropWhiteSpace (l : list ascii) : list ascii :=
  match l with
  | c :: l' => if decide (c ∈ whiteSpace) then dropWhiteSpace l' else l
  | [] => []
  end.

(** Trimming a token: the white space before its first and after its last
    other byte is removed. *)
Definition described_trim (s : string) : string :=
  string_of_list_ascii
    (rev (dropWhiteSpace (rev (dropWhiteSpace (list_ascii_of_string s))))).

(** Lowercasing a token: each capital letter becomes its small letter. *)
Definition described_lowerLetter (c : ascii) : ascii :=
  match c with
  | "A" => "a" | "B" => "b" | "C" => "c" | "D" => "d" | "E" => "e" | "F" => "f"
  | "G" => "g" | "H" => "h" | "I" => "i" | "J" => "j" | "K" => "k" | "L" => "l"
  | "M" => "m" | "N" => "n" | "O" => "o" | "P" => "p" | "Q" => "q" | "R" => "r"
  | "S" => "s" | "T" => "t" | "U" => "u" | "V" => "v" | "W" => "w" | "X" => "x"
  | "Y" => "y" | "Z" => "z"
  | _ => c
  end%char.

Definition described_lower (s : string) : string :=
  string_of_list_ascii (described_lowerLetter <$> list_ascii_of_string s).

(** The pieces of a configuration string between its spaces: joined again
    with one space between neighbours they give the string back, and none
    holds a space. *)
Definition isSplitOnSpaces (v : string) (elems : list string) : Prop :=
  String.concat " " elems = v
  /\ Forall (fun elem => " "%char ∉ list_ascii_of_string elem) elems.

(** The tokens of the elements of a split: trimmed, the empty ones
    dropped, lowercased. *)
Definition tokensOf (elems : list string) : list string :=
  described_lower <$> filter (fun tok => tok ≠ "") (described_trim <$> elems).

(** The tokens of a configuration string, split on spaces. *)
Definition described_tokens (v : string) : list string :=
  tokensOf (strings.Split v " "%char).

Definition isCrossOriginToken (tok : string) : Prop :=
  tok = "crossorigin" \/ strings.HasPrefix tok "crossorigin=" = true.

Definition isLoadingModeToken (tok : string) : Prop :=
  tok = "defer" \/ tok = "async".

Definition isURLToken (tok : string) : Prop :=
  ~ isCrossOriginToken tok /\ ~ isLoadingModeToken tok.

Global Instance isCrossOriginToken_dec tok : Decision (isCrossOriginToken tok).
Proof. unfold isCrossOriginToken. apply _. Defined.
Global Instance isLoadingModeToken_dec tok : Decision (isLoadingModeToken tok).
Proof. unfold isLoadingModeToken. apply _. Defined.
Global Instance isURLToken_dec tok : Decision (isURLToken tok).
Proof. unfold isURLToken. apply _. Defined.

(** The policy a cross-origin token stands for. *)
Definition crossOriginValue (tok : string) : string :=
  if decide (tok = "crossorigin") then "true"
  else strings.TrimPrefix tok "crossorigin=".

(** The last element of a list of strings, or the empty string. *)
Definition lastOrEmpty (l : list string) : string := default "" (last l).




(** ** Notions of the statements *)

(** Membership of a given string in a given list, by evaluation. *)
Ltac in_list :=
  cbv beta;
  lazymatch goal with
  | |- ?P => apply (@bool_decide_unpack P _); vm_compute; exact I
  end.

(** The steps of [init] before the caches are built. *)
Definition initSettings (W : World) (h : Handler) : Handler :=
  initPageContent (initPWA (initIcon (initServiceWorker W (initLinks W
    (initLibraries (initStaticResources W (initVersion W h))))))).

(** The paths of the three default entries. *)
Definition defaultProxyPaths : list string := ["/robots.txt"; "/sitemap.xml"; "/ads.txt"].

(** The three entries that [initProxyResources] adds by default. *)
Definition defaultProxyResources : gmap string ProxyResource.t :=
  {[ "/robots.txt" := ProxyResource.mk "/robots.txt" "/web/robots.txt";
     "/sitemap.xml" := ProxyResource.mk "/sitemap.xml" "/web/sitemap.xml";
     "/ads.txt" := ProxyResource.mk "/ads.txt" "/web/ads.txt" ]}.

(** The response writer as [ServeHTTP] hands it to the serving functions. *)
Definition withETag (h : Handler) (w : ResponseWriter.t) : ResponseWriter.t :=
  ResponseWriter.SetHeader "ETag" (etag h)
    (ResponseWriter.SetHeader "Cache-Control" "no-cache" w).

(** What the requests rely on once [init] has run. *)
Definition Initialised (h : Handler) : Prop :=
  once h = true
  /\ etag h = dquote +:+ Version h +:+ dquote
  /\ is_Some (Resources h)
  /\ (exists pwa,
        cachedPWAResources h = Some pwa
        /\ forall path, path ∉ reservedPaths -> pwa !! path = None)
  /\ is_Some (cachedProxyResources h)
  /\ (forall path resource,
        proxyResources h !! path = Some resource ->
        ProxyResource.Path resource = path /\ path ∉ reservedPaths).

(** A request for a declared proxy path that the earlier steps of
    [ServeHTTP] let through: its [If-None-Match] is not the ETag, and the
    path is not one that a file-serving resolver takes over. *)
Definition routesToProxy (h : Handler) (r : Request.t) (resource : ProxyResource.t) : Prop :=
  Header.Get "If-None-Match" (Request.Header r) ≠ etag h
  /\ proxyResources h !! trimVersion h (Request.Path r) = Some resource
  /\ (is_Some (fileHandler h) ->
      strings.HasPrefix (trimVersion h (Request.Path r)) "/web/" = false).

(** The handler as its first request leaves it behind [once.Do]. *)
Definition initialised (W : World) (h : Handler) : Handler :=
  match once_Do (init W) h with
  | Ok (h', _) => h'
  | Panic _ => h
  end.

(** An upstream that answers every GET with the given status and body. *)
Definition upstream (status : Z) (body : string) : string -> option Response.t :=
  fun _ => Some (Response.mk status {[ "Content-Type" := "text/plain" ]} (Some body)).

(** The paths that [ServeHTTP] rewrites or answers before it looks into
    the cache of PWA resources. *)
Definition aliasPaths : list string :=
  ["/goapp.js"; "/manifest.json"; "/app.wasm"; "/goapp.wasm"].

(** The configuration entries that [makeAppWorkerJS] hands to
    [setResources], in order. *)
Definition workerEntries (h : Handler) : list string :=
  ["/app.css"; "/app.js"; "/manifest.webmanifest"; "/wasm_exec.js"; "/"; "/web/app.wasm"]
  ++ [Icon.Default (Icon h); Icon.Large (Icon h); Icon.Maskable (Icon h)]
  ++ Styles h ++ Fonts h ++ Scripts h ++ CacheableResources h.

(** The sample world with a runtime that walks maps the other way round. *)
Definition reversedWorld (W : World) : World :=
  mkWorld (nowSHA1 W) (LocalDir W) (DefaultAppWorkerJS W) (appJS W) (manifestJSON W)
    (appCSS W) (wasmExecJS W) (templateExecute W) (jsonMarshal W) (jsonString W)
    (jsonStringMap W) (fun keys => reverse (rangeOrder W keys)) (setenvFails W) (httpGet W)
    (routed W) (encodePage W).

(** No event of the trace is a write to the environment. *)
Definition noSetenv (evs : list event) : Prop :=
  Forall (fun e => match e with Setenv _ _ => False | _ => True end) evs.

(** The headers that the serving functions write. *)
Definition contentHeaders : list string :=
  ["Content-Length"; "Content-Type"; "Content-Encoding"; "X-Content-Type-Options"].

(** Every header of [w] but the content headers is in [w'] as it was. *)
Definition keepsHeaders (w w' : ResponseWriter.t) : Prop :=
  forall key, key ∉ contentHeaders ->
    ResponseWriter.Header w' !! key = ResponseWriter.Header w !! key.

(** The entries that the loop of [initProxyResources] keeps: the path is
    not a reserved one and starts with a slash, and the resource path starts
    with [/web/]. *)
Definition keptProxyResource (r : ProxyResource.t) : Prop :=
  (ProxyResource.Path r ∉ reservedPaths)
  /\ strings.HasPrefix (ProxyResource.Path r) "/" = true
  /\ strings.HasPrefix (ProxyResource.ResourcePath r) "/web/" = true.

(** The paths under which [initPWAResources] stores an item. *)
Definition pwaPaths : list string :=
  ["/wasm_exec.js"; "/app.js"; "/app-worker.js"; "/manifest.webmanifest"; "/app.css"].

(** [Handler{Version: "v2", Resources: plainResolver, Libraries: ...}] with
    one library, mounted under [/lib.css]. *)
Definition libraryHandler : Handler :=
  mkHandler "" "" (Icon.mk "" "" "" "") "" "" "" "" [("/lib.css", "a{}")] "" "" "" "" [] ""
    [] [] [] [] [] None None None [] [] [] (Some plainResolver) "v2" "" "" "" false "" ∅ ∅
    None None.

(** The variables that [makeAppJS] sets itself. *)
Definition reservedEnv : list string :=
  ["GOAPP_INTERNAL_URLS"; "GOAPP_VERSION"; "GOAPP_STATIC_RESOURCES_URL"; "GOAPP_ROOT_PREFIX"].

(** The assets that [makeAppWorkerJS] always hands to the worker. *)
Definition coreAssets : list string :=
  ["/app.css"; "/app.js"; "/manifest.webmanifest"; "/wasm_exec.js"; "/"; "/web/app.wasm"].

(** * Properties *)

(** ** Strings *)

Lemma prefix_empty (s : string) : String.prefix "" s = true.
Proof. destruct s; reflexivity. Qed.

Lemma HasPrefix_app (p s : string) : strings.HasPrefix (p +:+ s) p = true.
Proof.
  unfold strings.HasPrefix. induction p as [|a p IH].
  - apply prefix_empty.
  - change (String a p +:+ s) with (String a (p +:+ s)). cbn [String.prefix].
    destruct (ascii_dec a a); [exact IH | contradiction].
Qed.

Lemma drop_app (p s : string) : strings.drop (String.length p) (p +:+ s) = s.
Proof. induction p as [|a p IH]; [reflexivity | exact IH]. Qed.

Lemma TrimPrefix_app (p s : string) : strings.TrimPrefix (p +:+ s) p = s.
Proof. unfold strings.TrimPrefix. rewrite HasPrefix_app. apply drop_app. Qed.

Lemma HasPrefix_inv (s p : string) :
  strings.HasPrefix s p = true -> s = p +:+ strings.drop (String.length p) s.
Proof.
  unfold strings.HasPrefix. revert s. induction p as [|a p IH]; intros s H.
  - reflexivity.
  - destruct s as [|b s]; cbn [String.prefix] in H; [discriminate|].
    destruct (ascii_dec a b) as [->|]; [|discriminate].
    change (String b p +:+ strings.drop (String.length (String b p)) (String b s))
      with (String b (p +:+ strings.drop (String.length p) s)).
    f_equal. apply IH. exact H.
Qed.

Lemma length_app (s1 s2 : string) :
  String.length (s1 +:+ s2) = (String.length s1 + String.length s2)%nat.
Proof.
  induction s1 as [|a s1 IH]; [reflexivity|].
  change (String a s1 +:+ s2) with (String a (s1 +:+ s2)).
  cbn [String.length]. rewrite IH. reflexivity.
Qed.

Lemma HasPrefix_length (s p : string) :
  strings.HasPrefix s p = true -> (String.length p <= String.length s)%nat.
Proof.
  intros H. rewrite (HasPrefix_inv s p H), length_app. lia.
Qed.

(** ** Resource descriptors *)

Lemma isSpace_whiteSpace (c : ascii) :
  strings.isSpace c = bool_decide (c ∈ whiteSpace).
Proof. destruct c as [[] [] [] [] [] [] [] []]; vm_compute; reflexivity. Qed.

Lemma toLowerByte_described (c : ascii) :
  strings.toLowerByte c = described_lowerLetter c.
Proof. destruct c as [[] [] [] [] [] [] [] []]; vm_compute; reflexivity. Qed.

Lemma ToLower_described (s : string) : strings.ToLower s = described_lower s.
Proof.
  unfold described_lower. induction s as [|c s IH]; [reflexivity|].
  cbn [strings.ToLower list_ascii_of_string fmap list_fmap string_of_list_ascii].
  rewrite IH, toLowerByte_described. reflexivity.
Qed.

Lemma trimLeft_described (s : string) :
  strings.trimLeft s = string_of_list_ascii (dropWhiteSpace (list_ascii_of_string s)).
Proof.
  induction s as [|c s IH]; [reflexivity|].
  cbn [strings.trimLeft list_ascii_of_string dropWhiteSpace].
  rewrite isSpace_whiteSpace. destruct (decide (c ∈ whiteSpace)) as [Hc|Hc].
  - rewrite bool_decide_eq_true_2 by exact Hc. exact IH.
  - rewrite bool_decide_eq_false_2 by exact Hc.
    cbn [string_of_list_ascii]. rewrite string_of_list_ascii_of_string. reflexivity.
Qed.

Lemma dropWhiteSpace_snoc (l : list ascii) (c : ascii) :
  dropWhiteSpace (l ++ [c]) =
  match dropWhiteSpace l with
  | [] => if decide (c ∈ whiteSpace) then [] else [c]
  | t => t ++ [c]
  end.
Proof.
  induction l as [|a l IH]; [reflexivity|].
  cbn [app dropWhiteSpace]. destruct (decide (a ∈ whiteSpace)); [exact IH | reflexivity].
Qed.

Lemma trimRight_described (s : string) :
  strings.trimRight s
  = string_of_list_ascii (rev (dropWhiteSpace (rev (list_ascii_of_string s)))).
Proof.
  induction s as [|c s IH]; [reflexivity|].
  cbn [strings.trimRight list_ascii_of_string rev]. rewrite IH, dropWhiteSpace_snoc.
  destruct (dropWhiteSpace (rev (list_ascii_of_string s))) as [|a t] eqn:Hd.
  - cbn [rev string_of_list_ascii]. rewrite isSpace_whiteSpace.
    destruct (decide (c ∈ whiteSpace)) as [Hc|Hc].
    + rewrite bool_decide_eq_true_2 by exact Hc. reflexivity.
    + rewrite bool_decide_eq_false_2 by exact Hc. reflexivity.
  - rewrite rev_app_distr. cbn [rev app string_of_list_ascii].
    destruct (rev t ++ [a]) as [|b t'] eqn:Hr.
    + destruct (rev t); discriminate Hr.
    + reflexivity.
Qed.

Lemma TrimSpace_described (s : string) : strings.TrimSpace s = described_trim s.
Proof.
  unfold strings.TrimSpace, described_trim.
  rewrite trimRight_described, trimLeft_described, list_ascii_of_string_of_list_ascii.
  reflexivity.
Qed.

Lemma Split_cons (s : string) (sep : ascii) :
  exists elem elems, strings.Split s sep = elem :: elems.
Proof.
  destruct s as [|c s]; [cbn; eauto|].
  cbn [strings.Split]. destruct (Ascii.eqb c sep); [eauto|].
  destruct (strings.Split s sep); eauto.
Qed.

Lemma Split_isSplitOnSpaces (v : string) : isSplitOnSpaces v (strings.Split v " ").
Proof.
  unfold isSplitOnSpaces. induction v as [|c v [IHc IHf]].
  - split; [reflexivity|]. repeat constructor. cbn. apply not_elem_of_nil.
  - cbn [strings.Split].
    destruct (Split_cons v " ") as (elem & elems & Hs). rewrite Hs in *.
    destruct (Ascii.eqb_spec c " ") as [->|Hc].
    + split.
      * rewrite <- IHc. reflexivity.
      * constructor; [cbn; apply not_elem_of_nil | exact IHf].
    + split.
      * rewrite <- IHc. cbn [String.concat]. destruct elems; reflexivity.
      * inversion IHf as [|? ? He Hes]; subst. constructor; [|exact Hes].
        cbn [list_ascii_of_string]. rewrite not_elem_of_cons. split; [congruence | exact He].
Qed.

Lemma tokensOf_snoc elems elem :
  tokensOf (elems ++ [elem]) =
  tokensOf elems ++
    (if decide (described_trim elem = "") then []
     else [described_lower (described_trim elem)]).
Proof.
  unfold tokensOf. rewrite fmap_app, filter_app, fmap_app. f_equal.
  cbn [fmap list_fmap]. rewrite filter_cons, filter_nil.
  repeat case_decide; try reflexivity; contradiction.
Qed.

(** The loop of [parseHTTPResource] keeps, in each field, what the last
    token of the field's kind stands for. *)
Lemma parse_loop elems :
  fold_left parseHTTPResource_elem elems (mkHTTPResource "" "" "") =
  mkHTTPResource
    (lastOrEmpty (filter isURLToken (tokensOf elems)))
    (lastOrEmpty (filter isLoadingModeToken (tokensOf elems)))
    (lastOrEmpty (crossOriginValue <$> filter isCrossOriginToken (tokensOf elems))).
Proof.
  induction elems as [|elem elems IH] using rev_ind; [reflexivity|].
  rewrite fold_left_app, IH, tokensOf_snoc. cbn [fold_left].
  unfold parseHTTPResource_elem. cbn [URL LoadingMode CrossOrigin].
  rewrite !ToLower_described, !TrimSpace_described.
  destruct (decide (described_trim elem = "")) as [Hempty|Hempty].
  { rewrite app_nil_r. reflexivity. }
  set (tok := described_lower (described_trim elem)).
  rewrite !filter_app, fmap_app, !filter_cons, !filter_nil.
  unfold lastOrEmpty.
  destruct (decide (tok = "crossorigin")) as [Hc|Hc].
  { rewrite Hc. vm_compute (decide (isURLToken _)).
    vm_compute (decide (isLoadingModeToken _)).
    vm_compute (decide (isCrossOriginToken _)).
    cbn [fmap list_fmap]. rewrite !app_nil_r, last_snoc. reflexivity. }
  destruct (strings.HasPrefix tok "crossorigin=") eqn:Hp.
  { assert (Hco : isCrossOriginToken tok) by (right; exact Hp).
    assert (Hnl : ~ isLoadingModeToken tok).
    { intros [->| ->]; vm_compute in Hp; discriminate. }
    rewrite (decide_True (P := isCrossOriginToken tok)) by exact Hco.
    rewrite (decide_False (P := isLoadingModeToken tok)) by exact Hnl.
    rewrite (decide_False (P := isURLToken tok)) by (intros [? ?]; contradiction).
    cbn [fmap list_fmap]. rewrite !app_nil_r, last_snoc.
    unfold crossOriginValue. rewrite decide_False by exact Hc. reflexivity. }
  assert (Hnco : ~ isCrossOriginToken tok).
  { intros [?|?]; [contradiction|congruence]. }
  rewrite (decide_False (P := isCrossOriginToken tok)) by exact Hnco.
  destruct (decide (tok = "defer")) as [Hd|Hd].
  { rewrite (decide_True (P := isLoadingModeToken tok)) by (left; exact Hd).
    rewrite (decide_False (P := isURLToken tok)) by (intros [_ []]; left; exact Hd).
    cbn [fmap list_fmap]. rewrite !app_nil_r, last_snoc, Hd. reflexivity. }
  destruct (decide (tok = "async")) as [Ha|Ha].
  { rewrite (decide_True (P := isLoadingModeToken tok)) by (right; exact Ha).
    rewrite (decide_False (P := isURLToken tok)) by (intros [_ []]; right; exact Ha).
    cbn [fmap list_fmap]. rewrite !app_nil_r, last_snoc, Ha. reflexivity. }
  assert (Hnl : ~ isLoadingModeToken tok) by (intros [?|?]; contradiction).
  rewrite (decide_False (P := isLoadingModeToken tok)) by exact Hnl.
  rewrite (decide_True (P := isURLToken tok)) by (split; assumption).
  cbn [fmap list_fmap]. rewrite !app_nil_r, last_snoc. reflexivity.
Qed.



(** ** Initialisation *)

(** The steps that only fill in defaults leave alone every field that
    their setters leave alone. *)
Section frame.
Context {A : Type} (f : Handler -> A) (W : World).

Hypothesis f_Name : forall x h, f (set_Name x h) = f h.
Hypothesis f_ShortName : forall x h, f (set_ShortName x h) = f h.
Hypothesis f_BackgroundColor : forall x h, f (set_BackgroundColor x h) = f h.
Hypothesis f_ThemeColor : forall x h, f (set_ThemeColor x h) = f h.
Hypothesis f_Lang : forall x h, f (set_Lang x h) = f h.
Hypothesis f_LoadingLabel : forall x h, f (set_LoadingLabel x h) = f h.
Hypothesis f_HTML : forall x h, f (set_HTML x h) = f h.
Hypothesis f_Body : forall x h, f (set_Body x h) = f h.
Hypothesis f_ServiceWorkerTemplate : forall x h, f (set_ServiceWorkerTemplate x h) = f h.
Hypothesis f_Styles : forall x h, f (set_Styles x h) = f h.
Hypothesis f_libraries : forall x h, f (set_libraries x h) = f h.

(** Walks a step statement by statement: each [let] is replaced by a
    handler of which only the value of [f] is remembered. *)
Local Ltac walk :=
  lazymatch goal with
  | |- f (let x := ?E in @?B x) = ?R =>
      let HE := fresh "HE" in
      assert (HE : f E = R) by walk;
      revert HE; generalize E;
      let h' := fresh "h" in
      intros h' HE; change (f (B h') = R); cbv beta; walk
  | |- f (if ?c then _ else _) = ?R => destruct c; walk
  | |- f (match ?o with _ => _ end) = ?R => destruct o eqn:?; walk
  | |- _ =>
      rewrite ?f_Name, ?f_ShortName, ?f_BackgroundColor, ?f_ThemeColor, ?f_Lang,
        ?f_LoadingLabel, ?f_HTML, ?f_Body, ?f_ServiceWorkerTemplate;
      first [reflexivity | eassumption]
  end.

Lemma initPageContent_frame h : f (initPageContent h) = f h.
Proof. cbv delta [initPageContent]; cbv beta. walk. Qed.

Lemma initPWA_frame h : f (initPWA h) = f h.
Proof. cbv delta [initPWA]; cbv beta. walk. Qed.

Lemma initServiceWorker_frame h : f (initServiceWorker W h) = f h.
Proof. cbv delta [initServiceWorker]; cbv beta. walk. Qed.

Lemma initLinks_frame h : f (initLinks W h) = f h.
Proof. unfold initLinks. apply f_Styles. Qed.

Lemma initLibraries_frame h : f (initLibraries h) = f h.
Proof. unfold initLibraries. apply f_libraries. Qed.

Lemma defaults_frame h :
  f (initPageContent (initPWA h)) = f h
  /\ f (initServiceWorker W (initLinks W (initLibraries h))) = f h.
Proof.
  split.
  - rewrite initPageContent_frame. apply initPWA_frame.
  - rewrite initServiceWorker_frame, initLinks_frame. apply initLibraries_frame.
Qed.

End frame.

(** Applies [defaults_frame] to a field, the setters being transparent. *)
Ltac frame f W h :=
  let H := fresh "Hframe" in
  pose proof (defaults_frame f W
                ltac:(reflexivity) ltac:(reflexivity) ltac:(reflexivity)
                ltac:(reflexivity) ltac:(reflexivity) ltac:(reflexivity)
                ltac:(reflexivity) ltac:(reflexivity) ltac:(reflexivity)
                ltac:(reflexivity) ltac:(reflexivity) h) as H.

Lemma initIcon_Icon h1 h2 :
  Icon h1 = Icon h2 -> Icon (initIcon h1) = Icon (initIcon h2).
Proof.
  intros E. cbv delta [initIcon]; cbv beta. rewrite E. reflexivity.
Qed.

Lemma initIcon_frame {A} (f : Handler -> A) h :
  (forall x h, f (set_Icon x h) = f h) -> f (initIcon h) = f h.
Proof. intros Hf. unfold initIcon. apply Hf. Qed.

Lemma initVersion_frame {A} (f : Handler -> A) W h :
  (forall x h, f (set_Version x h) = f h) ->
  (forall x h, f (set_etag x h) = f h) ->
  f (initVersion W h) = f h.
Proof.
  intros HV He. unfold initVersion. rewrite He. destruct (decide _); [apply HV | reflexivity].
Qed.

Lemma initStaticResources_frame {A} (f : Handler -> A) W h :
  (forall x h, f (set_Resources x h) = f h) ->
  f (initStaticResources W h) = f h.
Proof.
  intros HR. unfold initStaticResources. destruct (Resources h); [reflexivity | apply HR].
Qed.

Lemma initSettings_Icon W h : Icon (initSettings W h) = Icon (initIcon h).
Proof.
  unfold initSettings.
  frame Icon W (initIcon (initServiceWorker W (initLinks W
    (initLibraries (initStaticResources W (initVersion W h)))))).
  destruct Hframe as [-> _].
  apply initIcon_Icon.
  frame Icon W (initStaticResources W (initVersion W h)).
  destruct Hframe as [_ ->].
  rewrite initStaticResources_frame by reflexivity.
  apply initVersion_frame; reflexivity.
Qed.

(** A field that only [initVersion] sets. *)
Lemma initSettings_after_initVersion {A} (f : Handler -> A) W h :
  (forall h, f (initPageContent (initPWA h)) = f h) ->
  (forall h, f (initServiceWorker W (initLinks W (initLibraries h))) = f h) ->
  (forall x h, f (set_Icon x h) = f h) ->
  (forall x h, f (set_Resources x h) = f h) ->
  f (initSettings W h) = f (initVersion W h).
Proof.
  intros H1 H2 HI HR. unfold initSettings.
  rewrite H1, (initIcon_frame f) by exact HI. rewrite H2.
  apply initStaticResources_frame. exact HR.
Qed.

Lemma initSettings_Version W h : Version (initSettings W h) = Version (initVersion W h).
Proof.
  apply initSettings_after_initVersion; try reflexivity.
  - intros h'. frame Version W h'. apply Hframe.
  - intros h'. frame Version W h'. apply Hframe.
Qed.

Lemma initSettings_etag W h : etag (initSettings W h) = etag (initVersion W h).
Proof.
  apply initSettings_after_initVersion; try reflexivity.
  - intros h'. frame etag W h'. apply Hframe.
  - intros h'. frame etag W h'. apply Hframe.
Qed.

Lemma initSettings_ProxyResources W h :
  ProxyResources (initSettings W h) = ProxyResources h.
Proof.
  rewrite (initSettings_after_initVersion ProxyResources); try reflexivity.
  - apply initVersion_frame; reflexivity.
  - intros h'. frame ProxyResources W h'. apply Hframe.
  - intros h'. frame ProxyResources W h'. apply Hframe.
Qed.

Lemma initSettings_Resources W h : is_Some (Resources (initSettings W h)).
Proof.
  unfold initSettings.
  frame Resources W (initIcon (initServiceWorker W (initLinks W
    (initLibraries (initStaticResources W (initVersion W h)))))).
  destruct Hframe as [-> _].
  rewrite (initIcon_frame Resources) by reflexivity.
  frame Resources W (initStaticResources W (initVersion W h)).
  destruct Hframe as [_ ->].
  generalize (initVersion W h). intros h0.
  unfold initStaticResources.
  destruct (Resources h0) eqn:E; [rewrite E|]; cbn; eauto.
Qed.

(** What [makeAppJS] leaves in the handler: the environment. *)
Lemma makeAppJS_inv W h h' body evs :
  makeAppJS W h = Ok (h', body, evs) -> exists env, h' = set_Env (Some env) h.
Proof.
  unfold makeAppJS, Resources_Resolve. cbn.
  destruct (Resources h) as [res|]; cbn; [|discriminate].
  destruct (templateExecute W _ _ _); [|discriminate].
  intros [= <- _ _]. eauto.
Qed.

Lemma makeAppJS_returns W h :
  is_Some (Resources h) ->
  (forall name text data, is_Some (templateExecute W name text data)) ->
  exists h' body evs, makeAppJS W h = Ok (h', body, evs).
Proof.
  intros [res Hres] Ht. unfold makeAppJS, Resources_Resolve. cbn. rewrite Hres. cbn.
  match goal with |- context [templateExecute W ?n ?t ?d] =>
    destruct (Ht n t d) as [b ->] end.
  eauto.
Qed.

Lemma resolveAll_Some h res keys :
  Resources h = Some res -> resolveAll h keys = Ok (Resolve res <$> keys).
Proof.
  intros Hres. induction keys as [|k keys IH]; [reflexivity|].
  cbn. unfold Resources_Resolve. rewrite Hres. cbn. rewrite IH. reflexivity.
Qed.

Lemma bind_Ok_inv {A B} (m : outcome A) (f : A -> outcome B) (b : B) :
  m ≫= f = Ok b -> exists a, m = Ok a /\ f a = Ok b.
Proof. destruct m as [a|msg]; [eauto | discriminate]. Qed.

(** What [initPWAResources] leaves in the handler: the environment and the
    cache of PWA resources, whose paths are all reserved ones. *)
Lemma initPWAResources_inv W h h' evs :
  initPWAResources W h = Ok (h', evs) ->
  exists env cache,
    h' = set_cachedPWAResources (Some cache) (set_Env (Some env) h)
    /\ (forall path, path ∉ reservedPaths -> cache !! path = None).
Proof.
  unfold initPWAResources. intros H.
  apply bind_Ok_inv in H as ([[h1 b1] e1] & E1 & H).
  apply makeAppJS_inv in E1 as [env ->].
  apply bind_Ok_inv in H as (b2 & _ & H).
  apply bind_Ok_inv in H as (b3 & _ & H).
  injection H as <- <-.
  eexists _, _. split; [reflexivity|].
  intros path Hpath. unfold Cache.Set_, newMemoryCache.
  rewrite !lookup_insert_ne; [apply lookup_empty|..];
    intros <-; apply Hpath; in_list.
Qed.

(** [init], its first eight steps taken together. *)
Lemma init_unfold W h :
  @eq (outcome (Handler * list event))
    ('(h, evs) ← initPWAResources W (initSettings W h); Ok (initProxyResources h, evs))
    (init W h).
Proof. unfold init, initSettings. reflexivity. Qed.

(** What [init] returns, when it returns. *)
Lemma init_inv W h h' evs :
  init W h = Ok (h', evs) ->
  exists env cache,
    h' = initProxyResources
           (set_cachedPWAResources (Some cache) (set_Env (Some env) (initSettings W h)))
    /\ (forall path, path ∉ reservedPaths -> cache !! path = None).
Proof.
  rewrite <- init_unfold. generalize (initSettings W h). intros h0 H.
  apply bind_Ok_inv in H as ([h1 e1] & E1 & H).
  apply initPWAResources_inv in E1 as (env & cache & -> & Hcache).
  injection H as <- <-. eauto.
Qed.

Lemma makeAppWorkerJS_returns W h :
  is_Some (Resources h) ->
  (forall name text data, is_Some (templateExecute W name text data)) ->
  exists b, makeAppWorkerJS W h = Ok b.
Proof.
  intros [res Hres] Ht. unfold makeAppWorkerJS, makeAppWorkerJS_range.
  rewrite (resolveAll_Some _ res) by exact Hres. cbn [mbind outcome_bind].
  match goal with |- context [templateExecute W ?n ?t ?d] =>
    destruct (Ht n t d) as [b ->] end.
  eauto.
Qed.

Lemma makeManifestJSON_returns W h :
  is_Some (Resources h) ->
  (forall name text data, is_Some (templateExecute W name text data)) ->
  exists b, makeManifestJSON W h = Ok b.
Proof.
  intros [res Hres] Ht. unfold makeManifestJSON, Resources_Resolve. rewrite Hres.
  cbn [mbind outcome_bind].
  match goal with |- context [templateExecute W ?n ?t ?d] =>
    destruct (Ht n t d) as [b ->] end.
  eauto.
Qed.

Lemma initPWAResources_returns W h :
  is_Some (Resources h) ->
  (forall name text data, is_Some (templateExecute W name text data)) ->
  exists h' evs, initPWAResources W h = Ok (h', evs).
Proof.
  intros Hres Ht. unfold initPWAResources.
  destruct (makeAppJS_returns W h Hres Ht) as (h1 & b1 & e1 & E1).
  rewrite E1. apply makeAppJS_inv in E1 as [env ->].
  cbn [mbind outcome_bind].
  destruct (makeAppWorkerJS_returns W (set_Env (Some env) h) Hres Ht) as [b2 ->].
  cbn [mbind outcome_bind].
  destruct (makeManifestJSON_returns W (set_Env (Some env) h) Hres Ht) as [b3 ->].
  cbn [mbind outcome_bind]. eauto.
Qed.

(** [init] returns as soon as the three templates can be executed. *)
Lemma init_returns W h :
  (forall name text data, is_Some (templateExecute W name text data)) ->
  exists h' evs, init W h = Ok (h', evs).
Proof.
  intros Ht. rewrite <- init_unfold.
  destruct (initPWAResources_returns W (initSettings W h) (initSettings_Resources W h) Ht)
    as (h1 & e1 & ->).
  eauto.
Qed.

(** The fields of the handler that [init] returns, in terms of the handler
    that the first eight steps leave. *)
Lemma init_fields W h h' evs :
  init W h = Ok (h', evs) ->
  Icon h' = Icon (initSettings W h)
  /\ Version h' = Version (initSettings W h)
  /\ etag h' = etag (initSettings W h)
  /\ Resources h' = Resources (initSettings W h)
  /\ once h' = once (initSettings W h)
  /\ proxyResources h' = makeProxyResources (ProxyResources (initSettings W h))
  /\ cachedProxyResources h'
     = Some (newMemoryCache (Z.of_nat (length (ProxyResources (initSettings W h)))))
  /\ exists cache,
       cachedPWAResources h' = Some cache
       /\ forall path, path ∉ reservedPaths -> cache !! path = None.
Proof.
  intros Hinit. apply init_inv in Hinit as (env & cache & -> & Hcache).
  generalize (initSettings W h). intros h0.
  repeat (split; [reflexivity|]). exists cache. split; [reflexivity | exact Hcache].
Qed.

(** C9: on a handler configured with [Icon{}], [init] leaves the bundled
    placeholder PNG in [Icon.Default] and [Icon.Large], [Icon.Default] in
    [Icon.Maskable] and the bundled placeholder SVG in [Icon.SVG]; and
    [init] does return when the three templates can be executed. *)
Theorem init_Icon_placeholders (W : World) (h : Handler) :
  Icon h = Icon.mk "" "" "" "" ->
  (forall h' evs,
     init W h = Ok (h', evs) ->
     Icon.Default (Icon h') = placeholderPNG
     /\ Icon.Large (Icon h') = placeholderPNG
     /\ Icon.Maskable (Icon h') = Icon.Default (Icon h')
     /\ Icon.SVG (Icon h') = placeholderSVG)
  /\ ((forall name text data, is_Some (templateExecute W name text data)) ->
      exists h' evs, init W h = Ok (h', evs)).
Proof.
  intros Hicon. split; [|apply init_returns].
  intros h' evs Hinit. apply init_fields in Hinit as (-> & _).
  rewrite initSettings_Icon.
  assert (E : Icon (initIcon h)
              = Icon.mk placeholderPNG placeholderPNG placeholderSVG placeholderPNG).
  { cbv delta [initIcon]; cbv beta. rewrite Hicon. reflexivity. }
  rewrite E. repeat split.
Qed.

(** On the zero handler of the sample deployment. *)
Lemma init_Icon_placeholders_witness :
  exists h' evs,
    init (sampleWorld noNetwork) zeroHandler = Ok (h', evs)
    /\ Icon.Default (Icon h') = placeholderPNG
    /\ Icon.Large (Icon h') = placeholderPNG
    /\ Icon.Maskable (Icon h') = Icon.Default (Icon h')
    /\ Icon.SVG (Icon h') = placeholderSVG.
Proof.
  destruct (init_Icon_placeholders (sampleWorld noNetwork) zeroHandler eq_refl)
    as [Hicon Hret].
  destruct Hret as (h' & evs & Hinit).
  - intros name text data. cbn. eauto.
  - exists h', evs. split; [exact Hinit | exact (Hicon h' evs Hinit)].
Defined.

(** ** The table of proxy resources *)

(** A path stays out of the map built by the loop of [initProxyResources]
    when every configured entry with that path is a reserved one. *)
Lemma addProxyResource_fold_None (l : list ProxyResource.t)
    (m : gmap string ProxyResource.t) (path : string) :
  m !! path = None ->
  (forall r, r ∈ l -> ProxyResource.Path r = path -> path ∈ reservedPaths) ->
  fold_left addProxyResource l m !! path = None.
Proof.
  revert m. induction l as [|r l IH]; intros m Hm Hl; [exact Hm|].
  cbn [fold_left]. apply IH.
  - unfold addProxyResource.
    destruct (decide (ProxyResource.Path r ∈ reservedPaths)) as [Hres|Hres]; [exact Hm|].
    destruct (_ && _); [|exact Hm].
    rewrite lookup_insert_ne; [exact Hm|].
    intros Heq. apply Hres. rewrite Heq. apply (Hl r); [left | exact Heq].
  - intros r' Hr'. apply Hl. right. exact Hr'.
Qed.

Lemma addDefaultProxyResource_lookup path resourcePath m p :
  addDefaultProxyResource path resourcePath m !! p =
  if decide (path = p)
  then Some (default (ProxyResource.mk path resourcePath) (m !! path))
  else m !! p.
Proof.
  unfold addDefaultProxyResource.
  destruct (decide (path = p)) as [<-|Hne].
  - destruct (m !! path) eqn:E; [rewrite E; reflexivity | apply lookup_insert_eq].
  - destruct (m !! path); [reflexivity | apply lookup_insert_ne; exact Hne].
Qed.

Lemma makeProxyResources_other (l : list ProxyResource.t) (p : string) :
  p ∉ defaultProxyPaths ->
  makeProxyResources l !! p = configuredProxyResources l !! p.
Proof.
  intros Hp. unfold makeProxyResources.
  rewrite !addDefaultProxyResource_lookup.
  repeat (destruct (decide _) as [<-|_];
          [exfalso; apply Hp; in_list|]).
  reflexivity.
Qed.

Lemma makeProxyResources_reserved (l : list ProxyResource.t) (path : string) :
  path ∈ reservedPaths -> makeProxyResources l !! path = None.
Proof.
  intros Hpath. rewrite makeProxyResources_other.
  - apply addProxyResource_fold_None; [apply lookup_empty | intros; exact Hpath].
  - intros Hd. revert Hpath Hd. unfold reservedPaths, defaultProxyPaths.
    rewrite !elem_of_cons, !elem_of_nil. intros H1 H2.
    repeat (destruct H2 as [->|H2]; [repeat (destruct H1 as [H1|H1]; try discriminate H1);
                                     exact H1|]).
    exact H2.
Qed.

(** C6: the table built by [initProxyResources] has no entry under a
    reserved path ([/app.js] and the other paths of the PWA itself, the
    root included), whatever proxy resources are configured; so it is for
    the table of a handler that [init] returns. *)
Theorem proxy_table_excludes_reserved (h : Handler) (path : string) :
  path ∈ reservedPaths ->
  "/app.js" ∈ reservedPaths
  /\ proxyResources (initProxyResources h) !! path = None
  /\ (forall W h' evs, init W h = Ok (h', evs) -> proxyResources h' !! path = None).
Proof.
  intros Hpath.
  split; [in_list|]. split.
  - apply makeProxyResources_reserved. exact Hpath.
  - intros W h' evs Hinit. apply init_fields in Hinit as (_ & _ & _ & _ & _ & -> & _).
    apply makeProxyResources_reserved. exact Hpath.
Qed.

(** A handler configured with a proxy resource under [/app.js]. *)
Lemma proxy_table_excludes_reserved_witness :
  "/app.js" ∈ reservedPaths
  /\ proxyResources
       (initProxyResources
          (mkHandler "" "" (Icon.mk "" "" "" "") "" "" "" "" [] "" "" "" "" [] "" [] [] [] []
             [] None None None [] [] [ProxyResource.mk "/app.js" "/web/evil.js"] None "" ""
             "" "" false "" ∅ ∅ None None)) !! "/app.js" = None.
Proof.
  assert (Hin : "/app.js" ∈ reservedPaths) by (in_list).
  split; [exact Hin|].
  exact (proj1 (proj2 (proxy_table_excludes_reserved _ "/app.js" Hin))).
Defined.

(** A configuration with no entry under a default path whose table holds
    a fourth path. *)
Lemma proxy_table_not_only_defaults :
  Forall (fun r => ProxyResource.Path r ∉ defaultProxyPaths)
    [ProxyResource.mk "/humans.txt" "/web/humans.txt"]
  /\ dom (makeProxyResources [ProxyResource.mk "/humans.txt" "/web/humans.txt"])
     ≠ ({[ "/robots.txt"; "/sitemap.xml"; "/ads.txt" ]} : gset string).
Proof.
  split.
  - constructor; [in_list | constructor].
  - intros Heq.
    assert (Hin : "/humans.txt" ∈
                  dom (makeProxyResources [ProxyResource.mk "/humans.txt" "/web/humans.txt"])).
    { apply elem_of_dom. vm_compute. eauto. }
    rewrite Heq in Hin. set_solver.
Qed.

(** C7, amended: when no configured entry has the path [/robots.txt],
    [/sitemap.xml] or [/ads.txt], the table maps these three paths to
    [/web/robots.txt], [/web/sitemap.xml] and [/web/ads.txt], next to the
    configured entries it keeps, so that it holds exactly the three where it
    keeps none; and an entry that the loop has put in the table is never
    replaced by a default. *)
Theorem proxy_defaults_injected (l : list ProxyResource.t) :
  Forall (fun r => ProxyResource.Path r ∉ defaultProxyPaths) l ->
  makeProxyResources l !! "/robots.txt"
    = Some (ProxyResource.mk "/robots.txt" "/web/robots.txt")
  /\ makeProxyResources l !! "/sitemap.xml"
    = Some (ProxyResource.mk "/sitemap.xml" "/web/sitemap.xml")
  /\ makeProxyResources l !! "/ads.txt"
    = Some (ProxyResource.mk "/ads.txt" "/web/ads.txt")
  /\ (forall p, p ∉ defaultProxyPaths ->
        makeProxyResources l !! p = configuredProxyResources l !! p)
  /\ (configuredProxyResources l = ∅ -> makeProxyResources l = defaultProxyResources)
  /\ (forall l' p r,
        configuredProxyResources l' !! p = Some r -> makeProxyResources l' !! p = Some r).
Proof.
  intros Hl.
  assert (Hnone : forall p, p ∈ defaultProxyPaths -> configuredProxyResources l !! p = None).
  { intros p Hp. apply addProxyResource_fold_None; [apply lookup_empty|].
    intros r Hr Heq. rewrite Forall_forall in Hl. exfalso.
    apply (Hl r Hr). rewrite Heq. exact Hp. }
  assert (H1 : configuredProxyResources l !! "/robots.txt" = None)
    by (apply Hnone; in_list).
  assert (H2 : configuredProxyResources l !! "/sitemap.xml" = None)
    by (apply Hnone; in_list).
  assert (H3 : configuredProxyResources l !! "/ads.txt" = None)
    by (apply Hnone; in_list).
  repeat split.
  - unfold makeProxyResources. rewrite !addDefaultProxyResource_lookup.
    cbn. rewrite H1. reflexivity.
  - unfold makeProxyResources. rewrite !addDefaultProxyResource_lookup.
    cbn. rewrite H2. reflexivity.
  - unfold makeProxyResources. rewrite !addDefaultProxyResource_lookup.
    cbn. rewrite H3. reflexivity.
  - apply makeProxyResources_other.
  - intros Hempty. unfold makeProxyResources. rewrite Hempty. vm_compute. reflexivity.
  - intros l' p r Hp. unfold makeProxyResources.
    rewrite !addDefaultProxyResource_lookup.
    repeat (destruct (decide _) as [<-|_];
            [rewrite ?addDefaultProxyResource_lookup; cbn; rewrite Hp; reflexivity|]).
    exact Hp.
Qed.

(** The configuration of the counterexample, and one that overrides a
    default. *)
Lemma proxy_defaults_injected_witness :
  makeProxyResources [ProxyResource.mk "/humans.txt" "/web/humans.txt"] !! "/robots.txt"
    = Some (ProxyResource.mk "/robots.txt" "/web/robots.txt")
  /\ makeProxyResources [ProxyResource.mk "/robots.txt" "/web/custom.txt"] !! "/robots.txt"
    = Some (ProxyResource.mk "/robots.txt" "/web/custom.txt").
Proof.
  assert (Hl : Forall (fun r => ProxyResource.Path r ∉ defaultProxyPaths)
                 [ProxyResource.mk "/humans.txt" "/web/humans.txt"]).
  { constructor; [in_list | constructor]. }
  split.
  - exact (proj1 (proxy_defaults_injected _ Hl)).
  - apply (proj2 (proj2 (proj2 (proj2 (proj2 (proxy_defaults_injected _ Hl)))))).
    vm_compute. reflexivity.
Defined.

(** ** The version prefix *)

Lemma append_assoc (s1 s2 s3 : string) : (s1 +:+ s2) +:+ s3 = s1 +:+ (s2 +:+ s3).
Proof.
  induction s1 as [|a s1 IH]; [reflexivity|].
  change (String a ((s1 +:+ s2) +:+ s3) = String a (s1 +:+ (s2 +:+ s3))).
  rewrite IH. reflexivity.
Qed.

(** A request that gets past the two first steps of [ServeHTTP] on an
    initialised handler is answered by [dispatch]. *)
Lemma ServeHTTP_dispatch W h w r :
  once h = true ->
  Header.Get "If-None-Match" (Request.Header r) ≠ etag h ->
  ServeHTTP W h w r =
  dispatch W h
    (withETag h w) r (trimVersion h (Request.Path r)).
Proof.
  intros Honce Hne. unfold ServeHTTP, once_Do. rewrite Honce. cbn.
  rewrite decide_False by exact Hne.
  destruct (dispatch W h _ r _) as [[[h' w'] evs]|msg]; reflexivity.
Qed.

(** C10: the version prefix is stripped only from a path that begins with
    "/" + Version + "/", the slash after the version included, and then the
    path keeps that slash; the path "/" + Version itself is not stripped, and
    a request for it is dispatched under that very path. *)
Theorem trimVersion_needs_trailing_slash (W : World) (h : Handler) :
  (forall path,
     trimVersion h path ≠ path ->
     strings.HasPrefix path ("/" +:+ Version h +:+ "/") = true)
  /\ (forall rest,
        trimVersion h ("/" +:+ Version h +:+ "/" +:+ rest) = "/" +:+ rest)
  /\ trimVersion h ("/" +:+ Version h) = "/" +:+ Version h
  /\ (forall w r,
        once h = true ->
        Header.Get "If-None-Match" (Request.Header r) ≠ etag h ->
        Request.Path r = "/" +:+ Version h ->
        ServeHTTP W h w r =
        dispatch W h
          (withETag h w) r ("/" +:+ Version h)).
Proof.
  assert (Hbare : trimVersion h ("/" +:+ Version h) = "/" +:+ Version h).
  { unfold trimVersion.
    destruct (strings.HasPrefix _ _) eqn:Hp; [|reflexivity].
    apply HasPrefix_length in Hp. rewrite !length_app in Hp. cbn in Hp. lia. }
  repeat split.
  - intros path Hne. unfold trimVersion in Hne.
    destruct (strings.HasPrefix _ _); [reflexivity | contradiction].
  - intros rest. unfold trimVersion.
    replace ("/" +:+ Version h +:+ "/" +:+ rest)
      with (("/" +:+ Version h +:+ "/") +:+ rest) at 1
      by (rewrite !append_assoc; reflexivity).
    rewrite HasPrefix_app.
    replace ("/" +:+ Version h +:+ "/" +:+ rest)
      with (("/" +:+ Version h) +:+ "/" +:+ rest)
      by (rewrite !append_assoc; reflexivity).
    apply TrimPrefix_app.
  - exact Hbare.
  - intros w r Honce Hne Hpath.
    rewrite ServeHTTP_dispatch by assumption. rewrite Hpath, Hbare. reflexivity.
Qed.

(** ** Initialised handlers *)

Lemma addProxyResource_fold_key (l : list ProxyResource.t)
    (m : gmap string ProxyResource.t) :
  (forall path resource, m !! path = Some resource -> ProxyResource.Path resource = path) ->
  forall path resource,
    fold_left addProxyResource l m !! path = Some resource ->
    ProxyResource.Path resource = path.
Proof.
  revert m. induction l as [|r l IH]; intros m Hm; [exact Hm|].
  cbn [fold_left]. apply IH.
  intros path resource. unfold addProxyResource.
  destruct (decide _); [apply Hm|]. destruct (_ && _); [|apply Hm].
  rewrite lookup_insert. destruct (decide _) as [<-|_]; [|apply Hm].
  intros [= <-]. reflexivity.
Qed.

Lemma addDefaultProxyResource_key path resourcePath (m : gmap string ProxyResource.t) :
  (forall p resource, m !! p = Some resource -> ProxyResource.Path resource = p) ->
  forall p resource,
    addDefaultProxyResource path resourcePath m !! p = Some resource ->
    ProxyResource.Path resource = p.
Proof.
  intros Hm p resource. unfold addDefaultProxyResource.
  destruct (m !! path) eqn:E; [apply Hm|].
  rewrite lookup_insert. destruct (decide (path = p)) as [<-|_]; [|apply Hm].
  intros [= <-]. reflexivity.
Qed.

Lemma makeProxyResources_key (l : list ProxyResource.t) path resource :
  makeProxyResources l !! path = Some resource -> ProxyResource.Path resource = path.
Proof.
  unfold makeProxyResources. revert path resource.
  repeat apply addDefaultProxyResource_key.
  apply addProxyResource_fold_key. intros ? ?. rewrite lookup_empty. discriminate.
Qed.

Lemma initVersion_etag W h :
  etag (initVersion W h) = dquote +:+ Version (initVersion W h) +:+ dquote.
Proof. unfold initVersion. destruct (decide _); reflexivity. Qed.

Lemma init_Initialised W h h' evs :
  init W h = Ok (h', evs) -> Initialised (set_once true h').
Proof.
  intros Hinit.
  apply init_fields in Hinit as (_ & HV & He & HR & _ & HP & HC & HPWA).
  unfold Initialised.
  change (once (set_once true h')) with true.
  change (etag (set_once true h')) with (etag h').
  change (Version (set_once true h')) with (Version h').
  change (Resources (set_once true h')) with (Resources h').
  change (cachedPWAResources (set_once true h')) with (cachedPWAResources h').
  change (cachedProxyResources (set_once true h')) with (cachedProxyResources h').
  change (proxyResources (set_once true h')) with (proxyResources h').
  split; [reflexivity|]. split.
  { rewrite He, HV, initSettings_etag, initSettings_Version. apply initVersion_etag. }
  split; [rewrite HR; apply initSettings_Resources|].
  split; [exact HPWA|].
  split; [rewrite HC; eauto|].
  intros path resource Hlookup. rewrite HP in Hlookup. split.
  - eapply makeProxyResources_key. exact Hlookup.
  - intros Hres. rewrite makeProxyResources_reserved in Hlookup by exact Hres.
    discriminate Hlookup.
Qed.

(** ** Serving proxy resources *)

Lemma serveByPath_proxy W h w r path resource :
  Initialised h ->
  proxyResources h !! path = Some resource ->
  serveByPath W h w r path = serveProxyResource W h resource w r.
Proof.
  intros (_ & _ & _ & (pwa & Hpwa & Hnone) & _ & Hkeys) Hres.
  destruct (Hkeys _ _ Hres) as [_ Hnr].
  unfold serveByPath. rewrite Hpwa. cbn. unfold Cache.Get.
  rewrite (Hnone _ Hnr), Hres. reflexivity.
Qed.

Lemma dispatch_proxy W h w r path resource :
  Initialised h ->
  proxyResources h !! path = Some resource ->
  (is_Some (fileHandler h) -> strings.HasPrefix path "/web/" = false) ->
  dispatch W h w r path = serveProxyResource W h resource w r.
Proof.
  intros Hinit Hres Hweb.
  destruct Hinit as (H1 & H2 & H3 & H4 & H5 & Hkeys).
  destruct (Hkeys _ _ Hres) as [_ Hnr].
  assert (Hinit : Initialised h) by (unfold Initialised; auto 10).
  assert (Hne : forall p, p ∈ reservedPaths -> path ≠ p) by (intros p Hp ->; auto).
  unfold dispatch.
  assert (Hrest :
    (if decide (path = "/goapp.js") then serveByPath W h w r "/app.js"
     else if decide (path = "/manifest.json") then
            serveByPath W h w r "/manifest.webmanifest"
     else if decide (path = "/app.wasm" \/ path = "/goapp.wasm") then
            match fileHandler h with
            | Some fh =>
                wasm ← Resources_Resolve h "/web/app.wasm";
                Ok (h, fh (Request.mk wasm (Request.Host r) (Request.TLS r)
                             (Request.Header r)) w, [])
            | None => Ok (h, ResponseWriter.WriteHeader StatusNotFound w, [])
            end
     else serveByPath W h w r path)
    = serveProxyResource W h resource w r).
  { rewrite decide_False by (apply Hne; in_list).
    rewrite decide_False by (apply Hne; in_list).
    rewrite decide_False.
    - apply serveByPath_proxy; assumption.
    - intros [Hp|Hp]; revert Hp; apply Hne; in_list. }
  destruct (fileHandler h) as [fh|] eqn:Hfh.
  - rewrite Hweb by eauto. exact Hrest.
  - destruct (strings.HasPrefix path "/web/"); exact Hrest.
Qed.

Lemma ServeHTTP_proxy W h w r resource :
  Initialised h ->
  routesToProxy h r resource ->
  ServeHTTP W h w r = serveProxyResource W h resource (withETag h w) r.
Proof.
  intros Hinit (Hne & Hres & Hweb).
  rewrite ServeHTTP_dispatch; [|apply Hinit|exact Hne].
  apply dispatch_proxy; assumption.
Qed.

Lemma Status_withETag h w : ResponseWriter.Status (withETag h w) = ResponseWriter.Status w.
Proof. reflexivity. Qed.

Lemma Written_withETag h w :
  ResponseWriter.Written (withETag h w) = ResponseWriter.Written w.
Proof. reflexivity. Qed.

Lemma WriteHeader_fresh code w :
  ResponseWriter.Status w = None ->
  ResponseWriter.Status (ResponseWriter.WriteHeader code w) = Some code
  /\ ResponseWriter.Written (ResponseWriter.WriteHeader code w) = ResponseWriter.Written w.
Proof. intros Hw. unfold ResponseWriter.WriteHeader. rewrite Hw. split; reflexivity. Qed.

Lemma serveCachedItem_fresh w i :
  ResponseWriter.Status w = None ->
  ResponseWriter.Status (serveCachedItem w i) = Some StatusOK
  /\ ResponseWriter.Written (serveCachedItem w i)
     = ResponseWriter.Written w +:+ cacheItem.Body i.
Proof.
  intros Hw. unfold serveCachedItem.
  destruct (decide _); unfold ResponseWriter.Write, ResponseWriter.WriteHeader; cbn;
    rewrite Hw; cbn; split; reflexivity.
Qed.

(** C4: on a proxy path that is not in the proxy cache, an upstream
    answer whose status is not 200 makes [serveProxyResource] write 404 and
    nothing else, after the one upstream GET, and leaves the handler, its
    proxy cache included, as it was; so does [ServeHTTP] for a request
    routed to that proxy resource. *)
Theorem proxy_upstream_not_OK (W : World) (h : Handler) (resource : ProxyResource.t)
    (r : Request.t) (cache : memoryCache) (u : string) (res : Response.t) :
  cachedProxyResources h = Some cache ->
  Cache.Get (ProxyResource.Path resource) cache = None ->
  proxyURL h resource r = Ok u ->
  httpGet W u = Some res ->
  Response.StatusCode res ≠ StatusOK ->
  (forall w,
     serveProxyResource W h resource w r
     = Ok (h, ResponseWriter.WriteHeader StatusNotFound w, [HTTPGet u]))
  /\ (forall w,
        Initialised h ->
        routesToProxy h r resource ->
        ResponseWriter.Status w = None ->
        exists w',
          ServeHTTP W h w r = Ok (h, w', [HTTPGet u])
          /\ ResponseWriter.Status w' = Some StatusNotFound
          /\ ResponseWriter.Written w' = ResponseWriter.Written w).
Proof.
  intros Hcache Hmiss Hu Hget Hstatus.
  assert (Hserve : forall w,
             serveProxyResource W h resource w r
             = Ok (h, ResponseWriter.WriteHeader StatusNotFound w, [HTTPGet u])).
  { intros w. unfold serveProxyResource. rewrite Hu, Hcache. cbn.
    rewrite Hmiss, Hget.
    destruct (Z.eqb_spec (Response.StatusCode res) StatusOK); [contradiction|].
    reflexivity. }
  split; [exact Hserve|].
  intros w Hinit Hroute Hw. eexists. split.
  - rewrite (ServeHTTP_proxy W h w r resource) by assumption. apply Hserve.
  - destruct (WriteHeader_fresh StatusNotFound (withETag h w) Hw) as [HS HB].
    split; [exact HS | exact HB].
Qed.

Lemma initialised_Initialised W h :
  once h = false ->
  (forall name text data, is_Some (templateExecute W name text data)) ->
  Initialised (initialised W h).
Proof.
  intros Honce Ht. unfold initialised, once_Do. rewrite Honce.
  destruct (init_returns W h Ht) as (h' & evs & Hinit).
  rewrite Hinit. cbn. eapply init_Initialised. exact Hinit.
Qed.

Lemma sample_Initialised get : Initialised (initialised (sampleWorld get) sampleHandler).
Proof. apply initialised_Initialised; [reflexivity | intros; cbn; eauto]. Qed.

(** The sample handler behind an upstream that answers 503. *)
Lemma proxy_upstream_not_OK_witness :
  exists w',
    ServeHTTP (sampleWorld (upstream 503 "unavailable"))
      (initialised (sampleWorld (upstream 503 "unavailable")) sampleHandler)
      ResponseWriter.new (getRequest "/robots.txt" None)
    = Ok (initialised (sampleWorld (upstream 503 "unavailable")) sampleHandler, w',
          [HTTPGet "/web/robots.txt"])
    /\ ResponseWriter.Status w' = Some StatusNotFound
    /\ ResponseWriter.Written w' = "".
Proof.
  refine (proj2 (proxy_upstream_not_OK (sampleWorld (upstream 503 "unavailable"))
                   (initialised (sampleWorld (upstream 503 "unavailable")) sampleHandler)
                   (ProxyResource.mk "/robots.txt" "/web/robots.txt")
                   (getRequest "/robots.txt" None) ∅ "/web/robots.txt"
                   (Response.mk 503 {[ "Content-Type" := "text/plain" ]} (Some "unavailable"))
                   _ _ _ _ _)
            ResponseWriter.new _ _ _).
  - vm_compute. reflexivity.
  - reflexivity.
  - vm_compute. reflexivity.
  - reflexivity.
  - discriminate.
  - apply sample_Initialised.
  - split; [|split].
    + vm_compute. discriminate.
    + vm_compute. reflexivity.
    + intros [fh Hfh]. vm_compute in Hfh. discriminate Hfh.
  - reflexivity.
Defined.

Lemma serveCachedItem_headers w i :
  Header.Get "Content-Type" (ResponseWriter.Header (serveCachedItem w i))
  = cacheItem.ContentType i
  /\ Header.Get "Content-Length" (ResponseWriter.Header (serveCachedItem w i))
     = Itoa (cacheItem.Len i)
  /\ (cacheItem.ContentEncoding i ≠ "" ->
      Header.Get "Content-Encoding" (ResponseWriter.Header (serveCachedItem w i))
      = cacheItem.ContentEncoding i)
  /\ (cacheItem.ContentEncoding i = "" ->
      ResponseWriter.Header (serveCachedItem w i) !! "Content-Encoding"
      = ResponseWriter.Header w !! "Content-Encoding").
Proof.
  assert (Hw : forall code w0,
             ResponseWriter.Header (ResponseWriter.WriteHeader code w0)
             = ResponseWriter.Header w0).
  { intros code w0. unfold ResponseWriter.WriteHeader.
    destruct (ResponseWriter.Status w0); reflexivity. }
  unfold serveCachedItem.
  destruct (decide (cacheItem.ContentEncoding i = "")) as [He|He];
    cbv zeta; unfold ResponseWriter.Write; cbn [ResponseWriter.Header];
    rewrite !Hw; unfold ResponseWriter.SetHeader, Header.Set_, Header.Get;
    cbn [ResponseWriter.Header];
    repeat split; intros;
    try contradiction;
    repeat first [rewrite lookup_insert_eq | rewrite lookup_insert_ne by discriminate];
    reflexivity.
Qed.

(** C5: on a proxy path that is not in the proxy cache, an upstream
    answer 200 with body [body] makes [serveProxyResource] store an item in
    the proxy cache and serve it.  The item has the path of the proxy
    resource, the upstream's [Content-Type] and [Content-Encoding] headers
    as content type and content encoding, and [body] as body; the cache
    then holds it under that path and is unchanged elsewhere.  The answer
    is status 200 with [body], the upstream's content type and, when there
    is one, its content encoding.  A second call for the path, whatever the
    upstream then does, serves the same item from the cache with no upstream
    GET.  So does [ServeHTTP] for requests routed to that proxy resource. *)
Theorem proxy_upstream_OK_cached (W : World) (h : Handler) (resource : ProxyResource.t)
    (r : Request.t) (cache : memoryCache) (u : string) (res : Response.t) (body : string) :
  cachedProxyResources h = Some cache ->
  Cache.Get (ProxyResource.Path resource) cache = None ->
  proxyURL h resource r = Ok u ->
  httpGet W u = Some res ->
  Response.StatusCode res = StatusOK ->
  Response.Body res = Some body ->
  exists h1,
    h1 = set_cachedProxyResources (Some (Cache.Set_ (proxyItem resource res body) cache)) h
    /\ cacheItem.Body (proxyItem resource res body) = body
    /\ cacheItem.ContentType (proxyItem resource res body)
       = Header.Get "Content-Type" (Response.Header res)
    /\ cacheItem.ContentEncoding (proxyItem resource res body)
       = Header.Get "Content-Encoding" (Response.Header res)
    /\ cacheItem.Path (proxyItem resource res body) = ProxyResource.Path resource
    /\ (exists cache1,
          cachedProxyResources h1 = Some cache1
          /\ Cache.Get (ProxyResource.Path resource) cache1
             = Some (proxyItem resource res body)
          /\ forall path,
               path ≠ ProxyResource.Path resource ->
               Cache.Get path cache1 = Cache.Get path cache)
    /\ (forall w,
          serveProxyResource W h resource w r
          = Ok (h1, serveCachedItem w (proxyItem resource res body), [HTTPGet u]))
    /\ (forall W' w r',
          serveProxyResource W' h1 resource w r'
          = Ok (h1, serveCachedItem w (proxyItem resource res body), []))
    /\ (forall w,
          Initialised h -> routesToProxy h r resource -> ResponseWriter.Status w = None ->
          exists w',
            ServeHTTP W h w r = Ok (h1, w', [HTTPGet u])
            /\ ResponseWriter.Status w' = Some StatusOK
            /\ ResponseWriter.Written w' = ResponseWriter.Written w +:+ body
            /\ Header.Get "Content-Type" (ResponseWriter.Header w')
               = Header.Get "Content-Type" (Response.Header res)
            /\ (Header.Get "Content-Encoding" (Response.Header res) ≠ "" ->
                Header.Get "Content-Encoding" (ResponseWriter.Header w')
                = Header.Get "Content-Encoding" (Response.Header res)))
    /\ (forall W' w r',
          Initialised h -> routesToProxy h r' resource -> ResponseWriter.Status w = None ->
          exists w',
            ServeHTTP W' h1 w r' = Ok (h1, w', [])
            /\ ResponseWriter.Status w' = Some StatusOK
            /\ ResponseWriter.Written w' = ResponseWriter.Written w +:+ body
            /\ Header.Get "Content-Type" (ResponseWriter.Header w')
               = Header.Get "Content-Type" (Response.Header res)
            /\ (Header.Get "Content-Encoding" (Response.Header res) ≠ "" ->
                Header.Get "Content-Encoding" (ResponseWriter.Header w')
                = Header.Get "Content-Encoding" (Response.Header res))).
Proof.
  intros Hcache Hmiss Hu Hget Hstatus Hbody.
  set (item := proxyItem resource res body).
  set (h1 := set_cachedProxyResources (Some (Cache.Set_ item cache)) h).
  assert (Hfirst : forall w,
             serveProxyResource W h resource w r
             = Ok (h1, serveCachedItem w item, [HTTPGet u])).
  { intros w. unfold serveProxyResource. rewrite Hu, Hcache. cbn.
    rewrite Hmiss, Hget, Hstatus, Hbody. reflexivity. }
  assert (Hres : is_Some (Resources h)).
  { unfold proxyURL, fileHandler, Resources_Resolve in Hu.
    destruct (Resources h); [eauto | discriminate Hu]. }
  assert (Hsecond : forall W' w r',
             serveProxyResource W' h1 resource w r'
             = Ok (h1, serveCachedItem w item, [])).
  { intros W' w r'. unfold serveProxyResource.
    assert (Hu' : exists u', proxyURL h1 resource r' = Ok u').
    { unfold proxyURL, fileHandler, Resources_Resolve. subst h1. cbn.
      destruct Hres as [rr ->]. cbn. destruct (asHandler rr); eauto. }
    destruct Hu' as [u' ->]. subst h1. cbn. unfold Cache.Get, Cache.Set_.
    change (cacheItem.Path item) with (ProxyResource.Path resource).
    rewrite lookup_insert_eq. reflexivity. }
  assert (Hinit1 : Initialised h -> Initialised h1).
  { unfold Initialised. subst h1. cbn. intuition eauto. }
  assert (Hserved : forall w,
             ResponseWriter.Status w = None ->
             ResponseWriter.Status (serveCachedItem w item) = Some StatusOK
             /\ ResponseWriter.Written (serveCachedItem w item)
                = ResponseWriter.Written w +:+ body
             /\ Header.Get "Content-Type" (ResponseWriter.Header (serveCachedItem w item))
                = Header.Get "Content-Type" (Response.Header res)
             /\ (Header.Get "Content-Encoding" (Response.Header res) ≠ "" ->
                 Header.Get "Content-Encoding"
                   (ResponseWriter.Header (serveCachedItem w item))
                 = Header.Get "Content-Encoding" (Response.Header res))).
  { intros w Hw.
    destruct (serveCachedItem_fresh w item Hw) as [HS HB].
    destruct (serveCachedItem_headers w item) as (HT & _ & HE & _).
    split; [exact HS|]. split; [exact HB|]. split; [exact HT|]. exact HE. }
  exists h1.
  split; [reflexivity|]. split; [reflexivity|]. split; [reflexivity|].
  split; [reflexivity|]. split; [reflexivity|].
  split.
  { exists (Cache.Set_ item cache). split; [reflexivity|].
    unfold Cache.Get, Cache.Set_.
    change (cacheItem.Path item) with (ProxyResource.Path resource).
    split; [apply lookup_insert_eq|].
    intros path Hpath. apply lookup_insert_ne. congruence. }
  split; [exact Hfirst|]. split; [exact Hsecond|]. split.
  - intros w Hinit Hroute Hw. eexists. split.
    + rewrite (ServeHTTP_proxy W h w r resource) by assumption. apply Hfirst.
    + exact (Hserved (withETag h w) Hw).
  - intros W' w r' Hinit Hroute Hw. eexists. split.
    + rewrite (ServeHTTP_proxy W' h1 w r' resource); [apply Hsecond | auto | exact Hroute].
    + exact (Hserved (withETag h1 w) Hw).
Qed.

(** The sample handler behind an upstream that answers 200, then with the
    network down. *)
Lemma proxy_upstream_OK_cached_witness :
  exists h1 w1 w2 cache1,
    ServeHTTP (sampleWorld (upstream 200 "User-agent: *"))
      (initialised (sampleWorld (upstream 200 "User-agent: *")) sampleHandler)
      ResponseWriter.new (getRequest "/robots.txt" None)
    = Ok (h1, w1, [HTTPGet "/web/robots.txt"])
    /\ ResponseWriter.Status w1 = Some StatusOK
    /\ ResponseWriter.Written w1 = "User-agent: *"
    /\ Header.Get "Content-Type" (ResponseWriter.Header w1) = "text/plain"
    /\ cachedProxyResources h1 = Some cache1
    /\ Cache.Get "/robots.txt" cache1
       = Some (cacheItem.mk "/robots.txt" "text/plain" "" "User-agent: *")
    /\ ServeHTTP (sampleWorld noNetwork) h1 ResponseWriter.new (getRequest "/robots.txt" None)
       = Ok (h1, w2, [])
    /\ ResponseWriter.Status w2 = Some StatusOK
    /\ ResponseWriter.Written w2 = "User-agent: *"
    /\ Header.Get "Content-Type" (ResponseWriter.Header w2) = "text/plain".
Proof.
  pose (W := sampleWorld (upstream 200 "User-agent: *")).
  pose (r := getRequest "/robots.txt" None).
  assert (Hroute : routesToProxy (initialised W sampleHandler) r
                     (ProxyResource.mk "/robots.txt" "/web/robots.txt")).
  { split; [|split].
    - vm_compute. discriminate.
    - vm_compute. reflexivity.
    - intros [fh Hfh]. vm_compute in Hfh. discriminate Hfh. }
  destruct (proxy_upstream_OK_cached W (initialised W sampleHandler)
              (ProxyResource.mk "/robots.txt" "/web/robots.txt") r ∅ "/web/robots.txt"
              (Response.mk 200 {[ "Content-Type" := "text/plain" ]} (Some "User-agent: *"))
              "User-agent: *")
    as (h1 & _ & _ & _ & _ & _ & (cache1 & Hc1 & Hitem & _) & _ & _ & Hfirst & Hsecond).
  - vm_compute. reflexivity.
  - reflexivity.
  - vm_compute. reflexivity.
  - reflexivity.
  - reflexivity.
  - reflexivity.
  - destruct (Hfirst ResponseWriter.new (sample_Initialised _) Hroute eq_refl)
      as (w1 & E1 & S1 & B1 & T1 & _).
    destruct (Hsecond (sampleWorld noNetwork) ResponseWriter.new r
                (sample_Initialised _) Hroute eq_refl)
      as (w2 & E2 & S2 & B2 & T2 & _).
    exists h1, w1, w2, cache1. auto 12.
Defined.

(** ** The ETag *)

(** A request with a stale version in [If-None-Match] that is answered
    404 and not 200: [/app.wasm] on the sample handler, initialised, whose
    resolver serves no file. *)
Lemma stale_etag_not_always_200 :
  once (initialised (sampleWorld noNetwork) sampleHandler) = true
  /\ Header.Get "If-None-Match"
       (Request.Header (getRequest "/app.wasm" (Some (dquote +:+ "v1" +:+ dquote))))
     ≠ etag (initialised (sampleWorld noNetwork) sampleHandler)
  /\ exists w',
       ServeHTTP (sampleWorld noNetwork) (initialised (sampleWorld noNetwork) sampleHandler)
         ResponseWriter.new (getRequest "/app.wasm" (Some (dquote +:+ "v1" +:+ dquote)))
       = Ok (initialised (sampleWorld noNetwork) sampleHandler, w', [])
       /\ ResponseWriter.Status w' = Some StatusNotFound
       /\ ResponseWriter.Status w' ≠ Some StatusOK.
Proof.
  split; [vm_compute; reflexivity|]. split; [vm_compute; discriminate|].
  exists (ResponseWriter.WriteHeader StatusNotFound
            (withETag (initialised (sampleWorld noNetwork) sampleHandler)
               ResponseWriter.new)).
  split; [vm_compute; reflexivity|]. split; [vm_compute; reflexivity|].
  vm_compute. discriminate.
Qed.

Lemma dispatch_cached W h w r path pwa item :
  cachedPWAResources h = Some pwa ->
  Cache.Get path pwa = Some item ->
  path ∉ aliasPaths ->
  (is_Some (fileHandler h) -> strings.HasPrefix path "/web/" = false) ->
  dispatch W h w r path = Ok (h, serveCachedItem w item, []).
Proof.
  intros Hpwa Hitem Halias Hweb. unfold dispatch.
  assert (Hrest :
    (if decide (path = "/goapp.js") then serveByPath W h w r "/app.js"
     else if decide (path = "/manifest.json") then
            serveByPath W h w r "/manifest.webmanifest"
     else if decide (path = "/app.wasm" \/ path = "/goapp.wasm") then
            match fileHandler h with
            | Some fh =>
                wasm ← Resources_Resolve h "/web/app.wasm";
                Ok (h, fh (Request.mk wasm (Request.Host r) (Request.TLS r)
                             (Request.Header r)) w, [])
            | None => Ok (h, ResponseWriter.WriteHeader StatusNotFound w, [])
            end
     else serveByPath W h w r path)
    = Ok (h, serveCachedItem w item, [])).
  { rewrite decide_False by (intros ->; apply Halias; in_list).
    rewrite decide_False by (intros ->; apply Halias; in_list).
    rewrite decide_False
      by (intros [-> | ->]; apply Halias; in_list).
    unfold serveByPath. rewrite Hpwa. cbn. rewrite Hitem. reflexivity. }
  destruct (fileHandler h) as [fh|] eqn:Hfh.
  - rewrite Hweb by eauto. exact Hrest.
  - destruct (strings.HasPrefix path "/web/"); exact Hrest.
Qed.

(** C2, amended: once the handler is initialised, a request whose
    [If-None-Match] is the ETag of the handler (the version between double
    quotes), compared as strings, is answered 304 with no body and nothing
    else is done; with any other value, a stale version included, the request
    goes through the dispatch as if the header were not there: it is answered
    200 with the payload when its path is in the cache of PWA resources, and
    with the answer of its route otherwise. *)
Theorem etag_short_circuit (W : World) (h : Handler) (w : ResponseWriter.t) (r : Request.t) :
  once h = true ->
  (Header.Get "If-None-Match" (Request.Header r) = etag h ->
   ServeHTTP W h w r
   = Ok (h, ResponseWriter.WriteHeader StatusNotModified (withETag h w), [])
   /\ (ResponseWriter.Status w = None ->
       ResponseWriter.Status (ResponseWriter.WriteHeader StatusNotModified (withETag h w))
       = Some StatusNotModified
       /\ ResponseWriter.Written
            (ResponseWriter.WriteHeader StatusNotModified (withETag h w))
          = ResponseWriter.Written w))
  /\ (Header.Get "If-None-Match" (Request.Header r) ≠ etag h ->
      ServeHTTP W h w r = dispatch W h (withETag h w) r (trimVersion h (Request.Path r))
      /\ forall pwa item,
           cachedPWAResources h = Some pwa ->
           Cache.Get (trimVersion h (Request.Path r)) pwa = Some item ->
           trimVersion h (Request.Path r) ∉ aliasPaths ->
           (is_Some (fileHandler h) ->
            strings.HasPrefix (trimVersion h (Request.Path r)) "/web/" = false) ->
           ResponseWriter.Status w = None ->
           exists w',
             ServeHTTP W h w r = Ok (h, w', [])
             /\ ResponseWriter.Status w' = Some StatusOK
             /\ ResponseWriter.Written w' = ResponseWriter.Written w +:+ cacheItem.Body item).
Proof.
  intros Honce. split.
  - intros Heq. split.
    + unfold ServeHTTP, once_Do. rewrite Honce. cbn.
      rewrite decide_True by exact Heq. reflexivity.
    + intros Hw. destruct (WriteHeader_fresh StatusNotModified (withETag h w) Hw) as [HS HB].
      split; [exact HS | exact HB].
  - intros Hne. split; [apply ServeHTTP_dispatch; assumption|].
    intros pwa item Hpwa Hitem Halias Hweb Hw. eexists. split.
    + rewrite ServeHTTP_dispatch by assumption.
      apply (dispatch_cached W h _ r _ pwa item); assumption.
    + destruct (serveCachedItem_fresh (withETag h w) item Hw) as [HS HB].
      split; [exact HS | exact HB].
Qed.

(** The sample handler, asked for [/app.js] with the current ETag and
    with a stale one. *)
Lemma etag_short_circuit_witness :
  (exists w',
     ServeHTTP (sampleWorld noNetwork) (initialised (sampleWorld noNetwork) sampleHandler)
       ResponseWriter.new (getRequest "/app.js" (Some (dquote +:+ "v2" +:+ dquote)))
     = Ok (initialised (sampleWorld noNetwork) sampleHandler, w', [])
     /\ ResponseWriter.Status w' = Some StatusNotModified
     /\ ResponseWriter.Written w' = "")
  /\ (exists w' item,
        ServeHTTP (sampleWorld noNetwork) (initialised (sampleWorld noNetwork) sampleHandler)
          ResponseWriter.new (getRequest "/app.js" (Some (dquote +:+ "v1" +:+ dquote)))
        = Ok (initialised (sampleWorld noNetwork) sampleHandler, w', [])
        /\ ResponseWriter.Status w' = Some StatusOK
        /\ ResponseWriter.Written w'
           = ResponseWriter.Written ResponseWriter.new +:+ cacheItem.Body item
        /\ cacheItem.Path item = "/app.js").
Proof.
  pose (W := sampleWorld noNetwork).
  pose (h := initialised W sampleHandler).
  assert (Honce : once h = true) by (vm_compute; reflexivity).
  split.
  - (destruct (etag_short_circuit W h ResponseWriter.new
                (getRequest "/app.js" (Some (dquote +:+ "v2" +:+ dquote))) Honce)
      as [Hsame _]).
    (destruct Hsame as [E Hfresh]; [vm_compute; reflexivity|]).
    destruct (Hfresh eq_refl) as [S B].
    eexists. split; [exact E | split; [exact S | exact B]].
  - (destruct (etag_short_circuit W h ResponseWriter.new
                (getRequest "/app.js" (Some (dquote +:+ "v1" +:+ dquote))) Honce)
      as [_ Hother]).
    (destruct Hother as [_ Hcached]; [vm_compute; discriminate|]).
    pose (pwa := default ∅ (cachedPWAResources h)).
    pose (item := default (cacheItem.mk "" "" "" "") (Cache.Get "/app.js" pwa)).
    assert (Hpwa : cachedPWAResources h = Some pwa) by (vm_compute; reflexivity).
    assert (Hitem : Cache.Get
                      (trimVersion h
                         (Request.Path
                            (getRequest "/app.js" (Some (dquote +:+ "v1" +:+ dquote))))) pwa
                    = Some item) by (vm_compute; reflexivity).
    assert (Hpath : cacheItem.Path item = "/app.js") by (vm_compute; reflexivity).
    (destruct (Hcached pwa item Hpwa Hitem) as (w' & E & S & B)).
    + in_list.
    + assert (Hnone : fileHandler h = None) by (vm_compute; reflexivity).
      intros [fh Hfh]. rewrite Hnone in Hfh. discriminate Hfh.
    + reflexivity.
    + exists w', item.
      split; [exact E | split; [exact S | split; [exact B | exact Hpath]]].
Defined.

(** ** The service worker *)

(** The order of [less] is the byte-wise order of strings. *)
Lemma notAfter_le (a b : string) : notAfter a b <-> String.le a b.
Proof.
  unfold notAfter, less, strings.Compare, String.le, String.leb.
  rewrite (String.compare_antisym a b).
  destruct (String.compare b a); cbn; split; intros H;
    first [reflexivity | exact I | discriminate H | contradiction].
Qed.

Global Instance notAfter_trans : Transitive notAfter.
Proof.
  intros a b c Hab Hbc. apply notAfter_le. apply notAfter_le in Hab, Hbc.
  etransitivity; eassumption.
Qed.

Global Instance notAfter_antisymm : AntiSymm (=) notAfter.
Proof.
  intros a b Hab Hba. apply notAfter_le in Hab, Hba.
  apply (anti_symm String.le); assumption.
Qed.

Global Instance notAfter_total : Total notAfter.
Proof.
  intros a b. destruct (total String.le a b) as [H|H]; [left|right];
    apply notAfter_le; exact H.
Qed.

(** The result of [sort.Slice] is the only slice with the same elements
    that is in the order of [less]. *)
Lemma sort_Slice_unique (l l' : list string) :
  l' ≡ₚ l -> Sorted notAfter l' -> l' = sort_Slice l.
Proof.
  intros Hperm Hsorted. apply (Sorted_unique notAfter).
  - exact Hsorted.
  - apply Sorted_merge_sort. apply _.
  - rewrite Hperm. symmetry. apply merge_sort_Permutation.
Qed.

Lemma sort_Slice_Permutation (l l' : list string) :
  l ≡ₚ l' -> sort_Slice l = sort_Slice l'.
Proof.
  intros Hperm. apply sort_Slice_unique.
  - rewrite <- Hperm. apply merge_sort_Permutation.
  - apply Sorted_merge_sort. apply _.
Qed.

(** What [setResources] adds to the set: the URL of each entry that has
    one. *)
Lemma setResources_elem (resources : gset string) (res : list string) (u : string) :
  u ∈ setResources resources res <->
  u ∈ resources \/ (u ≠ "" /\ exists r, r ∈ res /\ URL (parseHTTPResource r) = u).
Proof.
  unfold setResources. revert resources.
  induction res as [|r res IH]; intros resources; cbn [fold_left].
  - split; [auto|]. intros [H|(_ & r & Hr & _)]; [exact H|]. inversion Hr.
  - rewrite IH. destruct (decide (URL (parseHTTPResource r) = "")) as [He|He].
    + split.
      * intros [H|(Hu & r' & Hr' & E)]; [auto|]. right. split; [exact Hu|].
        exists r'. split; [right; exact Hr' | exact E].
      * intros [H|(Hu & r' & Hr' & E)]; [auto|]. right. split; [exact Hu|].
        apply elem_of_cons in Hr' as [->|Hr']; [congruence|]. eauto.
    + rewrite elem_of_union, elem_of_singleton. split.
      * intros [[->|H]|(Hu & r' & Hr' & E)]; [right|auto|right].
        -- split; [exact He|]. exists r. split; [left | reflexivity].
        -- split; [exact Hu|]. exists r'. split; [right; exact Hr' | exact E].
      * intros [H|(Hu & r' & Hr' & E)]; [auto|].
        apply elem_of_cons in Hr' as [->|Hr']; [auto|]. right. eauto.
Qed.

Lemma workerResources_entries (h : Handler) :
  workerResources h = setResources ∅ (workerEntries h).
Proof.
  unfold workerResources, workerEntries, setResources. cbv zeta.
  rewrite !fold_left_app. reflexivity.
Qed.

Lemma workerResources_elem (h : Handler) (u : string) :
  u ∈ workerResources h <->
  u ≠ "" /\ exists r, r ∈ workerEntries h /\ URL (parseHTTPResource r) = u.
Proof.
  rewrite workerResources_entries, setResources_elem, elem_of_empty. tauto.
Qed.

Lemma resolveAll_None h keys :
  Resources h = None -> keys ≠ [] -> resolveAll h keys = Panic "nil pointer dereference".
Proof.
  intros Hres Hkeys. destruct keys as [|k keys]; [contradiction|].
  cbn. unfold Resources_Resolve. rewrite Hres. reflexivity.
Qed.

(** The bytes of [makeAppWorkerJS] do not depend on the order in which
    the set is visited. *)
Lemma makeAppWorkerJS_range_Permutation W h keys keys' :
  keys ≡ₚ keys' -> makeAppWorkerJS_range W h keys = makeAppWorkerJS_range W h keys'.
Proof.
  intros Hperm. unfold makeAppWorkerJS_range.
  destruct (Resources h) as [res|] eqn:Hres.
  - rewrite !(resolveAll_Some h res) by exact Hres. cbn.
    rewrite (sort_Slice_Permutation (Resolve res <$> keys) (Resolve res <$> keys'))
      by (rewrite Hperm; reflexivity).
    reflexivity.
  - destruct keys as [|k keys].
    + apply Permutation_nil_l in Hperm. rewrite Hperm. reflexivity.
    + rewrite !resolveAll_None; try assumption; try discriminate; [reflexivity|].
      intros ->. apply Permutation_nil_r in Hperm. discriminate Hperm.
Qed.

(** C3: two runs of [makeAppWorkerJS] on the same handler (the resolver
    is part of it), with the same template engine and JSON encoder, write
    the same bytes, whatever the order in which each run walks the set of
    URLs: the set holds each URL once, every member goes through the resolver
    and the list is sorted byte-wise before it is handed to the template. *)
Theorem makeAppWorkerJS_deterministic (W1 W2 : World) (h : Handler) :
  (forall keys, rangeOrder W1 keys ≡ₚ keys) ->
  (forall keys, rangeOrder W2 keys ≡ₚ keys) ->
  templateExecute W1 = templateExecute W2 ->
  jsonString W1 = jsonString W2 ->
  makeAppWorkerJS W1 h = makeAppWorkerJS W2 h
  /\ NoDup (rangeOrder W1 (elements (workerResources h)))
  /\ (forall u,
        u ∈ rangeOrder W1 (elements (workerResources h)) <->
        u ≠ "" /\ exists r, r ∈ workerEntries h /\ URL (parseHTTPResource r) = u)
  /\ (forall res,
        Resources h = Some res ->
        let sorted := sort_Slice (Resolve res <$> elements (workerResources h)) in
        Sorted notAfter sorted
        /\ sorted ≡ₚ Resolve res <$> elements (workerResources h)
        /\ makeAppWorkerJS W1 h =
           match templateExecute W1 "app-worker.js" (ServiceWorkerTemplate h)
                   [("Version", Version h); ("ResourcesToCache", jsonString W1 sorted)] with
           | Some b => Ok b
           | None => Panic "initializing app-worker.js failed"
           end).
Proof.
  intros Hr1 Hr2 Ht Hj.
  assert (Hrange : forall W,
             (forall keys, rangeOrder W keys ≡ₚ keys) ->
             makeAppWorkerJS W h
             = makeAppWorkerJS_range W h (elements (workerResources h))).
  { intros W Hr. unfold makeAppWorkerJS.
    apply makeAppWorkerJS_range_Permutation. apply Hr. }
  split; [|split; [|split]].
  - rewrite (Hrange W1 Hr1), (Hrange W2 Hr2).
    unfold makeAppWorkerJS_range. rewrite Ht, Hj. reflexivity.
  - rewrite Hr1. apply NoDup_elements.
  - intros u. rewrite Hr1, elem_of_elements. apply workerResources_elem.
  - intros res Hres sorted. split; [|split].
    + apply Sorted_merge_sort. apply _.
    + apply merge_sort_Permutation.
    + rewrite (Hrange W1 Hr1). unfold makeAppWorkerJS_range.
      rewrite (resolveAll_Some h res) by assumption. reflexivity.
Qed.

(** The sample handler, its set walked in one order and in the reverse
    order. *)
Lemma makeAppWorkerJS_deterministic_witness :
  makeAppWorkerJS (sampleWorld noNetwork) (initialised (sampleWorld noNetwork) sampleHandler)
  = makeAppWorkerJS (reversedWorld (sampleWorld noNetwork))
      (initialised (sampleWorld noNetwork) sampleHandler).
Proof.
  refine (proj1 (makeAppWorkerJS_deterministic (sampleWorld noNetwork)
                   (reversedWorld (sampleWorld noNetwork))
                   (initialised (sampleWorld noNetwork) sampleHandler) _ _ eq_refl eq_refl)).
  - intros keys. reflexivity.
  - intros keys. cbn. apply reverse_Permutation.
Defined.

Example makeAppWorkerJS_sample :
  makeAppWorkerJS (reversedWorld (sampleWorld noNetwork))
    (initialised (sampleWorld noNetwork) sampleHandler)
  = Ok ("app-worker.js:v2,/,/app.css,/app.js,/manifest.webmanifest,/wasm_exec.js,"
        +:+ "/web/app.wasm," +:+ placeholderPNG).
Proof. vm_compute. reflexivity. Qed.

(** The sample handler, asked for "/v2" and for "/v2/app.js". *)
Lemma trimVersion_needs_trailing_slash_witness :
  trimVersion (initialised (sampleWorld noNetwork) sampleHandler)
    ("/" +:+ Version (initialised (sampleWorld noNetwork) sampleHandler))
  = "/" +:+ Version (initialised (sampleWorld noNetwork) sampleHandler)
  /\ Version (initialised (sampleWorld noNetwork) sampleHandler) = "v2"
  /\ ServeHTTP (sampleWorld noNetwork) (initialised (sampleWorld noNetwork) sampleHandler)
       ResponseWriter.new (getRequest "/v2" None)
     = dispatch (sampleWorld noNetwork) (initialised (sampleWorld noNetwork) sampleHandler)
         (withETag (initialised (sampleWorld noNetwork) sampleHandler) ResponseWriter.new)
         (getRequest "/v2" None)
         ("/" +:+ Version (initialised (sampleWorld noNetwork) sampleHandler)).
Proof.
  destruct (trimVersion_needs_trailing_slash (sampleWorld noNetwork)
              (initialised (sampleWorld noNetwork) sampleHandler))
    as (_ & _ & Hbare & Hserve).
  split; [exact Hbare|]. split; [vm_compute; reflexivity|].
  apply (Hserve ResponseWriter.new (getRequest "/v2" None)).
  - vm_compute. reflexivity.
  - vm_compute. discriminate.
  - vm_compute. reflexivity.
Defined.

(** ** What a request changes *)

Lemma keepsHeaders_refl w : keepsHeaders w w.
Proof. intros key _. reflexivity. Qed.

Lemma keepsHeaders_trans w1 w2 w3 :
  keepsHeaders w1 w2 -> keepsHeaders w2 w3 -> keepsHeaders w1 w3.
Proof. intros H12 H23 key Hkey. rewrite H23, H12 by exact Hkey. reflexivity. Qed.

Lemma keepsHeaders_SetHeader key value w :
  key ∈ contentHeaders -> keepsHeaders w (ResponseWriter.SetHeader key value w).
Proof.
  intros Hkey key' Hkey'. unfold ResponseWriter.SetHeader, Header.Set_. cbn.
  apply lookup_insert_ne. intros ->. contradiction.
Qed.

Lemma keepsHeaders_WriteHeader code w : keepsHeaders w (ResponseWriter.WriteHeader code w).
Proof.
  intros key _. unfold ResponseWriter.WriteHeader. destruct (ResponseWriter.Status w); reflexivity.
Qed.

Lemma keepsHeaders_Write b w : keepsHeaders w (ResponseWriter.Write b w).
Proof.
  intros key _. unfold ResponseWriter.Write, ResponseWriter.WriteHeader.
  destruct (ResponseWriter.Status w); reflexivity.
Qed.

Lemma keepsHeaders_serveCachedItem w i : keepsHeaders w (serveCachedItem w i).
Proof.
  unfold serveCachedItem.
  eapply keepsHeaders_trans; [|apply keepsHeaders_Write].
  eapply keepsHeaders_trans; [|apply keepsHeaders_WriteHeader].
  destruct (decide _).
  - eapply keepsHeaders_trans; apply keepsHeaders_SetHeader; in_list.
  - eapply keepsHeaders_trans; [|apply keepsHeaders_SetHeader; in_list].
    eapply keepsHeaders_trans; apply keepsHeaders_SetHeader; in_list.
Qed.

Lemma keepsHeaders_serveLibrary w r library : keepsHeaders w (serveLibrary w r library).
Proof.
  unfold serveLibrary.
  eapply keepsHeaders_trans; [|apply keepsHeaders_Write].
  eapply keepsHeaders_trans; apply keepsHeaders_SetHeader; in_list.
Qed.

Lemma servePage_inv W h w r :
  keepsHeaders w (servePage W h w r).1 /\ noSetenv (servePage W h w r).2.
Proof.
  unfold servePage, http_NotFound.
  destruct (negb (routed W (Request.Path r))); cbn [fst snd].
  - split; [|constructor].
    eapply keepsHeaders_trans; [|apply keepsHeaders_Write].
    eapply keepsHeaders_trans; [|apply keepsHeaders_WriteHeader].
    eapply keepsHeaders_trans; apply keepsHeaders_SetHeader; in_list.
  - destruct (encodePage W h r); cbn [fst snd].
    + split; [|constructor].
      eapply keepsHeaders_trans; [|apply keepsHeaders_Write].
      eapply keepsHeaders_trans; apply keepsHeaders_SetHeader; in_list.
    + split; [apply keepsHeaders_WriteHeader | repeat constructor].
Qed.

(** What [serveProxyResource] returns, when it returns: the handler as it
    was or with one more item in its proxy cache, no write to the
    environment, and only content headers written. *)
Lemma serveProxyResource_inv W h resource w r h' w' evs :
  serveProxyResource W h resource w r = Ok (h', w', evs) ->
  (h' = h \/ exists cache, h' = set_cachedProxyResources (Some cache) h)
  /\ noSetenv evs
  /\ keepsHeaders w w'.
Proof.
  unfold serveProxyResource. intros H.
  apply bind_Ok_inv in H as (u & _ & H).
  apply bind_Ok_inv in H as (cache & _ & H).
  destruct (Cache.Get _ cache) as [i|].
  { injection H as <- <- <-. split; [auto|]. split; [constructor|].
    apply keepsHeaders_serveCachedItem. }
  destruct (httpGet W u) as [res|].
  2:{ injection H as <- <- <-. split; [auto|]. split; [repeat constructor|].
      apply keepsHeaders_WriteHeader. }
  destruct (negb _).
  { injection H as <- <- <-. split; [auto|]. split; [repeat constructor|].
    apply keepsHeaders_WriteHeader. }
  destruct (Response.Body res) as [body|].
  - injection H as <- <- <-. split; [eauto|]. split; [repeat constructor|].
    apply keepsHeaders_serveCachedItem.
  - injection H as <- <- <-. split; [auto|]. split; [repeat constructor|].
    apply keepsHeaders_WriteHeader.
Qed.

Lemma serveByPath_inv W h w r path h' w' evs :
  serveByPath W h w r path = Ok (h', w', evs) ->
  (h' = h \/ exists cache, h' = set_cachedProxyResources (Some cache) h)
  /\ noSetenv evs
  /\ keepsHeaders w w'.
Proof.
  unfold serveByPath. intros H.
  apply bind_Ok_inv in H as (cache & _ & H).
  destruct (Cache.Get path cache) as [i|].
  { injection H as <- <- <-. split; [auto|]. split; [constructor|].
    apply keepsHeaders_serveCachedItem. }
  destruct (proxyResources h !! path) as [resource|].
  { eapply serveProxyResource_inv. exact H. }
  destruct (libraries h !! path) as [library|].
  { injection H as <- <- <-. split; [auto|]. split; [constructor|].
    apply keepsHeaders_serveLibrary. }
  pose proof (servePage_inv W h w r) as [Hk Hn].
  destruct (servePage W h w r) as [w0 evs0]. injection H as <- <- <-.
  split; [auto|]. split; [exact Hn | exact Hk].
Qed.

(** What [dispatch] returns when no file handler is there to take the
    request over. *)
Lemma dispatch_inv W h w r path h' w' evs :
  dispatch W h w r path = Ok (h', w', evs) ->
  (h' = h \/ exists cache, h' = set_cachedProxyResources (Some cache) h)
  /\ noSetenv evs
  /\ (fileHandler h = None -> keepsHeaders w w').
Proof.
  unfold dispatch. intros H.
  assert (Hby : forall p,
             serveByPath W h w r p = Ok (h', w', evs) ->
             (h' = h \/ exists cache, h' = set_cachedProxyResources (Some cache) h)
             /\ noSetenv evs
             /\ (fileHandler h = None -> keepsHeaders w w')).
  { intros p Hp. apply serveByPath_inv in Hp as (H1 & H2 & H3). auto. }
  destruct (fileHandler h) as [fh|] eqn:Hfh.
  - destruct (strings.HasPrefix path "/web/").
    { injection H as <- <- <-. split; [auto|]. split; [constructor | discriminate]. }
    destruct (decide (path = "/goapp.js")); [eapply Hby; exact H|].
    destruct (decide (path = "/manifest.json")); [eapply Hby; exact H|].
    destruct (decide (path = "/app.wasm" \/ path = "/goapp.wasm")); [|eapply Hby; exact H].
    apply bind_Ok_inv in H as (wasm & _ & H). injection H as <- <- <-.
    split; [auto|]. split; [constructor | discriminate].
  - assert (H' :
      (if decide (path = "/goapp.js") then serveByPath W h w r "/app.js"
       else if decide (path = "/manifest.json") then
              serveByPath W h w r "/manifest.webmanifest"
       else if decide (path = "/app.wasm" \/ path = "/goapp.wasm") then
              Ok (h, ResponseWriter.WriteHeader StatusNotFound w, [])
       else serveByPath W h w r path) = Ok (h', w', evs)).
    { destruct (strings.HasPrefix path "/web/"); exact H. }
    clear H.
    destruct (decide (path = "/goapp.js")); [eapply Hby; exact H'|].
    destruct (decide (path = "/manifest.json")); [eapply Hby; exact H'|].
    destruct (decide (path = "/app.wasm" \/ path = "/goapp.wasm")); [|eapply Hby; exact H'].
    injection H' as <- <- <-. split; [auto|]. split; [constructor|].
    intros _. apply keepsHeaders_WriteHeader.
Qed.

Lemma once_Do_inv f h h1 evs :
  once_Do f h = Ok (h1, evs) ->
  once h1 = true /\ (once h = true -> h1 = h /\ evs = []).
Proof.
  unfold once_Do. destruct (once h) eqn:Honce.
  - intros [= <- <-]. auto.
  - intros H. apply bind_Ok_inv in H as ([h0 evs0] & _ & H).
    injection H as <- <-. split; [reflexivity | discriminate].
Qed.

(** What [ServeHTTP] returns, in terms of the handler that [once.Do]
    leaves. *)
Lemma ServeHTTP_inv W h w r h' w' evs :
  ServeHTTP W h w r = Ok (h', w', evs) ->
  exists h1 evs0 evs1,
    once_Do (init W) h = Ok (h1, evs0)
    /\ evs = evs0 ++ evs1
    /\ (h' = h1 \/ exists cache, h' = set_cachedProxyResources (Some cache) h1)
    /\ noSetenv evs1
    /\ (fileHandler h1 = None -> keepsHeaders (withETag h1 w) w').
Proof.
  unfold ServeHTTP. intros H.
  apply bind_Ok_inv in H as ([h1 evs0] & Honce & H).
  exists h1, evs0.
  destruct (decide _).
  - injection H as <- <- <-. exists []. rewrite app_nil_r.
    split; [exact Honce|]. split; [reflexivity|]. split; [auto|].
    split; [constructor|]. intros _. apply keepsHeaders_WriteHeader.
  - apply bind_Ok_inv in H as ([[h2 w2] evs2] & Hd & H). injection H as <- <- <-.
    exists evs2. split; [exact Honce|]. split; [reflexivity|].
    apply dispatch_inv in Hd. exact Hd.
Qed.

(** X1: a request that [ServeHTTP] answers leaves the handler marked as
    initialised; on a handler that is already initialised it does not run
    [init] again: no environment variable is written, and the handler is left
    as it was but for its proxy cache. *)
Theorem ServeHTTP_init_once (W : World) (h : Handler) (w : ResponseWriter.t) (r : Request.t)
    (h' : Handler) (w' : ResponseWriter.t) (evs : list event) :
  ServeHTTP W h w r = Ok (h', w', evs) ->
  once h' = true
  /\ (once h = true ->
      noSetenv evs
      /\ (h' = h \/ exists cache, h' = set_cachedProxyResources (Some cache) h)).
Proof.
  intros H. apply ServeHTTP_inv in H as (h1 & evs0 & evs1 & Honce & -> & Hh & Hn & _).
  apply once_Do_inv in Honce as [H1 Hsame]. split.
  - destruct Hh as [->|[cache ->]]; exact H1.
  - intros Honce. destruct (Hsame Honce) as [-> ->]. split; [exact Hn | exact Hh].
Qed.

(** The sample handler, at its first request and at a later one. *)
Lemma ServeHTTP_init_once_witness :
  (exists h' w' evs,
     ServeHTTP (sampleWorld noNetwork) sampleHandler ResponseWriter.new
       (getRequest "/app.js" None) = Ok (h', w', evs)
     /\ once h' = true)
  /\ (exists h' w' evs,
        ServeHTTP (sampleWorld noNetwork) (initialised (sampleWorld noNetwork) sampleHandler)
          ResponseWriter.new (getRequest "/app.js" None) = Ok (h', w', evs)
        /\ noSetenv evs).
Proof.
  split.
  - destruct (ServeHTTP (sampleWorld noNetwork) sampleHandler ResponseWriter.new
                (getRequest "/app.js" None)) as [[[h' w'] evs]|msg] eqn:E;
      [|vm_compute in E; discriminate E].
    exists h', w', evs. split; [reflexivity|].
    exact (proj1 (ServeHTTP_init_once _ _ _ _ _ _ _ E)).
  - destruct (ServeHTTP (sampleWorld noNetwork)
                (initialised (sampleWorld noNetwork) sampleHandler) ResponseWriter.new
                (getRequest "/app.js" None)) as [[[h' w'] evs]|msg] eqn:E;
      [|vm_compute in E; discriminate E].
    exists h', w', evs. split; [reflexivity|].
    assert (Honce : once (initialised (sampleWorld noNetwork) sampleHandler) = true)
      by (vm_compute; reflexivity).
    exact (proj1 (proj2 (ServeHTTP_init_once _ _ _ _ _ _ _ E) Honce)).
Defined.

(** X2: every answer of [ServeHTTP] on an initialised handler whose
    resolver serves no file carries [Cache-Control: no-cache] and the ETag
    of the handler, whatever the route and its status. *)
Theorem ServeHTTP_cache_headers (W : World) (h : Handler) (w : ResponseWriter.t)
    (r : Request.t) (h' : Handler) (w' : ResponseWriter.t) (evs : list event) :
  once h = true ->
  fileHandler h = None ->
  ServeHTTP W h w r = Ok (h', w', evs) ->
  ResponseWriter.Header w' !! "Cache-Control" = Some "no-cache"
  /\ ResponseWriter.Header w' !! "ETag" = Some (etag h).
Proof.
  intros Honce Hfh H.
  apply ServeHTTP_inv in H as (h1 & evs0 & evs1 & Hdo & _ & _ & _ & Hk).
  apply once_Do_inv in Hdo as [_ Hsame]. destruct (Hsame Honce) as [-> _].
  specialize (Hk Hfh).
  rewrite !Hk by in_list. unfold withETag, ResponseWriter.SetHeader, Header.Set_. cbn.
  split.
  - rewrite lookup_insert_ne by discriminate. apply lookup_insert_eq.
  - apply lookup_insert_eq.
Qed.

(** The sample handler with the network down: the answer for a proxy
    path carries both headers. *)
Lemma ServeHTTP_cache_headers_witness :
  exists h' w' evs,
    ServeHTTP (sampleWorld noNetwork) (initialised (sampleWorld noNetwork) sampleHandler)
      ResponseWriter.new (getRequest "/robots.txt" None) = Ok (h', w', evs)
    /\ ResponseWriter.Header w' !! "Cache-Control" = Some "no-cache"
    /\ ResponseWriter.Header w' !! "ETag"
       = Some (etag (initialised (sampleWorld noNetwork) sampleHandler)).
Proof.
  destruct (ServeHTTP (sampleWorld noNetwork)
              (initialised (sampleWorld noNetwork) sampleHandler) ResponseWriter.new
              (getRequest "/robots.txt" None)) as [[[h' w'] evs]|msg] eqn:E;
    [|vm_compute in E; discriminate E].
  exists h', w', evs. split; [reflexivity|].
  assert (Honce : once (initialised (sampleWorld noNetwork) sampleHandler) = true)
    by (vm_compute; reflexivity).
  assert (Hfh : fileHandler (initialised (sampleWorld noNetwork) sampleHandler) = None)
    by (vm_compute; reflexivity).
  exact (ServeHTTP_cache_headers _ _ _ _ _ _ _ Honce Hfh E).
Defined.

(** ** More on the table of proxy resources *)

Lemma addProxyResource_kept m r :
  keptProxyResource r -> addProxyResource m r = <[ProxyResource.Path r := r]> m.
Proof.
  intros (Hres & Hp & Hrp). unfold addProxyResource.
  rewrite decide_False by exact Hres. rewrite Hp, Hrp. reflexivity.
Qed.

Lemma addProxyResource_dropped m r :
  ~ keptProxyResource r -> addProxyResource m r = m.
Proof.
  intros Hr. unfold addProxyResource.
  destruct (decide _) as [|Hres]; [reflexivity|].
  destruct (strings.HasPrefix (ProxyResource.Path r) "/") eqn:Hp; [|reflexivity].
  destruct (strings.HasPrefix (ProxyResource.ResourcePath r) "/web/") eqn:Hrp; [|reflexivity].
  exfalso. apply Hr. repeat split; assumption.
Qed.

Lemma addProxyResource_fold_kept (l : list ProxyResource.t)
    (m : gmap string ProxyResource.t) :
  (forall path resource, m !! path = Some resource -> keptProxyResource resource) ->
  forall path resource,
    fold_left addProxyResource l m !! path = Some resource -> keptProxyResource resource.
Proof.
  revert m. induction l as [|r l IH]; intros m Hm; [exact Hm|].
  cbn [fold_left]. apply IH. intros path resource.
  unfold addProxyResource.
  destruct (decide _) as [|Hres]; [apply Hm|].
  destruct (strings.HasPrefix (ProxyResource.Path r) "/") eqn:Hp; [|apply Hm].
  destruct (strings.HasPrefix (ProxyResource.ResourcePath r) "/web/") eqn:Hrp; [|apply Hm].
  cbn [andb]. rewrite lookup_insert. destruct (decide _) as [_|_]; [|apply Hm].
  intros [= <-]. repeat split; assumption.
Qed.

Lemma addDefaultProxyResource_kept path resourcePath (m : gmap string ProxyResource.t) :
  keptProxyResource (ProxyResource.mk path resourcePath) ->
  (forall p resource, m !! p = Some resource -> keptProxyResource resource) ->
  forall p resource,
    addDefaultProxyResource path resourcePath m !! p = Some resource ->
    keptProxyResource resource.
Proof.
  intros Hd Hm p resource. unfold addDefaultProxyResource.
  destruct (m !! path) eqn:E; [apply Hm|].
  rewrite lookup_insert. destruct (decide (path = p)) as [_|_]; [|apply Hm].
  intros [= <-]. exact Hd.
Qed.

(** X3: every entry of the table built by [initProxyResources] stands
    under its own path, which starts with a slash and is not a reserved one,
    and its resource path starts with [/web/], whatever is configured. *)
Theorem proxy_table_entries_kept (l : list ProxyResource.t) (path : string)
    (resource : ProxyResource.t) :
  makeProxyResources l !! path = Some resource ->
  ProxyResource.Path resource = path
  /\ (path ∉ reservedPaths)
  /\ strings.HasPrefix path "/" = true
  /\ strings.HasPrefix (ProxyResource.ResourcePath resource) "/web/" = true.
Proof.
  intros Hlookup.
  assert (Hkey : ProxyResource.Path resource = path)
    by (eapply makeProxyResources_key; exact Hlookup).
  assert (Hkept : keptProxyResource resource).
  { revert Hlookup. unfold makeProxyResources. revert path resource Hkey.
    assert (Hall : forall p resource,
               addDefaultProxyResource "/ads.txt" "/web/ads.txt"
                 (addDefaultProxyResource "/sitemap.xml" "/web/sitemap.xml"
                    (addDefaultProxyResource "/robots.txt" "/web/robots.txt"
                       (configuredProxyResources l))) !! p = Some resource ->
               keptProxyResource resource).
    { repeat (apply addDefaultProxyResource_kept;
              [split; [in_list | split; reflexivity]|]).
      apply addProxyResource_fold_kept. intros ? ?. rewrite lookup_empty. discriminate. }
    intros path resource _. apply Hall. }
  destruct Hkept as (H1 & H2 & H3). rewrite Hkey in H1, H2. auto.
Qed.

(** A configured entry that is kept. *)
Lemma proxy_table_entries_kept_witness :
  ProxyResource.Path (ProxyResource.mk "/humans.txt" "/web/humans.txt") = "/humans.txt"
  /\ ("/humans.txt" ∉ reservedPaths)
  /\ strings.HasPrefix "/humans.txt" "/" = true
  /\ strings.HasPrefix
       (ProxyResource.ResourcePath (ProxyResource.mk "/humans.txt" "/web/humans.txt"))
       "/web/" = true.
Proof.
  apply (proxy_table_entries_kept [ProxyResource.mk "/humans.txt" "/web/humans.txt"]).
  vm_compute. reflexivity.
Defined.

(** X4: an entry that the loop does not keep (a reserved path, a path
    without its slash, a resource path outside [/web/]) is dropped silently:
    the table is the one of the configuration without it. *)
Theorem proxy_table_ignores_dropped (l1 l2 : list ProxyResource.t) (r : ProxyResource.t) :
  ~ keptProxyResource r ->
  makeProxyResources (l1 ++ r :: l2) = makeProxyResources (l1 ++ l2).
Proof.
  intros Hr. unfold makeProxyResources, configuredProxyResources.
  rewrite !fold_left_app. cbn [fold_left].
  rewrite (addProxyResource_dropped _ r Hr). reflexivity.
Qed.

(** An entry for [/robots.txt] outside [/web/]: the default stays. *)
Lemma proxy_table_ignores_dropped_witness :
  makeProxyResources [ProxyResource.mk "/robots.txt" "/static/robots.txt"]
  = makeProxyResources [].
Proof.
  apply (proxy_table_ignores_dropped [] [] (ProxyResource.mk "/robots.txt" "/static/robots.txt")).
  intros (_ & _ & H). vm_compute in H. discriminate H.
Defined.

Lemma addDefaultProxyResource_keeps path resourcePath (m : gmap string ProxyResource.t)
    p resource :
  m !! p = Some resource ->
  addDefaultProxyResource path resourcePath m !! p = Some resource.
Proof.
  intros Hp. unfold addDefaultProxyResource.
  destruct (m !! path) eqn:E; [exact Hp|].
  rewrite lookup_insert_ne; [exact Hp | congruence].
Qed.

(** X5: of the configured entries that are kept, the last one with a
    given path is the one of the table, a default path included. *)
Theorem proxy_table_last_wins (l1 l2 : list ProxyResource.t) (r : ProxyResource.t) :
  keptProxyResource r ->
  Forall (fun r' => keptProxyResource r' -> ProxyResource.Path r' ≠ ProxyResource.Path r) l2 ->
  makeProxyResources (l1 ++ r :: l2) !! ProxyResource.Path r = Some r.
Proof.
  intros Hr Hl2.
  assert (Hconf : configuredProxyResources (l1 ++ r :: l2) !! ProxyResource.Path r = Some r).
  { unfold configuredProxyResources. rewrite fold_left_app. cbn [fold_left].
    rewrite (addProxyResource_kept _ r Hr).
    generalize (fold_left addProxyResource l1 ∅). intros m0.
    assert (Hgen : forall m, m !! ProxyResource.Path r = Some r ->
                     fold_left addProxyResource l2 m !! ProxyResource.Path r = Some r).
    { induction Hl2 as [|r' l2 Hr' _ IH]; intros m Hm; [exact Hm|].
      cbn [fold_left]. apply IH.
      destruct (decide (keptProxyResource r')) as [Hk|Hk].
      - rewrite (addProxyResource_kept _ r' Hk).
        rewrite lookup_insert_ne by (apply Hr'; exact Hk). exact Hm.
      - rewrite (addProxyResource_dropped _ r' Hk). exact Hm. }
    apply Hgen. apply lookup_insert_eq. }
  unfold makeProxyResources. repeat apply addDefaultProxyResource_keeps. exact Hconf.
Qed.

(** Two entries for [/robots.txt]: the second one is served. *)
Lemma proxy_table_last_wins_witness :
  makeProxyResources
    [ProxyResource.mk "/robots.txt" "/web/first.txt";
     ProxyResource.mk "/robots.txt" "/web/second.txt"] !! "/robots.txt"
  = Some (ProxyResource.mk "/robots.txt" "/web/second.txt").
Proof.
  apply (proxy_table_last_wins [ProxyResource.mk "/robots.txt" "/web/first.txt"] []
           (ProxyResource.mk "/robots.txt" "/web/second.txt")).
  - split; [in_list | split; reflexivity].
  - constructor.
Defined.

(** ** The defaults of [init] *)

Lemma length_zero_empty (s : string) : (String.length s =? 0)%nat = true <-> s = "".
Proof. destruct s; cbn; split; intros H; first [reflexivity | discriminate H]. Qed.

(** The loop of [initLibraries], from any map. *)
Lemma initLibraries_fold (l : list Library) (m : gmap string string) path styles :
  fold_left
    (fun (libs : gmap string string) (l : Library) =>
       let '(path, styles) := l in
       if negb (strings.HasPrefix path "/") || (String.length styles =? 0)%nat
       then libs
       else <[path := styles]> libs)
    l m !! path = Some styles ->
  m !! path = Some styles
  \/ ((path, styles) ∈ l /\ strings.HasPrefix path "/" = true /\ styles ≠ "").
Proof.
  revert m. induction l as [|[p s] l IH]; intros m H; [left; exact H|].
  cbn [fold_left] in H. apply IH in H as [H|(Hin & Hp & Hs)].
  - destruct (strings.HasPrefix p "/") eqn:Hp; cbn [negb orb] in H; [|left; exact H].
    destruct (String.length s =? 0)%nat eqn:Hs; [left; exact H|].
    rewrite lookup_insert in H. destruct (decide (p = path)) as [->|_]; [|left; exact H].
    injection H as ->. right. split; [left|]. split; [exact Hp|].
    intros ->. discriminate Hs.
  - right. split; [right; exact Hin | auto].
Qed.

Lemma initLibraries_fold_mounted (l : list Library) (m : gmap string string) path :
  (is_Some (m !! path)
   \/ exists styles, (path, styles) ∈ l /\ strings.HasPrefix path "/" = true /\ styles ≠ "") ->
  is_Some
    (fold_left
       (fun (libs : gmap string string) (l : Library) =>
          let '(path, styles) := l in
          if negb (strings.HasPrefix path "/") || (String.length styles =? 0)%nat
          then libs
          else <[path := styles]> libs)
       l m !! path).
Proof.
  revert m. induction l as [|[p s] l IH]; intros m H.
  - destruct H as [H|(styles & Hin & _)]; [exact H | inversion Hin].
  - cbn [fold_left]. apply IH.
    destruct H as [H|(styles & Hin & Hp & Hs)].
    + left. destruct (_ || _); [exact H|].
      rewrite lookup_insert. destruct (decide _); [eauto | exact H].
    + apply elem_of_cons in Hin as [[= <- <-]|Hin]; [|right; eauto].
      left. rewrite Hp. cbn [negb orb].
      destruct (String.length styles =? 0)%nat eqn:Hlen.
      * apply length_zero_empty in Hlen. contradiction.
      * rewrite lookup_insert_eq. eauto.
Qed.

(** X6: [initLibraries] mounts a library only under a path that starts
    with a slash and only when its styles are not empty: what is mounted
    under a path is the (non-empty) styles of a configured library with that
    path; and every configured library with such a path and styles has its
    path mounted. *)
Theorem initLibraries_mounts (h : Handler) :
  (forall path styles,
     libraries (initLibraries h) !! path = Some styles ->
     (path, styles) ∈ Libraries h /\ strings.HasPrefix path "/" = true /\ styles ≠ "")
  /\ (forall path styles,
        (path, styles) ∈ Libraries h ->
        strings.HasPrefix path "/" = true ->
        styles ≠ "" ->
        is_Some (libraries (initLibraries h) !! path)).
Proof.
  split.
  - intros path styles H. apply initLibraries_fold in H as [H|H]; [|exact H].
    rewrite lookup_empty in H. discriminate H.
  - intros path styles Hin Hp Hs. apply initLibraries_fold_mounted. right. eauto.
Qed.

Lemma fold_left_snoc (l init : list string) :
  fold_left (fun styles path => styles ++ [path]) l init = init ++ l.
Proof.
  revert init. induction l as [|x l IH]; intros init; cbn [fold_left].
  - rewrite app_nil_r. reflexivity.
  - rewrite IH, <- app_assoc. reflexivity.
Qed.

(** X7: after [initLinks] the style sheets are [/app.css], then the
    paths of the mounted libraries, each once and in the order in which the
    runtime walks the map, then the configured style sheets in their order;
    with one library mounted the list starts with [/app.css] and its path. *)
Theorem initLinks_Styles (W : World) (h : Handler) :
  (forall keys, rangeOrder W keys ≡ₚ keys) ->
  exists libs,
    Styles (initLinks W h) = "/app.css" :: libs ++ Styles h
    /\ NoDup libs
    /\ (forall path, path ∈ libs <-> is_Some (libraries h !! path))
    /\ (forall path styles,
          libraries h = {[ path := styles ]} -> libs = [path]).
Proof.
  intros Hperm. exists (rangeKeys W (libraries h)).
  assert (Hkeys : rangeKeys W (libraries h) ≡ₚ (map_to_list (libraries h)).*1)
    by apply Hperm.
  split; [|split; [|split]].
  - unfold initLinks. cbn [Styles set_Styles]. rewrite fold_left_snoc. reflexivity.
  - rewrite Hkeys. apply NoDup_fst_map_to_list.
  - intros path. rewrite Hkeys, list_elem_of_fmap. split.
    + intros ([p s] & -> & Hin). apply elem_of_map_to_list in Hin. cbn. eauto.
    + intros [s Hs]. exists (path, s). split; [reflexivity|].
      apply elem_of_map_to_list. exact Hs.
  - intros path styles Hlib. rewrite Hlib in Hkeys.
    rewrite map_to_list_singleton in Hkeys. cbn in Hkeys.
    apply Permutation_singleton_r in Hkeys. rewrite Hlib. exact Hkeys.
Qed.

(** One library under [/lib.css], on the sample world. *)
Lemma initLinks_Styles_witness :
  Styles (initLinks (sampleWorld noNetwork)
            (initLibraries
               (mkHandler "" "" (Icon.mk "" "" "" "") "" "" "" "" [("/lib.css", "a{}")] "" ""
                  "" "" [] "" ["/user.css"] [] [] [] [] None None None [] [] [] None "" ""
                  "" "" false "" ∅ ∅ None None)))
  = ["/app.css"; "/lib.css"; "/user.css"].
Proof.
  destruct (initLinks_Styles (sampleWorld noNetwork)
              (initLibraries
                 (mkHandler "" "" (Icon.mk "" "" "" "") "" "" "" "" [("/lib.css", "a{}")] ""
                    "" "" "" [] "" ["/user.css"] [] [] [] [] None None None [] [] [] None ""
                    "" "" "" false "" ∅ ∅ None None)))
    as (libs & HS & _ & _ & Hone).
  - intros keys. reflexivity.
  - rewrite HS, (Hone "/lib.css" "a{}") by (vm_compute; reflexivity). reflexivity.
Defined.

(** X8: [initIcon] leaves no default, maskable or SVG icon empty and
    keeps every one that is configured; the large icon is kept with a
    configured default icon, empty or not, and replaced by the placeholder
    with an empty one, configured or not. *)
Theorem initIcon_defaults (h : Handler) :
  Icon.Default (Icon (initIcon h)) ≠ ""
  /\ Icon.Maskable (Icon (initIcon h)) ≠ ""
  /\ Icon.SVG (Icon (initIcon h)) ≠ ""
  /\ (Icon.Default (Icon h) ≠ "" ->
      Icon.Default (Icon (initIcon h)) = Icon.Default (Icon h)
      /\ Icon.Large (Icon (initIcon h)) = Icon.Large (Icon h))
  /\ (Icon.Default (Icon h) = "" ->
      Icon.Default (Icon (initIcon h)) = placeholderPNG
      /\ Icon.Large (Icon (initIcon h)) = placeholderPNG)
  /\ (Icon.Maskable (Icon h) ≠ "" ->
      Icon.Maskable (Icon (initIcon h)) = Icon.Maskable (Icon h))
  /\ (Icon.Maskable (Icon h) = "" ->
      Icon.Maskable (Icon (initIcon h)) = Icon.Default (Icon (initIcon h)))
  /\ (Icon.SVG (Icon h) ≠ "" -> Icon.SVG (Icon (initIcon h)) = Icon.SVG (Icon h))
  /\ (Icon.SVG (Icon h) = "" -> Icon.SVG (Icon (initIcon h)) = placeholderSVG).
Proof.
  cbv delta [initIcon]; cbv beta.
  generalize (Icon h). intros [d l s m].
  cbn [Icon set_Icon Icon.Default Icon.Large Icon.SVG Icon.Maskable].
  destruct (decide (d = "")) as [->|Hd];
    cbn [Icon.Default Icon.Large Icon.SVG Icon.Maskable];
    (destruct (decide (m = "")) as [->|Hm]);
    cbn [Icon.Default Icon.Large Icon.SVG Icon.Maskable];
    (destruct (decide (s = "")) as [->|Hs]);
    cbn [Icon.Default Icon.Large Icon.SVG Icon.Maskable];
    repeat split; intros; try congruence; try discriminate; try reflexivity.
Qed.

Lemma ite_field {A} (f : Handler -> A) (P : Prop) (d : Decision P) (h1 h2 : Handler) :
  f (if d then h1 else h2) = if d then f h1 else f h2.
Proof. destruct d; reflexivity. Qed.

Lemma ite_same {A} (P : Prop) (d : Decision P) (x : A) : (if d then x else x) = x.
Proof. destruct d; reflexivity. Qed.

(** The value of a field after one statement [if ... then set ... else
    h] of [initPWA], in terms of the handler before it. *)
Ltac field_after f hk :=
  let E := fresh "E" in
  eassert (E : f hk = _)
    by (unfold hk; rewrite ite_field;
        cbn [Name ShortName Title BackgroundColor ThemeColor Lang LoadingLabel
             set_Name set_ShortName set_BackgroundColor set_ThemeColor set_Lang
             set_LoadingLabel];
        rewrite ?ite_same; reflexivity);
  revert E.

Ltac fields_after hk :=
  field_after Name hk; field_after ShortName hk; field_after Title hk;
  field_after BackgroundColor hk; field_after ThemeColor hk; field_after Lang hk;
  field_after LoadingLabel hk;
  clearbody hk; intros.

(** X9: [initPWA] fills in the name from the short name and the other
    way round, and "App PWA" for both when the title is empty too; with a
    title and neither name both stay empty.  The colors, the language and the
    loading label are never empty after it: a configured value is kept, a
    missing one becomes "#2d2c2c", "en" and "{progress}%". *)
Theorem initPWA_defaults (h : Handler) :
  (Name h ≠ "" -> Name (initPWA h) = Name h)
  /\ (ShortName h ≠ "" -> ShortName (initPWA h) = ShortName h)
  /\ (Name h = "" -> ShortName h ≠ "" -> Name (initPWA h) = ShortName h)
  /\ (ShortName h = "" -> Name h ≠ "" -> ShortName (initPWA h) = Name h)
  /\ (Name h = "" -> ShortName h = "" -> Title h = "" ->
      Name (initPWA h) = "App PWA" /\ ShortName (initPWA h) = "App PWA")
  /\ (Name h = "" -> ShortName h = "" -> Title h ≠ "" ->
      Name (initPWA h) = "" /\ ShortName (initPWA h) = "")
  /\ BackgroundColor (initPWA h)
     = (if decide (BackgroundColor h = "") then "#2d2c2c" else BackgroundColor h)
  /\ ThemeColor (initPWA h) = (if decide (ThemeColor h = "") then "#2d2c2c" else ThemeColor h)
  /\ Lang (initPWA h) = (if decide (Lang h = "") then "en" else Lang h)
  /\ LoadingLabel (initPWA h)
     = (if decide (LoadingLabel h = "") then "{progress}%" else LoadingLabel h)
  /\ Title (initPWA h) = Title h.
Proof.
  pose (h1 := if decide (Name h = "" /\ ShortName h = "" /\ Title h = "")
              then set_Name "App PWA" h else h).
  pose (h2 := if decide (ShortName h1 = "") then set_ShortName (Name h1) h1 else h1).
  pose (h3 := if decide (Name h2 = "") then set_Name (ShortName h2) h2 else h2).
  pose (h4 := if decide (BackgroundColor h3 = "")
              then set_BackgroundColor defaultThemeColor h3 else h3).
  pose (h5 := if decide (ThemeColor h4 = "") then set_ThemeColor defaultThemeColor h4 else h4).
  pose (h6 := if decide (Lang h5 = "") then set_Lang "en" h5 else h5).
  pose (h7 := if decide (LoadingLabel h6 = "") then set_LoadingLabel "{progress}%" h6 else h6).
  change (initPWA h) with h7.
  fields_after h7. fields_after h6. fields_after h5. fields_after h4. fields_after h3.
  fields_after h2. fields_after h1.
  repeat match goal with H : _ = _ |- _ => rewrite H end.
  clear.
  unfold defaultThemeColor.
  repeat split; intros; try reflexivity;
    repeat case_decide; first [reflexivity | congruence | tauto].
Qed.

(** X10: on a proxy path that is not in the proxy cache, an upstream that
    cannot be reached, or whose body cannot be read after a status 200,
    makes [serveProxyResource] answer 500 with no body and log the failure;
    the handler, its proxy cache included, is left as it was, so that the
    next request for the path goes upstream again. *)
Theorem proxy_upstream_failure (W : World) (h : Handler) (resource : ProxyResource.t)
    (w : ResponseWriter.t) (r : Request.t) (cache : memoryCache) (u : string) :
  cachedProxyResources h = Some cache ->
  Cache.Get (ProxyResource.Path resource) cache = None ->
  proxyURL h resource r = Ok u ->
  httpGet W u = None
  \/ (exists res, httpGet W u = Some res
                  /\ Response.StatusCode res = StatusOK /\ Response.Body res = None) ->
  exists msg,
    serveProxyResource W h resource w r
    = Ok (h, ResponseWriter.WriteHeader StatusInternalServerError w, [HTTPGet u; Logged msg])
    /\ (ResponseWriter.Status w = None ->
        ResponseWriter.Status (ResponseWriter.WriteHeader StatusInternalServerError w)
        = Some StatusInternalServerError
        /\ ResponseWriter.Written (ResponseWriter.WriteHeader StatusInternalServerError w)
           = ResponseWriter.Written w)
    /\ (forall W' u' res' body',
          proxyURL h resource r = Ok u' ->
          httpGet W' u' = Some res' ->
          Response.StatusCode res' = StatusOK ->
          Response.Body res' = Some body' ->
          exists h1,
            serveProxyResource W' h resource w r
            = Ok (h1, serveCachedItem w (proxyItem resource res' body'), [HTTPGet u'])).
Proof.
  intros Hcache Hmiss Hu Hfail.
  assert (Hserve : exists msg,
             serveProxyResource W h resource w r
             = Ok (h, ResponseWriter.WriteHeader StatusInternalServerError w,
                   [HTTPGet u; Logged msg])).
  { unfold serveProxyResource. rewrite Hu, Hcache. cbn. rewrite Hmiss.
    destruct Hfail as [Hget|(res & Hget & Hstatus & Hbody)]; rewrite Hget.
    - eauto.
    - rewrite Hstatus, Hbody. cbn. eauto. }
  destruct Hserve as [msg Hserve]. exists msg.
  split; [exact Hserve|]. split.
  - intros Hw. apply WriteHeader_fresh. exact Hw.
  - intros W' u' res' body' Hu' Hget' Hstatus' Hbody'. eexists.
    unfold serveProxyResource. rewrite Hu', Hcache. cbn.
    rewrite Hmiss, Hget', Hstatus', Hbody'. reflexivity.
Qed.

(** The sample handler with the network down, then behind an upstream
    that answers 200. *)
Lemma proxy_upstream_failure_witness :
  exists msg,
    serveProxyResource (sampleWorld noNetwork)
      (initialised (sampleWorld noNetwork) sampleHandler)
      (ProxyResource.mk "/robots.txt" "/web/robots.txt") ResponseWriter.new
      (getRequest "/robots.txt" None)
    = Ok (initialised (sampleWorld noNetwork) sampleHandler,
          ResponseWriter.WriteHeader StatusInternalServerError ResponseWriter.new,
          [HTTPGet "/web/robots.txt"; Logged msg]).
Proof.
  destruct (proxy_upstream_failure (sampleWorld noNetwork)
              (initialised (sampleWorld noNetwork) sampleHandler)
              (ProxyResource.mk "/robots.txt" "/web/robots.txt") ResponseWriter.new
              (getRequest "/robots.txt" None) ∅ "/web/robots.txt")
    as (msg & Hserve & _).
  - vm_compute. reflexivity.
  - reflexivity.
  - vm_compute. reflexivity.
  - left. reflexivity.
  - exists msg. exact Hserve.
Defined.

(** What [initPWAResources] stores, when it returns. *)
Lemma initPWAResources_cache W h h' evs :
  initPWAResources W h = Ok (h', evs) ->
  exists h1 js worker manifest,
    makeAppJS W h = Ok (h1, js, evs)
    /\ makeAppWorkerJS W h1 = Ok worker
    /\ makeManifestJSON W h1 = Ok manifest
    /\ h' = set_cachedPWAResources
              (Some
                 (Cache.Set_ (cacheItem.mk "/app.css" "text/css" "" (appCSS W))
                 (Cache.Set_
                    (cacheItem.mk "/manifest.webmanifest" "application/manifest+json" ""
                       manifest)
                 (Cache.Set_ (cacheItem.mk "/app-worker.js" "application/javascript" "" worker)
                 (Cache.Set_ (cacheItem.mk "/app.js" "application/javascript" "" js)
                 (Cache.Set_
                    (cacheItem.mk "/wasm_exec.js" "application/javascript" "" (wasmExecJS W))
                    (newMemoryCache 5))))))) h1.
Proof.
  unfold initPWAResources. intros H.
  apply bind_Ok_inv in H as ([[h1 b1] e1] & E1 & H).
  apply bind_Ok_inv in H as (b2 & E2 & H).
  apply bind_Ok_inv in H as (b3 & E3 & H).
  injection H as <- <-.
  exists h1, b1, b2, b3. repeat split; assumption.
Qed.

(** X11: when [init] returns, the cache of PWA resources holds exactly
    five items, each under its own path and with no content encoding: the
    bundled [wasm_exec.js] and the generated [app.js] and [app-worker.js] as
    application/javascript, the generated manifest as
    application/manifest+json and the bundled [app.css] as text/css; the
    generated ones are what [makeAppJS], [makeAppWorkerJS] and
    [makeManifestJSON] return on the handler with its settings filled in, and
    the events of [init] are those of [makeAppJS]. *)
Theorem init_PWA_cache (W : World) (h h' : Handler) (evs : list event) :
  init W h = Ok (h', evs) ->
  exists pwa h1 js worker manifest,
    cachedPWAResources h' = Some pwa
    /\ makeAppJS W (initSettings W h) = Ok (h1, js, evs)
    /\ makeAppWorkerJS W h1 = Ok worker
    /\ makeManifestJSON W h1 = Ok manifest
    /\ pwa !! "/wasm_exec.js"
       = Some (cacheItem.mk "/wasm_exec.js" "application/javascript" "" (wasmExecJS W))
    /\ pwa !! "/app.js" = Some (cacheItem.mk "/app.js" "application/javascript" "" js)
    /\ pwa !! "/app-worker.js"
       = Some (cacheItem.mk "/app-worker.js" "application/javascript" "" worker)
    /\ pwa !! "/manifest.webmanifest"
       = Some (cacheItem.mk "/manifest.webmanifest" "application/manifest+json" "" manifest)
    /\ pwa !! "/app.css" = Some (cacheItem.mk "/app.css" "text/css" "" (appCSS W))
    /\ (forall path, path ∉ pwaPaths -> pwa !! path = None).
Proof.
  rewrite <- init_unfold. generalize (initSettings W h). intros h0 H.
  apply bind_Ok_inv in H as ([h2 e2] & E & H).
  injection H as <- <-.
  apply initPWAResources_cache in E as (h1 & js & worker & manifest & E1 & E2 & E3 & ->).
  eexists _, h1, js, worker, manifest.
  split; [reflexivity|]. split; [exact E1|]. split; [exact E2|]. split; [exact E3|].
  unfold Cache.Set_, newMemoryCache. cbn [cacheItem.Path].
  do 5 (split; [rewrite ?lookup_insert_ne by discriminate; apply lookup_insert_eq|]).
  intros path Hpath.
  rewrite !lookup_insert_ne; [apply lookup_empty|..];
    intros <-; apply Hpath; in_list.
Qed.

(** The sample handler: [init] returns and stores the five items. *)
Lemma init_PWA_cache_witness :
  exists h' evs pwa,
    init (sampleWorld noNetwork) sampleHandler = Ok (h', evs)
    /\ cachedPWAResources h' = Some pwa
    /\ pwa !! "/app.css"
       = Some (cacheItem.mk "/app.css" "text/css" "" (appCSS (sampleWorld noNetwork)))
    /\ (forall path, path ∉ pwaPaths -> pwa !! path = None).
Proof.
  destruct (init_returns (sampleWorld noNetwork) sampleHandler) as (h' & evs & Hinit).
  { intros; cbn; eauto. }
  destruct (init_PWA_cache (sampleWorld noNetwork) sampleHandler h' evs Hinit)
    as (pwa & _ & _ & _ & _ & Hpwa & _ & _ & _ & _ & _ & _ & _ & Hcss & Hnone).
  exists h', evs, pwa. auto.
Defined.

(** ** Routes *)

Lemma dispatch_serveByPath W h w r path :
  path ∉ aliasPaths ->
  (is_Some (fileHandler h) -> strings.HasPrefix path "/web/" = false) ->
  dispatch W h w r path = serveByPath W h w r path.
Proof.
  intros Halias Hweb. unfold dispatch.
  assert (Hrest :
    (if decide (path = "/goapp.js") then serveByPath W h w r "/app.js"
     else if decide (path = "/manifest.json") then
            serveByPath W h w r "/manifest.webmanifest"
     else if decide (path = "/app.wasm" \/ path = "/goapp.wasm") then
            match fileHandler h with
            | Some fh =>
                wasm ← Resources_Resolve h "/web/app.wasm";
                Ok (h, fh (Request.mk wasm (Request.Host r) (Request.TLS r)
                             (Request.Header r)) w, [])
            | None => Ok (h, ResponseWriter.WriteHeader StatusNotFound w, [])
            end
     else serveByPath W h w r path)
    = serveByPath W h w r path).
  { rewrite decide_False by (intros ->; apply Halias; in_list).
    rewrite decide_False by (intros ->; apply Halias; in_list).
    rewrite decide_False by (intros [-> | ->]; apply Halias; in_list).
    reflexivity. }
  destruct (fileHandler h) as [fh|] eqn:Hfh.
  - rewrite Hweb by eauto. exact Hrest.
  - destruct (strings.HasPrefix path "/web/"); exact Hrest.
Qed.

Lemma dispatch_goapp_js W h w r :
  dispatch W h w r "/goapp.js" = serveByPath W h w r "/app.js".
Proof. unfold dispatch. destruct (fileHandler h); reflexivity. Qed.

Lemma dispatch_manifest_json W h w r :
  dispatch W h w r "/manifest.json" = serveByPath W h w r "/manifest.webmanifest".
Proof. unfold dispatch. destruct (fileHandler h); reflexivity. Qed.

Lemma serveByPath_cached W h w r path pwa item :
  cachedPWAResources h = Some pwa ->
  pwa !! path = Some item ->
  serveByPath W h w r path = Ok (h, serveCachedItem w item, []).
Proof.
  intros Hpwa Hitem. unfold serveByPath. rewrite Hpwa. cbn.
  unfold Cache.Get. rewrite Hitem. reflexivity.
Qed.

(** X12: on an initialised handler, a request for [/goapp.js] is answered
    as one for [/app.js], and a request for [/manifest.json] as one for
    [/manifest.webmanifest]: with the item of the cache of PWA resources under
    the second path, status 200 and its body, with no event and the handler
    unchanged. *)
Theorem ServeHTTP_aliases (W : World) (h : Handler) (w : ResponseWriter.t) (r : Request.t)
    (pwa : memoryCache) (item : cacheItem.t) (path : string) :
  once h = true ->
  Header.Get "If-None-Match" (Request.Header r) ≠ etag h ->
  cachedPWAResources h = Some pwa ->
  pwa !! path = Some item ->
  (path = "/app.js"
   /\ (trimVersion h (Request.Path r) = "/goapp.js"
       \/ trimVersion h (Request.Path r) = "/app.js"))
  \/ (path = "/manifest.webmanifest"
      /\ (trimVersion h (Request.Path r) = "/manifest.json"
          \/ trimVersion h (Request.Path r) = "/manifest.webmanifest")) ->
  ServeHTTP W h w r = Ok (h, serveCachedItem (withETag h w) item, [])
  /\ (ResponseWriter.Status w = None ->
      ResponseWriter.Status (serveCachedItem (withETag h w) item) = Some StatusOK
      /\ ResponseWriter.Written (serveCachedItem (withETag h w) item)
         = ResponseWriter.Written w +:+ cacheItem.Body item).
Proof.
  intros Honce Hetag Hpwa Hitem Hpath. split.
  - rewrite ServeHTTP_dispatch by assumption.
    destruct Hpath as [[-> [-> | ->]] | [-> [-> | ->]]].
    + rewrite dispatch_goapp_js. eapply serveByPath_cached; eassumption.
    + rewrite dispatch_serveByPath.
      * eapply serveByPath_cached; eassumption.
      * in_list.
      * intros _. reflexivity.
    + rewrite dispatch_manifest_json. eapply serveByPath_cached; eassumption.
    + rewrite dispatch_serveByPath.
      * eapply serveByPath_cached; eassumption.
      * in_list.
      * intros _. reflexivity.
  - intros Hw. apply (serveCachedItem_fresh (withETag h w) item). exact Hw.
Qed.

(** The sample handler, asked for [/goapp.js] under its version prefix. *)
Lemma ServeHTTP_aliases_witness :
  exists item,
    cacheItem.Path item = "/app.js"
    /\ ServeHTTP (sampleWorld noNetwork) (initialised (sampleWorld noNetwork) sampleHandler)
         ResponseWriter.new (getRequest "/v2/goapp.js" None)
       = Ok (initialised (sampleWorld noNetwork) sampleHandler,
             serveCachedItem
               (withETag (initialised (sampleWorld noNetwork) sampleHandler)
                  ResponseWriter.new) item, []).
Proof.
  pose (W := sampleWorld noNetwork).
  pose (h := initialised W sampleHandler).
  pose (pwa := default ∅ (cachedPWAResources h)).
  pose (item := default (cacheItem.mk "" "" "" "") (pwa !! "/app.js")).
  assert (Honce : once h = true) by (vm_compute; reflexivity).
  assert (Hetag : Header.Get "If-None-Match" (Request.Header (getRequest "/v2/goapp.js" None))
                  ≠ etag h) by (vm_compute; discriminate).
  assert (Hpwa : cachedPWAResources h = Some pwa) by (vm_compute; reflexivity).
  assert (Hitem : pwa !! "/app.js" = Some item) by (vm_compute; reflexivity).
  assert (Hpath : cacheItem.Path item = "/app.js") by (vm_compute; reflexivity).
  assert (Htrim : trimVersion h (Request.Path (getRequest "/v2/goapp.js" None)) = "/goapp.js")
    by (vm_compute; reflexivity).
  exists item. split; [exact Hpath|].
  apply (ServeHTTP_aliases W h ResponseWriter.new (getRequest "/v2/goapp.js" None) pwa item
           "/app.js" Honce Hetag Hpwa Hitem).
  left. split; [reflexivity|]. left. exact Htrim.
Defined.

(** X13: on an initialised handler, [/app.wasm] and [/goapp.wasm] are
    answered 404 with no body when the resolver serves no file; when it
    does, the request goes to the file handler with its path replaced by the
    resolved [/web/app.wasm].  In both cases the handler is unchanged and no
    cache is looked into. *)
Theorem ServeHTTP_app_wasm (W : World) (h : Handler) (w : ResponseWriter.t) (r : Request.t) :
  once h = true ->
  Header.Get "If-None-Match" (Request.Header r) ≠ etag h ->
  trimVersion h (Request.Path r) = "/app.wasm"
  \/ trimVersion h (Request.Path r) = "/goapp.wasm" ->
  (fileHandler h = None ->
   ServeHTTP W h w r = Ok (h, ResponseWriter.WriteHeader StatusNotFound (withETag h w), [])
   /\ (ResponseWriter.Status w = None ->
       ResponseWriter.Status (ResponseWriter.WriteHeader StatusNotFound (withETag h w))
       = Some StatusNotFound
       /\ ResponseWriter.Written (ResponseWriter.WriteHeader StatusNotFound (withETag h w))
          = ResponseWriter.Written w))
  /\ (forall fh res,
        fileHandler h = Some fh ->
        Resources h = Some res ->
        ServeHTTP W h w r
        = Ok (h,
              fh (Request.mk (Resolve res "/web/app.wasm") (Request.Host r) (Request.TLS r)
                    (Request.Header r))
                 (withETag h w), [])).
Proof.
  intros Honce Hetag Hpath. rewrite ServeHTTP_dispatch by assumption.
  split.
  - intros Hfh. split.
    + unfold dispatch. rewrite Hfh. destruct Hpath as [-> | ->]; reflexivity.
    + intros Hw. apply (WriteHeader_fresh StatusNotFound (withETag h w)). exact Hw.
  - intros fh res Hfh Hres. unfold dispatch, Resources_Resolve. rewrite Hfh, Hres.
    destruct Hpath as [-> | ->]; reflexivity.
Qed.

(** The sample handler, whose resolver serves no file, asked for
    [/goapp.wasm]. *)
Lemma ServeHTTP_app_wasm_witness :
  ServeHTTP (sampleWorld noNetwork) (initialised (sampleWorld noNetwork) sampleHandler)
    ResponseWriter.new (getRequest "/goapp.wasm" None)
  = Ok (initialised (sampleWorld noNetwork) sampleHandler,
        ResponseWriter.WriteHeader StatusNotFound
          (withETag (initialised (sampleWorld noNetwork) sampleHandler) ResponseWriter.new),
        []).
Proof.
  pose (W := sampleWorld noNetwork).
  pose (h := initialised W sampleHandler).
  assert (Honce : once h = true) by (vm_compute; reflexivity).
  assert (Hetag : Header.Get "If-None-Match" (Request.Header (getRequest "/goapp.wasm" None))
                  ≠ etag h) by (vm_compute; discriminate).
  assert (Htrim : trimVersion h (Request.Path (getRequest "/goapp.wasm" None)) = "/goapp.wasm")
    by (vm_compute; reflexivity).
  assert (Hfh : fileHandler h = None) by (vm_compute; reflexivity).
  exact (proj1 (proj1 (ServeHTTP_app_wasm W h ResponseWriter.new
                         (getRequest "/goapp.wasm" None) Honce Hetag (or_intror Htrim))
                  Hfh)).
Defined.

Lemma serveByPath_library W h w r path pwa css :
  cachedPWAResources h = Some pwa ->
  pwa !! path = None ->
  proxyResources h !! path = None ->
  libraries h !! path = Some css ->
  serveByPath W h w r path = Ok (h, serveLibrary w r css, []).
Proof.
  intros Hpwa Hnone Hproxy Hlib. unfold serveByPath. rewrite Hpwa. cbn.
  unfold Cache.Get. rewrite Hnone, Hproxy, Hlib. reflexivity.
Qed.

Lemma serveByPath_page W h w r path pwa :
  cachedPWAResources h = Some pwa ->
  pwa !! path = None ->
  proxyResources h !! path = None ->
  libraries h !! path = None ->
  serveByPath W h w r path = Ok (h, (servePage W h w r).1, (servePage W h w r).2).
Proof.
  intros Hpwa Hnone Hproxy Hlib. unfold serveByPath. rewrite Hpwa. cbn.
  unfold Cache.Get. rewrite Hnone, Hproxy, Hlib.
  destruct (servePage W h w r). reflexivity.
Qed.

Lemma Write_fresh b w :
  ResponseWriter.Status w = None ->
  ResponseWriter.Status (ResponseWriter.Write b w) = Some StatusOK
  /\ ResponseWriter.Written (ResponseWriter.Write b w) = ResponseWriter.Written w +:+ b.
Proof.
  intros Hw. unfold ResponseWriter.Write, ResponseWriter.WriteHeader. rewrite Hw.
  split; reflexivity.
Qed.

(** X14: on an initialised handler, a path that is neither a PWA resource
    nor a proxy resource and under which a library is mounted is answered
    with the styles of the library: status 200, content type [text/css], the
    length of the styles as content length, and the styles as body. *)
Theorem ServeHTTP_library (W : World) (h : Handler) (w : ResponseWriter.t) (r : Request.t)
    (pwa : memoryCache) (css : string) :
  once h = true ->
  Header.Get "If-None-Match" (Request.Header r) ≠ etag h ->
  trimVersion h (Request.Path r) ∉ aliasPaths ->
  (is_Some (fileHandler h) ->
   strings.HasPrefix (trimVersion h (Request.Path r)) "/web/" = false) ->
  cachedPWAResources h = Some pwa ->
  pwa !! trimVersion h (Request.Path r) = None ->
  proxyResources h !! trimVersion h (Request.Path r) = None ->
  libraries h !! trimVersion h (Request.Path r) = Some css ->
  exists w',
    ServeHTTP W h w r = Ok (h, w', [])
    /\ Header.Get "Content-Type" (ResponseWriter.Header w') = "text/css"
    /\ Header.Get "Content-Length" (ResponseWriter.Header w')
       = Itoa (Z.of_nat (String.length css))
    /\ (ResponseWriter.Status w = None ->
        ResponseWriter.Status w' = Some StatusOK
        /\ ResponseWriter.Written w' = ResponseWriter.Written w +:+ css).
Proof.
  intros Honce Hetag Halias Hweb Hpwa Hnone Hproxy Hlib.
  exists (serveLibrary (withETag h w) r css). split.
  { rewrite ServeHTTP_dispatch by assumption.
    rewrite dispatch_serveByPath by assumption.
    eapply serveByPath_library; eassumption. }
  unfold serveLibrary. split; [|split].
  - unfold ResponseWriter.Write, ResponseWriter.WriteHeader.
    destruct (ResponseWriter.Status _); cbn; unfold Header.Get, Header.Set_;
      rewrite lookup_insert_eq; reflexivity.
  - unfold ResponseWriter.Write, ResponseWriter.WriteHeader.
    destruct (ResponseWriter.Status _); cbn; unfold Header.Get, Header.Set_;
      rewrite lookup_insert_ne by discriminate; rewrite lookup_insert_eq; reflexivity.
  - intros Hw.
    exact (Write_fresh css
             (ResponseWriter.SetHeader "Content-Type" "text/css"
                (ResponseWriter.SetHeader "Content-Length"
                   (Itoa (Z.of_nat (String.length css))) (withETag h w))) Hw).
Qed.

(** The handler with one library, asked for the path of the library. *)
Lemma ServeHTTP_library_witness :
  exists w',
    ServeHTTP (sampleWorld noNetwork) (initialised (sampleWorld noNetwork) libraryHandler)
      ResponseWriter.new (getRequest "/lib.css" None)
    = Ok (initialised (sampleWorld noNetwork) libraryHandler, w', [])
    /\ Header.Get "Content-Type" (ResponseWriter.Header w') = "text/css"
    /\ ResponseWriter.Status w' = Some StatusOK
    /\ ResponseWriter.Written w' = ResponseWriter.Written ResponseWriter.new +:+ "a{}".
Proof.
  pose (W := sampleWorld noNetwork).
  pose (h := initialised W libraryHandler).
  pose (r := getRequest "/lib.css" None).
  pose (pwa := default ∅ (cachedPWAResources h)).
  assert (Honce : once h = true) by (vm_compute; reflexivity).
  assert (Hetag : Header.Get "If-None-Match" (Request.Header r) ≠ etag h)
    by (vm_compute; discriminate).
  assert (Halias : trimVersion h (Request.Path r) ∉ aliasPaths) by in_list.
  assert (Hweb : is_Some (fileHandler h) ->
                 strings.HasPrefix (trimVersion h (Request.Path r)) "/web/" = false)
    by (intros _; vm_compute; reflexivity).
  assert (Hpwa : cachedPWAResources h = Some pwa) by (vm_compute; reflexivity).
  assert (Hnone : pwa !! trimVersion h (Request.Path r) = None) by (vm_compute; reflexivity).
  assert (Hproxy : proxyResources h !! trimVersion h (Request.Path r) = None)
    by (vm_compute; reflexivity).
  assert (Hlib : libraries h !! trimVersion h (Request.Path r) = Some "a{}")
    by (vm_compute; reflexivity).
  destruct (ServeHTTP_library W h ResponseWriter.new r pwa "a{}"
              Honce Hetag Halias Hweb Hpwa Hnone Hproxy Hlib)
    as (w' & E & T & _ & Hfresh).
  destruct (Hfresh eq_refl) as [S B].
  exists w'. split; [exact E | split; [exact T | split; [exact S | exact B]]].
Defined.

(** X15: on an initialised handler, a path that is neither a PWA
    resource, nor a proxy resource, nor a library goes to [servePage], which
    tests the route of the request path as it was sent: without a route the
    answer is the 404 of [http.NotFound]; with one, 500 with no body and a
    log record when the document cannot be encoded, and else 200 with the
    document as [text/html].  The handler is unchanged. *)
Theorem ServeHTTP_page (W : World) (h : Handler) (w : ResponseWriter.t) (r : Request.t)
    (pwa : memoryCache) :
  once h = true ->
  Header.Get "If-None-Match" (Request.Header r) ≠ etag h ->
  trimVersion h (Request.Path r) ∉ aliasPaths ->
  (is_Some (fileHandler h) ->
   strings.HasPrefix (trimVersion h (Request.Path r)) "/web/" = false) ->
  cachedPWAResources h = Some pwa ->
  pwa !! trimVersion h (Request.Path r) = None ->
  proxyResources h !! trimVersion h (Request.Path r) = None ->
  libraries h !! trimVersion h (Request.Path r) = None ->
  ResponseWriter.Status w = None ->
  exists w' evs,
    ServeHTTP W h w r = Ok (h, w', evs)
    /\ (routed W (Request.Path r) = false ->
        evs = []
        /\ ResponseWriter.Status w' = Some StatusNotFound
        /\ ResponseWriter.Written w'
           = ResponseWriter.Written w +:+ "404 page not found" +:+ String "010" ""
        /\ Header.Get "Content-Type" (ResponseWriter.Header w') = "text/plain; charset=utf-8"
        /\ Header.Get "X-Content-Type-Options" (ResponseWriter.Header w') = "nosniff")
    /\ (routed W (Request.Path r) = true ->
        encodePage W h r = None ->
        evs = [Logged "encoding html document failed"]
        /\ ResponseWriter.Status w' = Some StatusInternalServerError
        /\ ResponseWriter.Written w' = ResponseWriter.Written w)
    /\ (forall b,
          routed W (Request.Path r) = true ->
          encodePage W h r = Some b ->
          evs = []
          /\ ResponseWriter.Status w' = Some StatusOK
          /\ ResponseWriter.Written w' = ResponseWriter.Written w +:+ b
          /\ Header.Get "Content-Type" (ResponseWriter.Header w') = "text/html"
          /\ Header.Get "Content-Length" (ResponseWriter.Header w')
             = Itoa (Z.of_nat (String.length b))).
Proof.
  intros Honce Hetag Halias Hweb Hpwa Hnone Hproxy Hlib Hw.
  eexists _, _. split.
  { rewrite ServeHTTP_dispatch by assumption.
    rewrite dispatch_serveByPath by assumption.
    eapply serveByPath_page; eassumption. }
  unfold servePage, http_NotFound, ResponseWriter.Write, ResponseWriter.WriteHeader,
    ResponseWriter.SetHeader, withETag, Header.Get, Header.Set_.
  split; [|split].
  - intros Hr. rewrite Hr. cbn. rewrite Hw. cbn.
    repeat split; try reflexivity.
    + rewrite lookup_insert_ne by discriminate. rewrite lookup_insert_eq. reflexivity.
    + rewrite lookup_insert_eq. reflexivity.
  - intros Hr He. rewrite Hr, He. cbn. rewrite Hw. cbn. repeat split; reflexivity.
  - intros b Hr He. rewrite Hr, He. cbn. rewrite Hw. cbn.
    repeat split; try reflexivity.
    + rewrite lookup_insert_eq. reflexivity.
    + rewrite lookup_insert_ne by discriminate. rewrite lookup_insert_eq. reflexivity.
Qed.

(** The sample handler, asked for a path without a route. *)
Lemma ServeHTTP_page_witness :
  exists w',
    ServeHTTP (sampleWorld noNetwork) (initialised (sampleWorld noNetwork) sampleHandler)
      ResponseWriter.new (getRequest "/nowhere" None)
    = Ok (initialised (sampleWorld noNetwork) sampleHandler, w', [])
    /\ ResponseWriter.Status w' = Some StatusNotFound.
Proof.
  pose (W := sampleWorld noNetwork).
  pose (h := initialised W sampleHandler).
  pose (r := getRequest "/nowhere" None).
  pose (pwa := default ∅ (cachedPWAResources h)).
  assert (Honce : once h = true) by (vm_compute; reflexivity).
  assert (Hetag : Header.Get "If-None-Match" (Request.Header r) ≠ etag h)
    by (vm_compute; discriminate).
  assert (Halias : trimVersion h (Request.Path r) ∉ aliasPaths) by in_list.
  assert (Hweb : is_Some (fileHandler h) ->
                 strings.HasPrefix (trimVersion h (Request.Path r)) "/web/" = false)
    by (intros _; vm_compute; reflexivity).
  assert (Hpwa : cachedPWAResources h = Some pwa) by (vm_compute; reflexivity).
  assert (Hnone : pwa !! trimVersion h (Request.Path r) = None) by (vm_compute; reflexivity).
  assert (Hproxy : proxyResources h !! trimVersion h (Request.Path r) = None)
    by (vm_compute; reflexivity).
  assert (Hlib : libraries h !! trimVersion h (Request.Path r) = None)
    by (vm_compute; reflexivity).
  destruct (ServeHTTP_page W h ResponseWriter.new r pwa
              Honce Hetag Halias Hweb Hpwa Hnone Hproxy Hlib eq_refl)
    as (w' & evs & E & Hnot & _).
  destruct (Hnot eq_refl) as (-> & S & _).
  exists w'. split; [exact E | exact S].
Defined.

(** ** The environment of the app *)

Lemma setenvAll_Setenv W (env : gmap string string) (k v : string) :
  (forall keys, rangeOrder W keys ≡ₚ keys) ->
  Setenv k v ∈ setenvAll W env <-> env !! k = Some v.
Proof.
  intros Hperm. unfold setenvAll. rewrite list_elem_of_In, in_flat_map.
  setoid_rewrite <- list_elem_of_In.
  assert (Hkeys : forall k', k' ∈ rangeKeys W env <-> is_Some (env !! k')).
  { intros k'. unfold rangeKeys. rewrite Hperm, list_elem_of_fmap. split.
    - intros ([k0 v0] & -> & Hin). apply elem_of_map_to_list in Hin. cbn. eauto.
    - intros [v0 Hv0]. exists (k', v0). split; [reflexivity|].
      apply elem_of_map_to_list. exact Hv0. }
  split.
  - intros (k' & Hk' & Hin). apply Hkeys in Hk' as [v' Hv']. rewrite Hv' in Hin. cbn in Hin.
    apply elem_of_cons in Hin as [Heq|Hin].
    + injection Heq as -> ->. exact Hv'.
    + destruct (setenvFails W k' v'); [|apply elem_of_nil in Hin; contradiction].
      apply list_elem_of_singleton in Hin. discriminate Hin.
  - intros Hv. exists k. split; [apply Hkeys; eauto|].
    rewrite Hv. cbn. apply elem_of_cons. left. reflexivity.
Qed.

(** X16: when [makeAppJS] returns, the environment of the handler holds
    the four variables of the app (the internal URLs, the version, the
    resolved [/web] and the resolved root), which replace configured
    variables of these names, and every other variable as it was configured;
    and the process environment is written once for each variable of that
    environment and for nothing else, when [range] visits each key of a
    map. *)
Theorem makeAppJS_env (W : World) (h h' : Handler) (body : string) (evs : list event) :
  makeAppJS W h = Ok (h', body, evs) ->
  exists env res,
    Resources h = Some res
    /\ h' = set_Env (Some env) h
    /\ env !! "GOAPP_INTERNAL_URLS" = Some (jsonMarshal W (InternalURLs h))
    /\ env !! "GOAPP_VERSION" = Some (Version h)
    /\ env !! "GOAPP_STATIC_RESOURCES_URL" = Some (Resolve res "/web")
    /\ env !! "GOAPP_ROOT_PREFIX" = Some (Resolve res "/")
    /\ (forall k, k ∉ reservedEnv -> env !! k = default ∅ (Env h) !! k)
    /\ ((forall keys, rangeOrder W keys ≡ₚ keys) ->
        forall k v, Setenv k v ∈ evs <-> env !! k = Some v).
Proof.
  unfold makeAppJS, Resources_Resolve. cbn.
  destruct (Resources h) as [res|] eqn:Hres; cbn; [|discriminate].
  destruct (templateExecute W _ _ _); [|discriminate].
  intros [= <- _ <-]. eexists _, res.
  split; [reflexivity|]. split; [reflexivity|].
  split; [rewrite !lookup_insert_ne by discriminate; apply lookup_insert_eq|].
  split; [rewrite !lookup_insert_ne by discriminate; apply lookup_insert_eq|].
  split; [rewrite !lookup_insert_ne by discriminate; apply lookup_insert_eq|].
  split; [apply lookup_insert_eq|].
  split.
  - intros k Hk.
    rewrite !lookup_insert_ne by (intros <-; apply Hk; in_list).
    destruct (Env h); reflexivity.
  - intros Hperm k v. apply setenvAll_Setenv. exact Hperm.
Qed.

(** The sample handler: the version is written to the environment. *)
Lemma makeAppJS_env_witness :
  exists h' body evs,
    makeAppJS (sampleWorld noNetwork) sampleHandler = Ok (h', body, evs)
    /\ Setenv "GOAPP_VERSION" "v2" ∈ evs.
Proof.
  destruct (makeAppJS_returns (sampleWorld noNetwork) sampleHandler)
    as (h' & body & evs & E).
  { cbn. eauto. }
  { intros; cbn; eauto. }
  destruct (makeAppJS_env (sampleWorld noNetwork) sampleHandler h' body evs E)
    as (env & res & _ & _ & _ & Hv & _ & _ & _ & Hevs).
  exists h', body, evs. split; [exact E|].
  apply Hevs; [intros keys; reflexivity | exact Hv].
Defined.

(** ** What a descriptor can hold *)

Lemma tokensOf_elem (elems : list string) (tok : string) :
  tok ∈ tokensOf elems ->
  exists elem,
    elem ∈ elems /\ described_trim elem ≠ "" /\ tok = described_lower (described_trim elem).
Proof.
  unfold tokensOf. rewrite list_elem_of_fmap. intros (t & -> & Ht).
  apply list_elem_of_filter in Ht as [Hne Ht].
  apply list_elem_of_fmap in Ht as (elem & -> & Helem). eauto.
Qed.

Lemma dropWhiteSpace_elem (l : list ascii) (c : ascii) :
  c ∈ dropWhiteSpace l -> c ∈ l.
Proof.
  induction l as [|a l IH]; [intros H; exact H|].
  cbn [dropWhiteSpace]. destruct (decide (a ∈ whiteSpace)); [|intros H; exact H].
  intros H. apply elem_of_cons. right. apply IH. exact H.
Qed.

Lemma described_trim_elem (s : string) (c : ascii) :
  c ∈ list_ascii_of_string (described_trim s) -> c ∈ list_ascii_of_string s.
Proof.
  unfold described_trim. rewrite list_ascii_of_string_of_list_ascii.
  rewrite !list_elem_of_In, <- in_rev, <- !list_elem_of_In.
  intros H. apply dropWhiteSpace_elem in H.
  rewrite list_elem_of_In, <- in_rev, <- list_elem_of_In in H.
  apply dropWhiteSpace_elem. exact H.
Qed.

Lemma described_lower_elem (s : string) (c : ascii) :
  c ∈ list_ascii_of_string (described_lower s) ->
  exists c0, c0 ∈ list_ascii_of_string s /\ c = described_lowerLetter c0.
Proof.
  unfold described_lower. rewrite list_ascii_of_string_of_list_ascii, list_elem_of_fmap.
  intros (c0 & -> & H). eauto.
Qed.

Lemma described_lowerLetter_space (c : ascii) :
  described_lowerLetter c = " "%char -> c = " "%char.
Proof. destruct c as [[] [] [] [] [] [] [] []]; vm_compute; congruence. Qed.

Lemma described_lowerLetter_idemp (c : ascii) :
  described_lowerLetter (described_lowerLetter c) = described_lowerLetter c.
Proof. destruct c as [[] [] [] [] [] [] [] []]; vm_compute; reflexivity. Qed.

Lemma described_lower_nonempty (s : string) : s ≠ "" -> described_lower s ≠ "".
Proof. destruct s; [contradiction | discriminate]. Qed.

(** The tokens hold no space and no capital letter, and none is empty. *)
Lemma described_tokens_spec (v tok : string) :
  tok ∈ described_tokens v ->
  tok ≠ ""
  /\ Forall (fun c => c ≠ " "%char /\ described_lowerLetter c = c) (list_ascii_of_string tok).
Proof.
  unfold described_tokens. intros H.
  apply tokensOf_elem in H as (elem & Helem & Hne & ->).
  split; [apply described_lower_nonempty; exact Hne|].
  apply Forall_forall. intros c Hc.
  apply described_lower_elem in Hc as (c0 & Hc0 & ->).
  split; [|apply described_lowerLetter_idemp].
  intros Hsp. apply described_lowerLetter_space in Hsp as ->.
  apply described_trim_elem in Hc0.
  destruct (Split_isSplitOnSpaces v) as [_ Hno].
  rewrite Forall_forall in Hno. exact (Hno elem Helem Hc0).
Qed.

Lemma lastOrEmpty_elem (l : list string) :
  lastOrEmpty l = "" /\ l = [] \/ lastOrEmpty l ∈ l.
Proof.
  unfold lastOrEmpty. destruct (last l) as [x|] eqn:Hl.
  - right. cbn. apply last_Some_elem_of. exact Hl.
  - left. split; [reflexivity|]. apply last_None. exact Hl.
Qed.

(** X17: whatever the configuration string (of 7-bit bytes), the loading
    mode of the descriptor is empty, [defer] or [async]; its URL is empty or
    a token that is no cross-origin and no loading-mode token, with no space
    and no capital letter in it; and the URL is empty exactly when no token
    is a URL token. *)
Theorem parseHTTPResource_fields (v : string) :
  isASCII v = true ->
  LoadingMode (parseHTTPResource v) ∈ [""; "defer"; "async"]
  /\ (URL (parseHTTPResource v) = "" \/ isURLToken (URL (parseHTTPResource v)))
  /\ Forall (fun c => c ≠ " "%char /\ described_lowerLetter c = c)
       (list_ascii_of_string (URL (parseHTTPResource v)))
  /\ (URL (parseHTTPResource v) = ""
      <-> Forall (fun tok => ~ isURLToken tok) (described_tokens v)).
Proof.
  intros _. unfold parseHTTPResource. rewrite parse_loop. cbn [URL LoadingMode].
  fold (described_tokens v).
  split; [|split; [|split]].
  - destruct (lastOrEmpty_elem (filter isLoadingModeToken (described_tokens v)))
      as [[-> _]|H].
    + in_list.
    + apply list_elem_of_filter in H as [[-> | ->] _]; in_list.
  - destruct (lastOrEmpty_elem (filter isURLToken (described_tokens v))) as [[-> _]|H].
    + left. reflexivity.
    + right. apply list_elem_of_filter in H as [H _]. exact H.
  - destruct (lastOrEmpty_elem (filter isURLToken (described_tokens v))) as [[-> _]|H].
    + constructor.
    + apply list_elem_of_filter in H as [_ H].
      apply described_tokens_spec in H as [_ H]. exact H.
  - split.
    + intros Hempty.
      destruct (lastOrEmpty_elem (filter isURLToken (described_tokens v))) as [[_ Hnil]|H].
      * apply Forall_forall. intros tok Htok Hurl.
        assert (Hin : tok ∈ filter isURLToken (described_tokens v))
          by (apply list_elem_of_filter; auto).
        rewrite Hnil in Hin. apply elem_of_nil in Hin. exact Hin.
      * apply list_elem_of_filter in H as [_ H].
        apply described_tokens_spec in H as [Hne _]. contradiction.
    + intros Hnone.
      destruct (lastOrEmpty_elem (filter isURLToken (described_tokens v))) as [[-> _]|H].
      * reflexivity.
      * apply list_elem_of_filter in H as [Hurl H].
        rewrite Forall_forall in Hnone. destruct (Hnone _ H Hurl).
Qed.

(** A configuration string with two modes and no URL. *)
Lemma parseHTTPResource_fields_witness :
  LoadingMode (parseHTTPResource "Defer CrossOrigin ASYNC") ∈ [""; "defer"; "async"]
  /\ URL (parseHTTPResource "Defer CrossOrigin ASYNC") = "".
Proof.
  destruct (parseHTTPResource_fields "Defer CrossOrigin ASYNC" eq_refl)
    as (Hmode & _ & _ & Hempty).
  split; [exact Hmode|].
  apply Hempty. in_list.
Defined.

(** X18: whatever is configured, the set of resources that
    [makeAppWorkerJS] builds holds the six assets of the app itself, and it
    never holds the empty URL: an icon, style, font, script or cacheable
    resource whose descriptor has no URL adds nothing. *)
Theorem workerResources_core (h : Handler) :
  (forall u, u ∈ coreAssets -> u ∈ workerResources h)
  /\ ("" ∉ workerResources h)
  /\ (forall r, r ∈ workerEntries h ->
        URL (parseHTTPResource r) = "" \/ URL (parseHTTPResource r) ∈ workerResources h).
Proof.
  split; [|split].
  - intros u Hu. apply workerResources_elem.
    assert (Hcore : u ≠ "" /\ URL (parseHTTPResource u) = u).
    { unfold coreAssets in Hu.
      repeat (apply elem_of_cons in Hu as [->|Hu]; [split; [discriminate | reflexivity]|]).
      apply elem_of_nil in Hu. contradiction. }
    destruct Hcore as [Hne Hparse]. split; [exact Hne|].
    exists u. split; [|exact Hparse].
    unfold workerEntries. apply elem_of_app. left. exact Hu.
  - intros H. apply workerResources_elem in H as [H _]. contradiction.
  - intros r Hr. destruct (decide (URL (parseHTTPResource r) = "")) as [He|He]; [left; exact He|].
    right. apply workerResources_elem. split; [exact He|]. eauto.
Qed.

(** The sample handler: [/app.js] is handed to the worker. *)
Lemma workerResources_core_witness : "/app.js" ∈ workerResources sampleHandler.
Proof. apply (proj1 (workerResources_core sampleHandler)). in_list. Defined.

(** ** Instances of the settings *)

(** The handler with one library: it is mounted. *)
Lemma initLibraries_mounts_witness :
  is_Some (libraries (initLibraries libraryHandler) !! "/lib.css").
Proof.
  apply (proj2 (initLibraries_mounts libraryHandler) "/lib.css" "a{}").
  - in_list.
  - reflexivity.
  - discriminate.
Defined.

(** The zero handler: the placeholders are the icons. *)
Lemma initIcon_defaults_witness :
  Icon.Default (Icon (initIcon zeroHandler)) = placeholderPNG
  /\ Icon.Large (Icon (initIcon zeroHandler)) = placeholderPNG.
Proof.
  destruct (initIcon_defaults zeroHandler) as (_ & _ & _ & _ & H & _).
  apply H. reflexivity.
Defined.

(** The zero handler: the app is called "App PWA". *)
Lemma initPWA_defaults_witness :
  Name (initPWA zeroHandler) = "App PWA" /\ ShortName (initPWA zeroHandler) = "App PWA".
Proof.
  destruct (initPWA_defaults zeroHandler) as (_ & _ & _ & _ & H & _).
  apply H; reflexivity.
Defined.

(** ** What [init] leaves of the configuration *)

(** Takes a field through the steps that leave it alone. *)
Ltac settings_frame f W :=
  repeat first
    [ rewrite (initPageContent_frame f) by reflexivity
    | rewrite (initPWA_frame f) by reflexivity
    | rewrite (initIcon_frame f) by reflexivity
    | rewrite (initServiceWorker_frame f W) by reflexivity
    | rewrite (initLinks_frame f W) by reflexivity
    | rewrite (initLibraries_frame f) by reflexivity
    | rewrite (initStaticResources_frame f W) by reflexivity
    | rewrite (initVersion_frame f W) by reflexivity ].

Lemma initSettings_configured W h :
  Title (initSettings W h) = Title h
  /\ Description (initSettings W h) = Description h
  /\ Domain (initSettings W h) = Domain h
  /\ Author (initSettings W h) = Author h
  /\ Keywords (initSettings W h) = Keywords h
  /\ Image (initSettings W h) = Image h
  /\ Fonts (initSettings W h) = Fonts h
  /\ Scripts (initSettings W h) = Scripts h
  /\ CacheableResources (initSettings W h) = CacheableResources h
  /\ RawHeaders (initSettings W h) = RawHeaders h
  /\ InternalURLs (initSettings W h) = InternalURLs h
  /\ Preconnect (initSettings W h) = Preconnect h
  /\ ProxyResources (initSettings W h) = ProxyResources h
  /\ Libraries (initSettings W h) = Libraries h
  /\ WasmContentLength (initSettings W h) = WasmContentLength h
  /\ WasmContentLengthHeader (initSettings W h) = WasmContentLengthHeader h
  /\ once (initSettings W h) = once h.
Proof.
  unfold initSettings.
  repeat split;
    lazymatch goal with
    | |- ?f _ = _ => settings_frame f W; reflexivity
    end.
Qed.

Lemma initSettings_defaults W h :
  Version (initSettings W h) = (if decide (Version h = "") then nowSHA1 W else Version h)
  /\ etag (initSettings W h) = dquote +:+ Version (initSettings W h) +:+ dquote
  /\ Resources (initSettings W h) = Some (default (LocalDir W "") (Resources h))
  /\ ServiceWorkerTemplate (initSettings W h)
     = (if decide (ServiceWorkerTemplate h = "") then DefaultAppWorkerJS W
        else ServiceWorkerTemplate h)
  /\ HTML (initSettings W h) = Some (default app_Html (HTML h))
  /\ Body (initSettings W h) = Some (default app_Body (Body h)).
Proof.
  assert (HV : Version (initSettings W h)
               = (if decide (Version h = "") then nowSHA1 W else Version h)).
  { rewrite initSettings_Version. unfold initVersion.
    destruct (decide (Version h = "")); reflexivity. }
  split; [exact HV|]. split; [|split; [|split; [|split]]].
  - rewrite initSettings_etag, HV. unfold initVersion.
    destruct (decide (Version h = "")); reflexivity.
  - unfold initSettings. settings_frame Resources W.
    set (h0 := initVersion W h).
    assert (E : Resources h0 = Resources h)
      by (subst h0; apply initVersion_frame; reflexivity).
    clearbody h0. unfold initStaticResources. rewrite <- E.
    destruct (Resources h0) eqn:E0; [exact E0 | reflexivity].
  - unfold initSettings. settings_frame ServiceWorkerTemplate W.
    unfold initServiceWorker. settings_frame ServiceWorkerTemplate W.
    destruct (decide (ServiceWorkerTemplate h = "")); [reflexivity|].
    settings_frame ServiceWorkerTemplate W. reflexivity.
  - unfold initSettings, initPageContent.
    set (h0 := initPWA _).
    assert (E : HTML h0 = HTML h) by (subst h0; settings_frame HTML W; reflexivity).
    clearbody h0. destruct (HTML h0) as [p|] eqn:E0; rewrite <- E; cbn;
      destruct (Body _); reflexivity || (cbn; rewrite ?E0; reflexivity).
  - unfold initSettings, initPageContent.
    set (h0 := initPWA _).
    assert (E : Body h0 = Body h) by (subst h0; settings_frame Body W; reflexivity).
    clearbody h0. destruct (HTML h0) as [p|]; cbn; rewrite <- E;
      destruct (Body h0) eqn:E0; cbn; rewrite ?E0; reflexivity.
Qed.

(** X19: [init] only fills in what is missing.  When it returns, the
    version is the configured one, or a hash of the time when none is
    configured, and the ETag is that version between double quotes; the
    resolver, the template of the service worker and the functions of the
    page are the configured ones, or [LocalDir("")], [DefaultAppWorkerJS],
    [Html] and [Body]; and the title, the description and the other settings
    that no step assigns are as configured, as is the flag of [once], which is
    not for [init] to set. *)
Theorem init_keeps_configuration (W : World) (h h' : Handler) (evs : list event) :
  init W h = Ok (h', evs) ->
  (Version h' = (if decide (Version h = "") then nowSHA1 W else Version h)
   /\ etag h' = dquote +:+ Version h' +:+ dquote
   /\ Resources h' = Some (default (LocalDir W "") (Resources h))
   /\ ServiceWorkerTemplate h'
      = (if decide (ServiceWorkerTemplate h = "") then DefaultAppWorkerJS W
         else ServiceWorkerTemplate h)
   /\ HTML h' = Some (default app_Html (HTML h))
   /\ Body h' = Some (default app_Body (Body h)))
  /\ (Title h' = Title h
      /\ Description h' = Description h
      /\ Domain h' = Domain h
      /\ Author h' = Author h
      /\ Keywords h' = Keywords h
      /\ Image h' = Image h
      /\ Fonts h' = Fonts h
      /\ Scripts h' = Scripts h
      /\ CacheableResources h' = CacheableResources h
      /\ RawHeaders h' = RawHeaders h
      /\ InternalURLs h' = InternalURLs h
      /\ Preconnect h' = Preconnect h
      /\ ProxyResources h' = ProxyResources h
      /\ Libraries h' = Libraries h
      /\ WasmContentLength h' = WasmContentLength h
      /\ WasmContentLengthHeader h' = WasmContentLengthHeader h
      /\ once h' = once h).
Proof.
  intros Hinit. apply init_inv in Hinit as (env & cache & -> & _).
  pose proof (initSettings_defaults W h) as Hd.
  pose proof (initSettings_configured W h) as Hc.
  revert Hd Hc. generalize (initSettings W h). intros h0 Hd Hc.
  split; [exact Hd | exact Hc].
Qed.

(** The sample handler: the version "v2" and the resolver are kept. *)
Lemma init_keeps_configuration_witness :
  exists h' evs,
    init (sampleWorld noNetwork) sampleHandler = Ok (h', evs)
    /\ Version h' = "v2"
    /\ Resources h' = Some plainResolver.
Proof.
  destruct (init_returns (sampleWorld noNetwork) sampleHandler) as (h' & evs & Hinit).
  { intros; cbn; eauto. }
  destruct (init_keeps_configuration (sampleWorld noNetwork) sampleHandler h' evs Hinit)
    as ((HV & _ & HR & _) & _).
  exists h', evs. split; [exact Hinit|]. split; [exact HV | exact HR].
Defined.

(** ** The manifest *)

Lemma HasSuffix_app (s suffix : string) : strings.HasSuffix (s +:+ suffix) suffix = true.
Proof.
  unfold strings.HasSuffix. rewrite length_app.
  replace (String.length s + String.length suffix - String.length suffix)%nat
    with (String.length s) by lia.
  rewrite drop_app. rewrite decide_True by reflexivity. reflexivity.
Qed.

(** X20: when [makeManifestJSON] returns, the manifest is the template
    executed with a scope that ends with a slash: the resolved root, with a
    slash added when it has none; the start URL is the resolved root as it
    is. *)
Theorem makeManifestJSON_scope (W : World) (h : Handler) (body : string) :
  makeManifestJSON W h = Ok body ->
  exists res scope data,
    Resources h = Some res
    /\ templateExecute W "manifest.webmanifest" (manifestJSON W) data = Some body
    /\ ("Scope", scope) ∈ data
    /\ ("StartURL", Resolve res "/") ∈ data
    /\ strings.HasSuffix scope "/" = true
    /\ (scope = Resolve res "/"
        \/ strings.HasSuffix (Resolve res "/") "/" = false
           /\ scope = Resolve res "/" +:+ "/").
Proof.
  unfold makeManifestJSON, Resources_Resolve.
  destruct (Resources h) as [res|] eqn:Hres; cbn; [|discriminate].
  destruct (templateExecute W _ _ _) as [b|] eqn:Ht; [|discriminate].
  intros [= <-]. eexists res, _, _.
  split; [reflexivity|]. split; [exact Ht|].
  split; [repeat first [apply list_elem_of_here | apply list_elem_of_further]|].
  split; [repeat first [apply list_elem_of_here | apply list_elem_of_further]|].
  destruct (decide (Resolve res "/" = "/")) as [Hroot|Hroot].
  - rewrite bool_decide_eq_true_2 by exact Hroot. cbn [negb andb].
    split; [rewrite Hroot; reflexivity | left; reflexivity].
  - rewrite bool_decide_eq_false_2 by exact Hroot. cbn [negb andb].
    destruct (strings.HasSuffix (Resolve res "/") "/") eqn:Hs; cbn [negb].
    + split; [exact Hs | left; reflexivity].
    + split; [apply HasSuffix_app | right; split; reflexivity].
Qed.

(** The sample handler: the scope of its manifest ends with a slash. *)
Lemma makeManifestJSON_scope_witness :
  exists body scope data,
    makeManifestJSON (sampleWorld noNetwork) sampleHandler = Ok body
    /\ templateExecute (sampleWorld noNetwork) "manifest.webmanifest"
         (manifestJSON (sampleWorld noNetwork)) data = Some body
    /\ ("Scope", scope) ∈ data
    /\ strings.HasSuffix scope "/" = true.
Proof.
  destruct (makeManifestJSON_returns (sampleWorld noNetwork) sampleHandler) as [body E].
  { cbn. eauto. }
  { intros; cbn; eauto. }
  destruct (makeManifestJSON_scope (sampleWorld noNetwork) sampleHandler body E)
    as (res & scope & data & _ & Ht & Hin & _ & Hs & _).
  exists body, scope, data. auto.
Defined.
